(** * AI Project Manager Assistant: scoring, ranking and reporting core

    A shallow embedding of the rule-based part of the backend
    ([backend/app/services/ai_service.py], [report_service.py] and
    [task_service.py]) together with the properties the specification
    states about it. *)

From Stdlib Require Import ZArith List String Ascii Bool Lia Permutation Sorted.
From Stdlib Require Import DecimalString QArith.
From Stdlib Require PrimFloat FloatOps.
Import ListNotations.
Open Scope string_scope.
Open Scope Z_scope.

(** Python's [==] on strings. *)
Infix "==" := String.eqb (at level 70, no associativity).

(** ** Python values and exceptions *)

(** The exceptions the modelled code can raise. *)
Inductive PyExc : Type :=
| TypeError
| ValueError
| ProviderError.

(** The outcome of a Python call: a returned value or a raised exception. *)
Inductive pyresult (A : Type) : Type :=
| Ok (a : A)
| Raise (e : PyExc).
Arguments Ok {A} a.
Arguments Raise {A} e.

Definition bind {A B : Type} (m : pyresult A) (k : A -> pyresult B) : pyresult B :=
  match m with
  | Ok a => k a
  | Raise e => Raise e
  end.

Notation "x <- m ;; k" := (bind m (fun x => k))
  (at level 61, m at next level, right associativity).

(** A dictionary key that may be absent ([dict.get] then takes its default). *)
Inductive entry (A : Type) : Type :=
| Missing
| Present (a : A).
Arguments Missing {A}.
Arguments Present {A} a.

(** [datetime] values are naive timestamps, counted in microseconds from
    0001-01-01T00:00:00. *)
Definition datetime : Type := Z.

Definition microseconds_per_day : Z := 86400000000.

(** [(a - b).days]: Python normalises a [timedelta] so that [days] is the
    floor of the difference. *)
Definition timedelta_days (a b : datetime) : Z := (a - b) / microseconds_per_day.

(** Truthiness of an optional string: [None] and [''] are falsy. *)
Definition truthy_str (s : option string) : bool :=
  match s with
  | None => false
  | Some s => negb (s == "")
  end.

(** [x == s] where [x] may be [None], which equals no string. *)
Definition opt_str_eq (x : option string) (s : string) : bool :=
  match x with
  | Some x => x == s
  | None => false
  end.

(** ** Binary64 arithmetic

    Python floats are IEEE-754 binary64 numbers and every operation returns
    the exact result rounded to the nearest representable value, ties to
    even.  Only non-negative quantities far from the overflow and underflow
    thresholds occur here (task counts, ratios of counts and the literals
    0.2, 0.3, 0.7 and 100), so a float is carried as a dyadic number
    [man * 2 ^ exp] with [man >= 0]. *)
Module F64.

Record t : Type := mk { man : Z; exp : Z }.

(** Numerator and denominator of the exact value. *)
Definition num (x : t) : Z := if 0 <=? exp x then man x * 2 ^ exp x else man x.
Definition den (x : t) : Z := if 0 <=? exp x then 1 else 2 ^ (- exp x).

(** [ilog2 n d] is the floor of the binary logarithm of [n / d], for
    positive [n] and [d]. *)
Definition ilog2 (n d : Z) : Z :=
  let k := Z.log2 n - Z.log2 d in
  if (if 0 <=? k then d * 2 ^ k <=? n else d <=? n * 2 ^ (- k)) then k else k - 1.

(** [n / d] rounded to the nearest integer, ties to even. *)
Definition rne_div (n d : Z) : Z :=
  let q := n / d in
  let r := n mod d in
  match 2 * r ?= d with
  | Lt => q
  | Gt => q + 1
  | Eq => if Z.even q then q else q + 1
  end.

(** The binary64 number nearest to [n / d] (53 significant bits). *)
Definition round (n d : Z) : t :=
  if n =? 0 then mk 0 0
  else
    let e := ilog2 n d - 52 in
    mk (if 0 <=? e then rne_div n (d * 2 ^ e) else rne_div (n * 2 ^ (- e)) d) e.

(** [float(n)] *)
Definition of_int (n : Z) : t := round n 1.

(** [a / b] on two ints: true division is correctly rounded. *)
Definition div_int (a b : Z) : t := round a b.

Definition mul (x y : t) : t := round (num x * num y) (den x * den y).

(** [x < y] on floats. *)
Definition ltb (x y : t) : bool := num x * den y <? num y * den x.

(** [n > x] for an int [n] and a float [x]: Python compares the exact
    values. *)
Definition int_gtb (n : Z) (x : t) : bool := num x <? n * den x.

(** [int(x)] *)
Definition to_int (x : t) : Z := num x / den x.

(** [round(x, 1)]: the exact value rounded to one decimal, ties to even,
    then the nearest float to that decimal. *)
Definition round1 (x : t) : t := round (rne_div (10 * num x) (den x)) 10.

(** The literals of [report_service.py]. *)
Definition lit_0_3 : t := round 3 10.
Definition lit_0_2 : t := round 2 10.
Definition lit_0_7 : t := round 7 10.

(** The machine float with the same value, to compare the model with the
    processor's binary64 arithmetic on sample values. *)
Definition to_prim (x : t) : PrimFloat.float :=
  FloatOps.Z.ldexp (PrimFloat.of_uint63 (Uint63Axioms.of_Z (man x))) (exp x).

Definition prim_of_int (n : Z) : PrimFloat.float :=
  PrimFloat.of_uint63 (Uint63Axioms.of_Z n).

End F64.

(** ** Values handed to [json.dumps] and stored in the result dictionaries *)

#[local] Set Warnings "-register-all".
Inductive pyval : Type :=
| VNone
| VBool (b : bool)
| VInt (z : Z)
| VFloat (x : F64.t)
| VStr (s : string)
| VDatetime (d : datetime)
| VList (l : list pyval)
| VDict (items : list (string * pyval)).

Definition pydict : Type := list (string * pyval).

(** [d.get(key)] *)
Fixpoint dict_get (d : pydict) (key : string) : option pyval :=
  match d with
  | [] => None
  | (k, v) :: d' => if k == key then Some v else dict_get d' key
  end.

(** [d.get(key, default)] *)
Definition dict_get_default (d : pydict) (key : string) (default : pyval) : pyval :=
  match dict_get d key with
  | Some v => v
  | None => default
  end.

(** The default encoder of [json.dumps] knows [None], booleans, numbers,
    strings, lists and dictionaries; a [datetime] anywhere in the value is
    rejected. *)
Fixpoint serializable (v : pyval) : bool :=
  match v with
  | VDatetime _ => false
  | VList l => forallb serializable l
  | VDict items => forallb (fun kv => match kv with (_, x) => serializable x end) items
  | _ => true
  end.

(** [json.dumps(v)]: a JSON text is represented by the value it encodes;
    an unsupported object raises [TypeError]. *)
Definition json_dumps (v : pyval) : pyresult pyval :=
  if serializable v then Ok v else Raise TypeError.

(** [try: body except: handler] *)
Definition try_except {A : Type} (body : pyresult A) (handler : PyExc -> pyresult A)
  : pyresult A :=
  match body with
  | Ok a => Ok a
  | Raise e => handler e
  end.

(** ** models/task.py *)

Inductive TaskStatus : Type := TODO | IN_PROGRESS | DONE | BLOCKED | UNCLEAR.
Inductive TaskType : Type := FEATURE | BUG | RESEARCH | TYPE_BLOCKED | TYPE_UNCLEAR.
Inductive RiskLevel : Type := LOW | MEDIUM | HIGH.

Definition TaskStatus_value (s : TaskStatus) : string :=
  match s with
  | TODO => "todo"
  | IN_PROGRESS => "in_progress"
  | DONE => "done"
  | BLOCKED => "blocked"
  | UNCLEAR => "unclear"
  end.

Definition TaskType_value (t : TaskType) : string :=
  match t with
  | FEATURE => "feature"
  | BUG => "bug"
  | RESEARCH => "research"
  | TYPE_BLOCKED => "blocked"
  | TYPE_UNCLEAR => "unclear"
  end.

Definition RiskLevel_value (r : RiskLevel) : string :=
  match r with
  | LOW => "low"
  | MEDIUM => "medium"
  | HIGH => "high"
  end.

(** ** The task dictionaries handed to AIService

    One field per key the services read.  For [deadline], [description],
    [assignee], [ai_risk_level] and [task_type] the code only ever goes
    through [task.get(key)], which cannot tell an absent key from a [None]
    value, so [None] stands for both.  [current_date], when present, holds
    a [datetime] (every caller stores [datetime.now()]); [None] is the
    absent key.  [story_points] distinguishes the absent key (default 0)
    from a stored [None], which [>=] rejects.  The score is a Python float
    built from [0.0] by adding small integers, all exactly representable,
    so it is carried as an integer. *)
Record TaskDict : Type := mkTaskDict {
  id : entry Z;
  title : string;
  description : option string;
  status : string;
  deadline : option datetime;
  assignee : option string;
  story_points : entry (option Z);
  current_date : option datetime;
  ai_risk_level : option string;
  task_type : option string;
  priority_score : option Z
}.

Definition set_priority_score (task : TaskDict) (s : Z) : TaskDict :=
  {| id := id task; title := title task; description := description task;
     status := status task; deadline := deadline task;
     assignee := assignee task; story_points := story_points task;
     current_date := current_date task; ai_risk_level := ai_risk_level task;
     task_type := task_type task; priority_score := Some s |}.

Definition of_opt_str (o : option string) : pyval :=
  match o with
  | Some s => VStr s
  | None => VNone
  end.

Definition of_opt_datetime (o : option datetime) : pyval :=
  match o with
  | Some d => VDatetime d
  | None => VNone
  end.

(** The dictionary as a Python value, with the keys it holds. *)
Definition task_dict_value (task : TaskDict) : pyval :=
  VDict
    ((match id task with
      | Present i => [("id", VInt i)]
      | Missing => []
      end)
     ++ [("title", VStr (title task));
         ("description", of_opt_str (description task));
         ("status", VStr (status task));
         ("deadline", of_opt_datetime (deadline task));
         ("assignee", of_opt_str (assignee task))]
     ++ (match priority_score task with
         | Some s => [("priority_score", VFloat (F64.of_int s))]
         | None => []
         end)
     ++ [("ai_risk_level", of_opt_str (ai_risk_level task));
         ("task_type", of_opt_str (task_type task))]
     ++ (match current_date task with
         | Some now => [("current_date", VDatetime now)]
         | None => []
         end)
     ++ (match story_points task with
         | Present (Some n) => [("story_points", VInt n)]
         | Present None => [("story_points", VNone)]
         | Missing => []
         end)).

(** ** The rows of the database (models/) *)

Module Project.
Record t : Type := mk { id : Z; name : string }.
End Project.

Module Task.
Record t : Type := mk {
  id : Z;
  project_id : Z;
  title : string;
  description : option string;
  status : TaskStatus;
  task_type : TaskType;
  deadline : option datetime;
  assignee : option string;
  priority_score : Z;
  ai_risk_level : RiskLevel;
  story_points : option Z
}.
End Task.

(** [date] is a calendar day (the day number of the timestamp); the three
    JSON columns hold JSON texts and [summary_text] whatever the summary
    dictionary carried under that key. *)
Module DailyReport.
Record t : Type := mk {
  id : Z;
  project_id : Z;
  date : Z;
  summary_text : pyval;
  priority_list_json : pyval;
  risks_json : pyval;
  blocked_tasks_json : pyval
}.
End DailyReport.

(** ** services/ai_service.py *)

Module AIService.

(** [task.get('deadline') and task.get('deadline') < task.get('current_date')]:
    comparing a [datetime] with [None] is a [TypeError]. *)
Definition is_overdue (task : TaskDict) : pyresult bool :=
  match deadline task with
  | None => Ok false
  | Some d =>
      match current_date task with
      | Some now => Ok (d <? now)
      | None => Raise TypeError
      end
  end.

(** [task.get('story_points', 0) >= 8]. *)
Definition high_complexity (task : TaskDict) : pyresult bool :=
  match story_points task with
  | Missing => Ok (0 >=? 8)
  | Present (Some n) => Ok (n >=? 8)
  | Present None => Raise TypeError
  end.

Definition risk_of_score (risk_score : Z) : string :=
  if risk_score >=? 4 then RiskLevel_value HIGH
  else if risk_score >=? 2 then RiskLevel_value MEDIUM
  else RiskLevel_value LOW.

Definition detect_risk_level (task : TaskDict) : pyresult string :=
  let risk_score := 0 in
  overdue <- is_overdue task ;;
  let risk_score := if overdue then risk_score + 3 else risk_score in
  let risk_score :=
    if negb (truthy_str (assignee task)) then risk_score + 1 else risk_score in
  let risk_score :=
    if status task == "blocked" then risk_score + 3 else risk_score in
  let risk_score :=
    if (status task == "unclear") || negb (truthy_str (description task))
    then risk_score + 2 else risk_score in
  complex <- high_complexity task ;;
  let risk_score := if complex then risk_score + 1 else risk_score in
  Ok (risk_of_score risk_score).

(** [(task['deadline'] - task.get('current_date', task['deadline'])).days] *)
Definition days_until_deadline (d : datetime) (task : TaskDict) : Z :=
  timedelta_days d (match current_date task with
                    | Some now => now
                    | None => d
                    end).

Definition urgency (days : Z) : Z :=
  if days <? 0 then 100
  else if days <=? 1 then 50
  else if days <=? 3 then 30
  else if days <=? 7 then 20
  else 0.

(** [risk_weights.get(task.get('ai_risk_level', 'low'), 5)] *)
Definition risk_weights_get (level : option string) : Z :=
  match level with
  | None => 5
  | Some l =>
      if l == "high" then 30
      else if l == "medium" then 15
      else if l == "low" then 5
      else 5
  end.

Definition calculate_priority_score (task : TaskDict) : Z :=
  let score := 0 in
  let score :=
    match deadline task with
    | Some d => score + urgency (days_until_deadline d task)
    | None => score
    end in
  let score :=
    if status task == "blocked" then score + 40
    else if status task == "in_progress" then score + 25
    else score in
  let score := score + risk_weights_get (ai_risk_level task) in
  let score :=
    if opt_str_eq (task_type task) "bug" then score + 20 else score in
  score.

(** The loop of [rank_tasks_by_priority]: every dictionary of the list gets
    its [priority_score] overwritten in place. *)
Definition score_tasks (tasks : list TaskDict) : list TaskDict :=
  map (fun task => set_priority_score task (calculate_priority_score task)) tasks.

(** [x.get('priority_score', 0)] *)
Definition sort_key (x : TaskDict) : Z :=
  match priority_score x with
  | Some s => s
  | None => 0
  end.

(** [sorted(tasks, key=..., reverse=True)]: the built-in sort is stable, and
    with [reverse=True] it still leaves equal keys in their original order.
    [insert_desc x l] places [x], which precedes all of [l] in the input,
    in front of the first element whose key does not exceed its own. *)
Fixpoint insert_desc (key : TaskDict -> Z) (x : TaskDict) (l : list TaskDict)
  : list TaskDict :=
  match l with
  | [] => [x]
  | y :: l' =>
      if key y <=? key x then x :: y :: l'
      else y :: insert_desc key x l'
  end.

Fixpoint sorted_reverse (key : TaskDict -> Z) (l : list TaskDict) : list TaskDict :=
  match l with
  | [] => []
  | x :: l' => insert_desc key x (sorted_reverse key l')
  end.

Definition rank_tasks_by_priority (tasks : list TaskDict) : list TaskDict :=
  sorted_reverse sort_key (score_tasks tasks).

(** The [try] block of [generate_daily_summary]: the request to the
    narrative provider, [response.content[0].text], the search for the
    braces and [json.loads].  Any of them may raise; when none does, the
    result is the decoded JSON object. *)
Definition Provider : Type := list TaskDict -> string -> pyresult pydict.

Definition fallback_summary : pydict :=
  [("key_progress", VList []);
   ("risks", VList []);
   ("urgent_tasks", VList []);
   ("blocked_items", VList []);
   ("summary_text", VStr "Unable to generate summary at this time.")].

Definition generate_daily_summary (provider : Provider) (tasks : list TaskDict)
    (project_name : string) : pyresult pydict :=
  try_except (provider tasks project_name) (fun _ => Ok fallback_summary).

End AIService.

(** ** services/report_service.py *)

Module ReportService.

(** The database session: the three tables the service queries. *)
Record Session : Type := mkSession {
  projects : list Project.t;
  tasks : list Task.t;
  daily_reports : list DailyReport.t
}.

(** [date.today()], for a clock that reads [now]. *)
Definition today (now : datetime) : Z := now / microseconds_per_day.

(** The dictionary built for each task of the project. *)
Definition task_dict (now : datetime) (task : Task.t) : TaskDict :=
  {| id := Present (Task.id task);
     title := Task.title task;
     description := Task.description task;
     status := TaskStatus_value (Task.status task);
     deadline := Task.deadline task;
     assignee := Task.assignee task;
     story_points := Missing;
     current_date := Some now;
     ai_risk_level := Some (RiskLevel_value (Task.ai_risk_level task));
     task_type := Some (TaskType_value (Task.task_type task));
     priority_score := Some (Task.priority_score task) |}.

Definition blocked_entry (t : TaskDict) : pyval :=
  VDict [("task", VStr (title t)); ("reason", VStr "Marked as blocked")].

(** The primary key given to an inserted row: one more than the largest. *)
Definition next_id (reports : list DailyReport.t) : Z :=
  1 + fold_right (fun r m => Z.max (DailyReport.id r) m) 0 reports.

Definition same_day (project_id day : Z) (r : DailyReport.t) : bool :=
  (DailyReport.project_id r =? project_id) && (DailyReport.date r =? day).

(** Assigning the four content attributes of the row [existing]. *)
Definition overwrite (existing : DailyReport.t)
    (summary_text priority_list_json risks_json blocked_tasks_json : pyval)
  : DailyReport.t :=
  {| DailyReport.id := DailyReport.id existing;
     DailyReport.project_id := DailyReport.project_id existing;
     DailyReport.date := DailyReport.date existing;
     DailyReport.summary_text := summary_text;
     DailyReport.priority_list_json := priority_list_json;
     DailyReport.risks_json := risks_json;
     DailyReport.blocked_tasks_json := blocked_tasks_json |}.

(** The table after the first row satisfying [p] has been replaced. *)
Fixpoint update_first (p : DailyReport.t -> bool) (r' : DailyReport.t)
    (reports : list DailyReport.t) : list DailyReport.t :=
  match reports with
  | [] => []
  | r :: rest => if p r then r' :: rest else r :: update_first p r' rest
  end.

Definition generate_daily_report (db : Session) (provider : AIService.Provider)
    (now : datetime) (project_id : Z) : pyresult (Session * DailyReport.t) :=
  match find (fun p => Project.id p =? project_id) (projects db) with
  | None => Raise ValueError
  | Some project =>
      let tasks := filter (fun t => Task.project_id t =? project_id) (tasks db) in
      let task_dicts := map (task_dict now) tasks in
      let ranked_tasks := AIService.rank_tasks_by_priority task_dicts in
      (* the ranking has written the scores into the dictionaries *)
      let task_dicts := AIService.score_tasks task_dicts in
      ai_summary <-
        AIService.generate_daily_summary provider task_dicts (Project.name project) ;;
      let blocked_tasks :=
        map blocked_entry (filter (fun t => status t == "blocked") task_dicts) in
      let summary_text := dict_get_default ai_summary "summary_text" (VStr "") in
      priority_list_json <-
        json_dumps (VList (map task_dict_value (firstn 10 ranked_tasks))) ;;
      risks_json <- json_dumps (dict_get_default ai_summary "risks" (VList [])) ;;
      blocked_tasks_json <- json_dumps (VList blocked_tasks) ;;
      match find (same_day project_id (today now)) (daily_reports db) with
      | Some existing_report =>
          let updated :=
            overwrite existing_report summary_text priority_list_json
              risks_json blocked_tasks_json in
          Ok ({| projects := projects db;
                 tasks := ReportService.tasks db;
                 daily_reports :=
                   update_first (same_day project_id (today now)) updated
                     (daily_reports db) |},
              updated)
      | None =>
          let report :=
            {| DailyReport.id := next_id (daily_reports db);
               DailyReport.project_id := project_id;
               DailyReport.date := today now;
               DailyReport.summary_text := summary_text;
               DailyReport.priority_list_json := priority_list_json;
               DailyReport.risks_json := risks_json;
               DailyReport.blocked_tasks_json := blocked_tasks_json |} in
          Ok ({| projects := projects db;
                 tasks := ReportService.tasks db;
                 daily_reports := daily_reports db ++ [report] |},
              report)
      end
  end.

(** [str(n)] for an int. *)
Definition str (n : Z) : string := NilZero.string_of_int (Z.to_int n).

Definition len {A : Type} (l : list A) : Z := Z.of_nat (List.length l).

Definition is_overdue (now : datetime) (t : Task.t) : bool :=
  match Task.deadline t with
  | Some d => (d <? now) && negb (TaskStatus_value (Task.status t) == "done")
  | None => false
  end.

Definition get_timeline_status (db : Session) (now : datetime) (project_id : Z)
  : pydict :=
  let tasks := filter (fun t => Task.project_id t =? project_id) (tasks db) in
  match tasks with
  | [] =>
      [("status", VStr "Needs More Info");
       ("reason", VStr "No tasks found in project")]
  | _ :: _ =>
      let total_tasks := len tasks in
      let completed_tasks :=
        len (filter (fun t => TaskStatus_value (Task.status t) == "done") tasks) in
      let blocked_tasks :=
        len (filter (fun t => TaskStatus_value (Task.status t) == "blocked") tasks) in
      let overdue_tasks := len (filter (is_overdue now) tasks) in
      let high_risk_tasks :=
        len (filter (fun t => RiskLevel_value (Task.ai_risk_level t) == "high") tasks) in
      let completion_rate :=
        if 0 <? total_tasks then F64.div_int completed_tasks total_tasks
        else F64.of_int 0 in
      let '(status, reason) :=
        if F64.int_gtb blocked_tasks (F64.mul (F64.of_int total_tasks) F64.lit_0_3)
           || F64.int_gtb overdue_tasks (F64.mul (F64.of_int total_tasks) F64.lit_0_2)
        then ("Off Track",
              str blocked_tasks ++ " blocked tasks, "
              ++ str overdue_tasks ++ " overdue tasks")
        else if F64.int_gtb high_risk_tasks
                  (F64.mul (F64.of_int total_tasks) F64.lit_0_3)
                || (0 <? overdue_tasks)
        then ("At Risk",
              str high_risk_tasks ++ " high-risk tasks, "
              ++ str overdue_tasks ++ " overdue tasks")
        else if F64.ltb F64.lit_0_7 completion_rate
        then ("On Track",
              str (F64.to_int (F64.mul completion_rate (F64.of_int 100)))
              ++ "% tasks completed")
        else ("On Track", "Project progressing normally") in
      [("status", VStr status);
       ("reason", VStr reason);
       ("metrics",
        VDict [("total_tasks", VInt total_tasks);
               ("completed", VInt completed_tasks);
               ("blocked", VInt blocked_tasks);
               ("overdue", VInt overdue_tasks);
               ("high_risk", VInt high_risk_tasks);
               ("completion_rate",
                VFloat (F64.round1 (F64.mul completion_rate (F64.of_int 100))))])]
  end.

End ReportService.

(** ** services/task_service.py: the deadline of an imported record *)

Module TaskService.

(** *** [datetime.strptime] for the two formats in use

    The library turns a format into a regular expression, one group per
    directive, matches it at the start of the data, insists that nothing
    is left over and builds the date, all failures being [ValueError].
    Strings are ASCII here. *)

Inductive directive : Type := dY | dm | dd.

Inductive fmt_item : Type :=
| Dir (x : directive)
| Lit (c : ascii).

(** ['%Y-%m-%d'] and ['%m/%d/%Y'] *)
Definition fmt_iso : list fmt_item := [Dir dY; Lit "-"; Dir dm; Lit "-"; Dir dd].
Definition fmt_us : list fmt_item := [Dir dm; Lit "/"; Dir dd; Lit "/"; Dir dY].

Definition cls : Type := ascii -> bool.

Definition between (lo hi : ascii) : cls :=
  fun c => (nat_of_ascii lo <=? nat_of_ascii c)%nat
           && (nat_of_ascii c <=? nat_of_ascii hi)%nat.

Definition digit : cls := between "0" "9".
Definition only (a : ascii) : cls := fun c => Ascii.eqb a c.

(** The alternatives of a directive, in the order the regular expression
    tries them:
    [%Y] is [\d\d\d\d], [%m] is [1[0-2]|0[1-9]|[1-9]] and
    [%d] is [3[0-1]|[1-2]\d|0[1-9]|[1-9]| [1-9]]. *)
Definition alternatives (x : directive) : list (list cls) :=
  match x with
  | dY => [[digit; digit; digit; digit]]
  | dm => [[only "1"; between "0" "2"]; [only "0"; between "1" "9"];
           [between "1" "9"]]
  | dd => [[only "3"; between "0" "1"]; [between "1" "2"; digit];
           [only "0"; between "1" "9"]; [between "1" "9"];
           [only " "; between "1" "9"]]
  end.

(** One alternative against the front of the data: the matched characters
    and what follows them. *)
Fixpoint match_seq (a : list cls) (s : list ascii)
  : option (list ascii * list ascii) :=
  match a with
  | [] => Some ([], s)
  | c :: a' =>
      match s with
      | [] => None
      | x :: s' =>
          if c x then
            match match_seq a' s' with
            | Some (m, rest) => Some (x :: m, rest)
            | None => None
            end
          else None
      end
  end.

(** Backtracking match of a whole format: the first alternative of each
    group that lets the rest of the format match wins.  Returns the groups
    and the unconsumed data. *)
Fixpoint regex_match (fmt : list fmt_item) (s : list ascii)
  : option (list (directive * list ascii) * list ascii) :=
  match fmt with
  | [] => Some ([], s)
  | Lit c :: fmt' =>
      match s with
      | x :: s' => if Ascii.eqb c x then regex_match fmt' s' else None
      | [] => None
      end
  | Dir x :: fmt' =>
      (fix try (alts : list (list cls)) :=
         match alts with
         | [] => None
         | a :: alts' =>
             match match_seq a s with
             | Some (m, rest) =>
                 match regex_match fmt' rest with
                 | Some (groups, remaining) => Some ((x, m) :: groups, remaining)
                 | None => try alts'
                 end
             | None => try alts'
             end
         end) (alternatives x)
  end.

(** [int(group)]: decimal digits, a leading blank being ignored. *)
Definition int_of (m : list ascii) : Z :=
  fold_left
    (fun acc c => if digit c then 10 * acc + (Z.of_nat (nat_of_ascii c) - 48) else acc)
    m 0.

Definition directive_eqb (x y : directive) : bool :=
  match x, y with
  | dY, dY | dm, dm | dd, dd => true
  | _, _ => false
  end.

Fixpoint group (x : directive) (groups : list (directive * list ascii)) (default : Z)
  : Z :=
  match groups with
  | [] => default
  | (y, m) :: groups' => if directive_eqb x y then int_of m else group x groups' default
  end.

Definition is_leap (year : Z) : bool :=
  (year mod 4 =? 0) && (negb (year mod 100 =? 0) || (year mod 400 =? 0)).

Definition days_in_month (year month : Z) : Z :=
  if (month =? 2) && is_leap year then 29
  else nth (Z.to_nat month) [0; 31; 28; 31; 30; 31; 30; 31; 31; 30; 31; 30; 31] 0.

Definition days_before_year (year : Z) : Z :=
  let y := year - 1 in
  y * 365 + y / 4 - y / 100 + y / 400.

Definition days_before_month (year month : Z) : Z :=
  nth (Z.to_nat month) [0; 0; 31; 59; 90; 120; 151; 181; 212; 243; 273; 304; 334] 0
  + (if (2 <? month) && is_leap year then 1 else 0).

(** [datetime(year, month, day)]: midnight of that day, or [ValueError]
    when the date does not exist. *)
Definition make_datetime (year month day : Z) : pyresult datetime :=
  if (1 <=? year) && (year <=? 9999) && (1 <=? month) && (month <=? 12)
     && (1 <=? day) && (day <=? days_in_month year month)
  then Ok ((days_before_year year + days_before_month year month + day - 1)
           * microseconds_per_day)
  else Raise ValueError.

Definition strptime (data_string : string) (format : list fmt_item)
  : pyresult datetime :=
  match regex_match format (list_ascii_of_string data_string) with
  | None => Raise ValueError
  | Some (groups, []) =>
      make_datetime (group dY groups 1900) (group dm groups 1) (group dd groups 1)
  | Some (_, _ :: _) => Raise ValueError
  end.

(** *** import_from_csv, "Parse deadline"

    [deadline_str] is the cell of the row, [None] when the row has none. *)
Definition csv_deadline (deadline_str : option string) : pyresult (option datetime) :=
  let deadline := None in
  if truthy_str deadline_str then
    let deadline_str := match deadline_str with Some s => s | None => "" end in
    try_except
      (d <- strptime deadline_str fmt_iso ;; Ok (Some d))
      (fun _ =>
         try_except
           (d <- strptime deadline_str fmt_us ;; Ok (Some d))
           (fun _ => Ok deadline))
  else Ok deadline.

(** *** import_from_trello, "Parse deadline"

    [card.due_date[:10]] goes through the ISO format only. *)
Definition trello_deadline (due_date : option string) : pyresult (option datetime) :=
  let deadline := None in
  if truthy_str due_date then
    let due_date := match due_date with Some s => s | None => "" end in
    d <- strptime (substring 0 10 due_date) fmt_iso ;;
    Ok (Some d)
  else Ok deadline.

(** The deadlines of the cards of a board, as [import_from_trello] computes
    them inside its [try]; the handler prints the exception and raises it
    again. *)
Fixpoint trello_deadlines (due_dates : list (option string))
  : pyresult (list (option datetime)) :=
  match due_dates with
  | [] => Ok []
  | due :: rest =>
      d <- trello_deadline due ;;
      ds <- trello_deadlines rest ;;
      Ok (d :: ds)
  end.

Definition import_from_trello (due_dates : list (option string))
  : pyresult (list (option datetime)) :=
  try_except (trello_deadlines due_dates) (fun e => Raise e).

End TaskService.

(** ** Python strings (ASCII) *)

Definition is_upper (c : ascii) : bool :=
  (65 <=? nat_of_ascii c)%nat && (nat_of_ascii c <=? 90)%nat.

Definition lower_char (c : ascii) : ascii :=
  if is_upper c then ascii_of_nat (nat_of_ascii c + 32) else c.

(** [s.lower()] *)
Fixpoint lower (s : string) : string :=
  match s with
  | EmptyString => EmptyString
  | String c s' => String (lower_char c) (lower s')
  end.

(** [s.replace(' ', '_')] *)
Fixpoint replace_spaces (s : string) : string :=
  match s with
  | EmptyString => EmptyString
  | String c s' => String (if Ascii.eqb c " " then "_"%char else c) (replace_spaces s')
  end.

(** [word in text] *)
Fixpoint contains (word text : string) : bool :=
  prefix word text
  || match text with
     | EmptyString => false
     | String _ text' => contains word text'
     end.

(** [any(word in text for word in words)] *)
Definition any_in (words : list string) (text : string) : bool :=
  existsb (fun word => contains word text) words.

(** The characters [str.strip()] removes: tab to carriage return, the four
    separators 28 to 31 and the blank. *)
Definition is_space (c : ascii) : bool :=
  let n := nat_of_ascii c in
  ((9 <=? n)%nat && (n <=? 13)%nat) || ((28 <=? n)%nat && (n <=? 32)%nat).

Fixpoint lstrip (s : string) : string :=
  match s with
  | EmptyString => EmptyString
  | String c s' => if is_space c then lstrip s' else s
  end.

(** [rstrip s] drops the trailing blanks: a character is kept when it is
    not blank or something is kept after it. *)
Fixpoint rstrip (s : string) : string :=
  match s with
  | EmptyString => EmptyString
  | String c s' =>
      match rstrip s' with
      | EmptyString => if is_space c then EmptyString else String c EmptyString
      | rest => String c rest
      end
  end.

(** [s.strip()] *)
Definition strip (s : string) : string := rstrip (lstrip s).

(** [a or b] on optional strings: [a] when it is truthy, else [b]. *)
Definition or_else (a b : option string) : option string :=
  if truthy_str a then a else b.

(** ** Exceptions beyond those of the scoring core

    Attribute access on [None] raises [AttributeError]. *)
Inductive PyError : Type :=
| Std (e : PyExc)
| AttributeError.

Inductive outcome (A : Type) : Type :=
| Returns (a : A)
| Raises (e : PyError).
Arguments Returns {A} a.
Arguments Raises {A} e.

Definition outcome_of {A : Type} (m : pyresult A) : outcome A :=
  match m with
  | Ok a => Returns a
  | Raise e => Raises (Std e)
  end.

Definition and_then {A B : Type} (m : outcome A) (k : A -> outcome B) : outcome B :=
  match m with
  | Returns a => k a
  | Raises e => Raises e
  end.

(** ** services/ai_service.py, continued *)

(** The result of [analyze_task]: a JSON object whose entries, when
    present, have the types the prompt asks for ([null] allowed). *)
Module Analysis.
Record t : Type := mk {
  description : entry (option string);
  acceptance_criteria : entry pyval;
  subtasks : entry pyval;
  story_points : entry (option Z);
  task_type : entry (option string);
  tags : entry pyval
}.
End Analysis.

(** [d.get(key, default)] on such an entry *)
Definition entry_get {A : Type} (e : entry A) (default : A) : A :=
  match e with
  | Present a => a
  | Missing => default
  end.

(** The [try] block of [analyze_task]: the request, the search for the
    braces and [json.loads]. *)
Definition AnalysisProvider : Type := string -> option string -> pyresult Analysis.t.

(** [task_description] is a string for the callers that pass one and
    [None] when a CSV row gave none. *)
Definition analyze_task (provider : AnalysisProvider) (task_title : string)
    (task_description : option string) : pyresult Analysis.t :=
  try_except (provider task_title task_description)
    (fun _ =>
       Ok {| Analysis.description :=
               Present (or_else task_description (Some task_title));
             Analysis.acceptance_criteria := Present (VList []);
             Analysis.subtasks := Present (VList []);
             Analysis.story_points := Present (Some 3);
             Analysis.task_type := Present (Some "feature");
             Analysis.tags := Present (VList []) |}).

(** The [try] block of [generate_stakeholder_update]: the request and
    [response.content[0].text]. *)
Definition UpdateProvider : Type := pydict -> string -> pyresult string.

(** The prompt embeds [json.dumps(daily_summary, indent=2)] before the
    [try] is entered. *)
Definition generate_stakeholder_update (provider : UpdateProvider)
    (daily_summary : pydict) (project_name : string) : pyresult string :=
  _ <- json_dumps (VDict daily_summary) ;;
  try_except (provider daily_summary project_name)
    (fun _ =>
       Ok ("Project " ++ project_name ++ " update: Work is progressing as planned.")).

Definition bug_words : list string := ["fix"; "bug"; "error"; "issue"; "broken"].
Definition research_words : list string :=
  ["research"; "investigate"; "explore"; "study"].
Definition blocked_words : list string := ["blocked"; "waiting"; "dependency"].

Definition classify_task_type (title description : string) : string :=
  let text := lower (title ++ " " ++ description) in
  if any_in bug_words text then TaskType_value BUG
  else if any_in research_words text then TaskType_value RESEARCH
  else if any_in blocked_words text then TaskType_value TYPE_BLOCKED
  else if (description == "")
          || (Z.of_nat (String.length (strip description)) <? 10)
  then TaskType_value TYPE_UNCLEAR
  else TaskType_value FEATURE.

(** ** services/report_service.py, continued *)

(** *** [str(report.date)]

    The date of a report is a day number counted from 0001-01-01; the
    library turns the ordinal (one more) into year, month and day and
    prints them as YYYY-MM-DD. *)

Definition DAYS_IN_MONTH (month : Z) : Z :=
  nth (Z.to_nat month) [-1; 31; 28; 31; 30; 31; 30; 31; 31; 30; 31; 30; 31] 0.

Definition DAYS_BEFORE_MONTH (month : Z) : Z :=
  nth (Z.to_nat month) [-1; 0; 31; 59; 90; 120; 151; 181; 212; 243; 273; 304; 334] 0.

Definition ord2ymd (n : Z) : Z * Z * Z :=
  let n := n - 1 in
  let n400 := n / 146097 in
  let n := n mod 146097 in
  let year := n400 * 400 + 1 in
  let n100 := n / 36524 in
  let n := n mod 36524 in
  let n4 := n / 1461 in
  let n := n mod 1461 in
  let n1 := n / 365 in
  let n := n mod 365 in
  let year := year + n100 * 100 + n4 * 4 + n1 in
  if (n1 =? 4) || (n100 =? 4) then (year - 1, 12, 31)
  else
    let leapyear := (n1 =? 3) && (negb (n4 =? 24) || (n100 =? 3)) in
    let month := Z.shiftr (n + 50) 5 in
    let preceding :=
      DAYS_BEFORE_MONTH month + (if (2 <? month) && leapyear then 1 else 0) in
    if n <? preceding then
      let month := month - 1 in
      let preceding :=
        preceding
        - (DAYS_IN_MONTH month + (if (month =? 2) && leapyear then 1 else 0)) in
      (year, month, n - preceding + 1)
    else (year, month, n - preceding + 1).

(** ["%0*d"]: decimal digits, zeros in front up to the width. *)
Definition zero_pad (width : nat) (n : Z) : string :=
  let digits := ReportService.str n in
  string_of_list_ascii (repeat "0"%char (width - String.length digits)) ++ digits.

Definition isoformat (year month day : Z) : string :=
  zero_pad 4 year ++ "-" ++ zero_pad 2 month ++ "-" ++ zero_pad 2 day.

Definition date_str (date : Z) : string :=
  let '(year, month, day) := ord2ymd (date + 1) in
  isoformat year month day.

(** [json.loads(text)]: the value a stored JSON text encodes.  The texts
    of a report row are never empty, so the [if ... else []] around each
    call takes its first branch. *)
Definition json_loads (text : pyval) : pyval := text.

Definition get_report_summary (db : ReportService.Session) (report_id : Z)
  : pyresult pydict :=
  match find (fun r => DailyReport.id r =? report_id)
             (ReportService.daily_reports db) with
  | None => Raise ValueError
  | Some report =>
      Ok [("date", VStr (date_str (DailyReport.date report)));
          ("summary", DailyReport.summary_text report);
          ("priority_tasks", json_loads (DailyReport.priority_list_json report));
          ("risks", json_loads (DailyReport.risks_json report));
          ("blocked_tasks", json_loads (DailyReport.blocked_tasks_json report))]
  end.

(** [.filter(project_id == ...).order_by(DailyReport.date.desc()).first()]:
    the report of the project with the latest date (among reports of one
    date, which the service never creates, the one stored first). *)
Definition latest_report (project_id : Z) (reports : list DailyReport.t)
  : option DailyReport.t :=
  fold_left
    (fun best r =>
       if DailyReport.project_id r =? project_id then
         match best with
         | None => Some r
         | Some b => if DailyReport.date b <? DailyReport.date r then Some r else best
         end
       else best)
    reports None.

Definition generate_stakeholder_email (db : ReportService.Session)
    (summary_provider : AIService.Provider) (update_provider : UpdateProvider)
    (now : datetime) (project_id : Z) : outcome (ReportService.Session * string) :=
  and_then
    (match latest_report project_id (ReportService.daily_reports db) with
     | Some report => Returns (db, report)
     | None =>
         outcome_of
           (ReportService.generate_daily_report db summary_provider now project_id)
     end)
    (fun '(db, report) =>
       match find (fun p => Project.id p =? project_id) (ReportService.projects db) with
       | None => Raises AttributeError
       | Some project =>
           let summary_data :=
             [("summary_text", DailyReport.summary_text report);
              ("priority_tasks", json_loads (DailyReport.priority_list_json report));
              ("risks", json_loads (DailyReport.risks_json report));
              ("blocked_tasks", json_loads (DailyReport.blocked_tasks_json report))] in
           and_then
             (outcome_of
                (generate_stakeholder_update update_provider summary_data
                   (Project.name project)))
             (fun text => Returns (db, text))
       end).

(** ** services/task_service.py, continued *)

Definition status_map : list (string * TaskStatus) :=
  [("todo", TODO); ("to_do", TODO); ("in_progress", IN_PROGRESS);
   ("inprogress", IN_PROGRESS); ("doing", IN_PROGRESS); ("done", DONE);
   ("completed", DONE); ("blocked", BLOCKED); ("unclear", UNCLEAR)].

Fixpoint status_map_get (m : list (string * TaskStatus)) (key : string)
    (default : TaskStatus) : TaskStatus :=
  match m with
  | [] => default
  | (k, v) :: m' => if k == key then v else status_map_get m' key default
  end.

Definition _normalize_status (status : string) : TaskStatus :=
  let status_lower := replace_spaces (lower status) in
  status_map_get status_map status_lower TODO.

(** [list_name] is what [board.get_list(list_id).name] gave, or the
    exception it raised; any exception ends in [TODO]. *)
Definition _trello_status_to_task_status (list_name : pyresult string) : TaskStatus :=
  match list_name with
  | Raise _ => TODO
  | Ok name =>
      let list_name := lower name in
      if contains "done" list_name || contains "complete" list_name then DONE
      else if contains "progress" list_name || contains "doing" list_name
      then IN_PROGRESS
      else if contains "blocked" list_name || contains "waiting" list_name
      then BLOCKED
      else TODO
  end.

(** A [Task] object between its construction and the commit: attributes
    the constructor was not given read as [None] (the column defaults are
    applied on insertion), and the two derived attributes hold what the
    service assigned, a float and a plain string. *)
Module NewTask.
Record t : Type := mk {
  project_id : Z;
  title : string;
  description : option string;
  status : TaskStatus;
  task_type : option string;
  assignee : option string;
  deadline : option datetime;
  acceptance_criteria : pyval;
  subtasks : pyval;
  story_points : option Z;
  tags : pyval;
  priority_score : option Z;
  ai_risk_level : option string
}.
End NewTask.

Definition _task_to_dict (now : datetime) (task : NewTask.t) : TaskDict :=
  {| id := Missing;
     title := NewTask.title task;
     description := NewTask.description task;
     status := TaskStatus_value (NewTask.status task);
     deadline := NewTask.deadline task;
     assignee := NewTask.assignee task;
     story_points := Present (NewTask.story_points task);
     current_date := Some now;
     ai_risk_level := NewTask.ai_risk_level task;
     task_type := NewTask.task_type task;
     priority_score := None |}.

(** "Calculate priority and risk", the block every creation path runs. *)
Definition calculate_priority_and_risk (now : datetime) (task : NewTask.t)
  : pyresult NewTask.t :=
  let task_dict := _task_to_dict now task in
  let priority_score := AIService.calculate_priority_score task_dict in
  ai_risk_level <- AIService.detect_risk_level task_dict ;;
  Ok {| NewTask.project_id := NewTask.project_id task;
        NewTask.title := NewTask.title task;
        NewTask.description := NewTask.description task;
        NewTask.status := NewTask.status task;
        NewTask.task_type := NewTask.task_type task;
        NewTask.assignee := NewTask.assignee task;
        NewTask.deadline := NewTask.deadline task;
        NewTask.acceptance_criteria := NewTask.acceptance_criteria task;
        NewTask.subtasks := NewTask.subtasks task;
        NewTask.story_points := NewTask.story_points task;
        NewTask.tags := NewTask.tags task;
        NewTask.priority_score := Some priority_score;
        NewTask.ai_risk_level := Some ai_risk_level |}.

(** A row of [csv.DictReader]: the cell under each header, [None] for the
    cells a short line does not have. *)
Definition csv_row : Type := list (string * option string).

(** [row.get(key)] *)
Fixpoint row_get (row : csv_row) (key : string) : option string :=
  match row with
  | [] => None
  | (k, v) :: row' => if k == key then v else row_get row' key
  end.

(** [row.get(key, default)]: the default stands in for a missing header
    only. *)
Fixpoint row_get_default (row : csv_row) (key : string) (default : string)
  : option string :=
  match row with
  | [] => Some default
  | (k, v) :: row' => if k == key then v else row_get_default row' key default
  end.

(** The body of the loop of [import_from_csv] for one row: no task for a
    row without a title, else the task handed to the session. *)
Definition import_csv_row (provider : AnalysisProvider) (now : datetime)
    (project_id : Z) (row : csv_row) : outcome (option NewTask.t) :=
  let title :=
    or_else (or_else (or_else (row_get row "title") (row_get row "Title"))
               (row_get row "name"))
      (row_get row "Name") in
  let description :=
    or_else (row_get row "description") (row_get_default row "Description" "") in
  let status := or_else (row_get row "status") (row_get_default row "Status" "todo") in
  let assignee := or_else (row_get row "assignee") (row_get_default row "Assignee" "") in
  let deadline_str :=
    or_else (row_get row "deadline") (row_get_default row "Deadline" "") in
  if negb (truthy_str title) then Returns None
  else
    let title := match title with Some s => s | None => "" end in
    and_then (outcome_of (TaskService.csv_deadline deadline_str)) (fun deadline =>
    and_then (outcome_of (analyze_task provider title description)) (fun ai_analysis =>
    and_then
      (match status with
       | Some s => Returns (_normalize_status s)
       | None => Raises AttributeError
       end) (fun status =>
    and_then
      (outcome_of
         (json_dumps (entry_get (Analysis.acceptance_criteria ai_analysis) (VList []))))
      (fun acceptance_criteria =>
    and_then
      (outcome_of (json_dumps (entry_get (Analysis.subtasks ai_analysis) (VList []))))
      (fun subtasks =>
    and_then
      (outcome_of (json_dumps (entry_get (Analysis.tags ai_analysis) (VList []))))
      (fun tags =>
    let task :=
      {| NewTask.project_id := project_id;
         NewTask.title := title;
         NewTask.description :=
           entry_get (Analysis.description ai_analysis) description;
         NewTask.status := status;
         NewTask.task_type :=
           entry_get (Analysis.task_type ai_analysis) (Some "feature");
         NewTask.assignee := if truthy_str assignee then assignee else None;
         NewTask.deadline := deadline;
         NewTask.acceptance_criteria := acceptance_criteria;
         NewTask.subtasks := subtasks;
         NewTask.story_points :=
           entry_get (Analysis.story_points ai_analysis) (Some 3);
         NewTask.tags := tags;
         NewTask.priority_score := None;
         NewTask.ai_risk_level := None |} in
    and_then (outcome_of (calculate_priority_and_risk now task)) (fun task =>
    Returns (Some task)))))))).

(** The loop of [import_from_csv] over the rows of the file: the tasks
    added to the session, in order; the commit follows the loop. *)
Fixpoint import_from_csv (provider : AnalysisProvider) (now : datetime)
    (project_id : Z) (rows : list csv_row) : outcome (list NewTask.t) :=
  match rows with
  | [] => Returns []
  | row :: rows' =>
      and_then (import_csv_row provider now project_id row) (fun task =>
      and_then (import_from_csv provider now project_id rows') (fun tasks =>
      Returns (match task with
               | Some t => t :: tasks
               | None => tasks
               end)))
  end.

(** ** Notions used to state the properties *)

Definition set_deadline (task : TaskDict) (d : option datetime) : TaskDict :=
  {| id := id task; title := title task; description := description task;
     status := status task; deadline := d;
     assignee := assignee task; story_points := story_points task;
     current_date := current_date task; ai_risk_level := ai_risk_level task;
     task_type := task_type task; priority_score := priority_score task |}.

Definition set_current_date (task : TaskDict) (now : option datetime) : TaskDict :=
  {| id := id task; title := title task; description := description task;
     status := status task; deadline := deadline task;
     assignee := assignee task; story_points := story_points task;
     current_date := now; ai_risk_level := ai_risk_level task;
     task_type := task_type task; priority_score := priority_score task |}.

(** The deadline is absent, or it is not before the reference date. *)
Definition not_overdue (task : TaskDict) : Prop :=
  match deadline task with
  | None => True
  | Some d => exists now, current_date task = Some now /\ now <= d
  end.

(** The story points are a number below 8 (the absent key counts as 0). *)
Definition low_complexity (task : TaskDict) : Prop :=
  match story_points task with
  | Missing => True
  | Present (Some n) => n < 8
  | Present None => False
  end.

(** A blocked task to whose risk score no other term contributes. *)
Definition blocked_only (task : TaskDict) : Prop :=
  status task = "blocked"
  /\ truthy_str (assignee task) = true
  /\ truthy_str (description task) = true
  /\ not_overdue task
  /\ low_complexity task.

(** At most one report per project and calendar day. *)
Definition report_key (r : DailyReport.t) : Z * Z :=
  (DailyReport.project_id r, DailyReport.date r).

Definition unique_per_day (reports : list DailyReport.t) : Prop :=
  NoDup (map report_key reports).

(** The tasks of a project, as both services select them. *)
Definition tasks_of (db : ReportService.Session) (project_id : Z) : list Task.t :=
  filter (fun t => Task.project_id t =? project_id) (ReportService.tasks db).

(** The metrics of the timeline status, over the tasks of a project. *)
Definition completed_count (tasks : list Task.t) : Z :=
  ReportService.len
    (filter (fun t => TaskStatus_value (Task.status t) == "done") tasks).

Definition blocked_count (tasks : list Task.t) : Z :=
  ReportService.len
    (filter (fun t => TaskStatus_value (Task.status t) == "blocked") tasks).

Definition overdue_count (now : datetime) (tasks : list Task.t) : Z :=
  ReportService.len (filter (ReportService.is_overdue now) tasks).

Definition high_risk_count (tasks : list Task.t) : Z :=
  ReportService.len
    (filter (fun t => RiskLevel_value (Task.ai_risk_level t) == "high") tasks).

(** [count > fraction * total], in exact rational arithmetic. *)
Definition exceeds (count : Z) (fraction : Q) (total : Z) : bool :=
  negb (Qle_bool (inject_Z count) (fraction * inject_Z total)).

(** [int(completion_rate * 100)], the percentage the reason cites. *)
Definition completion_percent (completed total : Z) : Z :=
  F64.to_int (F64.mul (F64.div_int completed total) (F64.of_int 100)).

(** The ordered rules of the timeline status as the specification words
    them, the fractions being exact: the status and its reason. *)
Definition timeline_rules (total completed blocked overdue high_risk : Z)
  : string * string :=
  if exceeds blocked 0.3 total || exceeds overdue 0.2 total
  then ("Off Track",
        ReportService.str blocked ++ " blocked tasks, "
        ++ ReportService.str overdue ++ " overdue tasks")
  else if exceeds high_risk 0.3 total || (0 <? overdue)
  then ("At Risk",
        ReportService.str high_risk ++ " high-risk tasks, "
        ++ ReportService.str overdue ++ " overdue tasks")
  else if negb (Qle_bool (inject_Z completed / inject_Z total) 0.7)
  then ("On Track",
        ReportService.str (completion_percent completed total)
        ++ "% tasks completed")
  else ("On Track", "Project progressing normally").

(** ISO first, then MM/DD/YYYY, else no deadline. *)
Definition iso_then_us (s : string) : option datetime :=
  match TaskService.strptime s TaskService.fmt_iso with
  | Ok d => Some d
  | Raise _ =>
      match TaskService.strptime s TaskService.fmt_us with
      | Ok d => Some d
      | Raise _ => None
      end
  end.

(** Descending order of a key, and of the sort keys of the ranking. *)
Definition desc_by (key : TaskDict -> Z) (a b : TaskDict) : Prop :=
  key b <= key a.

Definition key_ge : TaskDict -> TaskDict -> Prop := desc_by AIService.sort_key.

(** The tasks of a list that carry a given score, in list order. *)
Definition with_score (s : Z) (l : list TaskDict) : list TaskDict :=
  filter (fun t => AIService.sort_key t =? s) l.

(** A task dictionary under another risk label, or under none. *)
Definition set_ai_risk_level (task : TaskDict) (level : option string) : TaskDict :=
  {| id := id task; title := title task; description := description task;
     status := status task; deadline := deadline task;
     assignee := assignee task; story_points := story_points task;
     current_date := current_date task; ai_risk_level := level;
     task_type := task_type task; priority_score := priority_score task |}.

(** ** Sample data *)

Definition blocked_task : TaskDict :=
  {| id := Present 1; title := "Deploy"; description := Some "Ship the release";
     status := "blocked"; deadline := None; assignee := Some "ana";
     story_points := Present (Some 3); current_date := Some 0;
     ai_risk_level := Some "low"; task_type := Some "feature";
     priority_score := Some 0 |}.

Definition one_day : datetime := microseconds_per_day.

(** A task in progress, looked at on day 1, due at [d]. *)
Definition due_task (d : datetime) : TaskDict :=
  {| id := Present 2; title := "Write the importer"; description := Some "CSV rows";
     status := "in_progress"; deadline := Some d; assignee := Some "li";
     story_points := Missing; current_date := Some one_day;
     ai_risk_level := Some "medium"; task_type := Some "bug";
     priority_score := Some 0 |}.

(** The same task in a dictionary without a [current_date] key. *)
Definition undated_task (d : datetime) : TaskDict :=
  set_current_date (due_task d) None.

Definition sample_project : Project.t := Project.mk 1 "Apollo".

Definition sample_task : Task.t :=
  Task.mk 7 1 "Fix login" (Some "Users cannot log in") IN_PROGRESS BUG None
    (Some "ana") 0 LOW (Some 3).

Definition sample_now : datetime := 738900 * one_day + 34200000000.

Definition stale_report : DailyReport.t :=
  DailyReport.mk 1 1 (ReportService.today sample_now) (VStr "Morning summary")
    (VList []) (VList []) (VList []).

(** A project without tasks, one with a task, and one with a task and a
    report already generated today. *)
Definition db_no_tasks : ReportService.Session :=
  ReportService.mkSession [sample_project] [] [].

Definition db_one_task : ReportService.Session :=
  ReportService.mkSession [sample_project] [sample_task] [].

Definition db_with_report : ReportService.Session :=
  ReportService.mkSession [sample_project] [sample_task] [stale_report].

(** Ten tasks of project 1, the first [blocked] of them blocked, the others
    to do, none with a deadline. *)
Definition plain_task (blocked : nat) (i : nat) : Task.t :=
  Task.mk (Z.of_nat i) 1 "Task" None
    (if (i <? blocked)%nat then BLOCKED else TODO)
    FEATURE None None 0 LOW None.

Definition db_blocked (blocked : nat) : ReportService.Session :=
  ReportService.mkSession [sample_project] (map (plain_task blocked) (seq 0 10)) [].

Definition db_ten_tasks : ReportService.Session := db_blocked 3.

(** A provider whose request fails, and one that answers. *)
Definition failing_provider : AIService.Provider :=
  fun _ _ => Raise ProviderError.

Definition answering_provider : AIService.Provider :=
  fun _ _ => Ok [("summary_text", VStr "All good"); ("risks", VList [])].

(** ** Notions for the properties of the other functions *)

(** The five terms of the risk score, for a task the classifier accepts. *)
Definition risk_points (task : TaskDict) : Z :=
  (match deadline task, current_date task with
   | Some d, Some now => if d <? now then 3 else 0
   | _, _ => 0
   end)
  + (if truthy_str (assignee task) then 0 else 1)
  + (if status task == "blocked" then 3 else 0)
  + (if (status task == "unclear") || negb (truthy_str (description task))
     then 2 else 0)
  + (match story_points task with
     | Present (Some n) => if n >=? 8 then 1 else 0
     | _ => 0
     end).

(** The deadline lies before the reference date. *)
Definition task_overdue (task : TaskDict) : Prop :=
  exists d now, deadline task = Some d /\ current_date task = Some now /\ d < now.

(** The story points are 8 or more. *)
Definition task_complex (task : TaskDict) : Prop :=
  exists n, story_points task = Present (Some n) /\ 8 <= n.

(** What the metrics of the timeline count: the tasks of a given status,
    the tasks whose deadline has passed, the tasks of high risk. *)
Definition has_status (s : TaskStatus) (t : Task.t) : bool :=
  match Task.status t, s with
  | TODO, TODO | IN_PROGRESS, IN_PROGRESS | DONE, DONE
  | BLOCKED, BLOCKED | UNCLEAR, UNCLEAR => true
  | _, _ => false
  end.

Definition deadline_passed (now : datetime) (t : Task.t) : bool :=
  match Task.deadline t with
  | Some d => d <? now
  | None => false
  end.

Definition is_high_risk (t : Task.t) : bool :=
  match Task.ai_risk_level t with
  | HIGH => true
  | _ => false
  end.

(** Report ids are pairwise distinct (the primary key). *)
Definition ids_unique (reports : list DailyReport.t) : Prop :=
  NoDup (map DailyReport.id reports).

(** The dictionary [get_report_summary] builds from a report row. *)
Definition summary_view (report : DailyReport.t) : pydict :=
  [("date", VStr (date_str (DailyReport.date report)));
   ("summary", DailyReport.summary_text report);
   ("priority_tasks", DailyReport.priority_list_json report);
   ("risks", DailyReport.risks_json report);
   ("blocked_tasks", DailyReport.blocked_tasks_json report)].

(** What [generate_stakeholder_email] hands to the update provider. *)
Definition summary_data (report : DailyReport.t) : pydict :=
  [("summary_text", DailyReport.summary_text report);
   ("priority_tasks", DailyReport.priority_list_json report);
   ("risks", DailyReport.risks_json report);
   ("blocked_tasks", DailyReport.blocked_tasks_json report)].

(** The sentence returned when the update provider fails. *)
Definition fallback_update (project_name : string) : string :=
  "Project " ++ project_name ++ " update: Work is progressing as planned.".

(** One step of the search for the latest report of a project. *)
Definition latest_step (project_id : Z) (best : option DailyReport.t)
    (r : DailyReport.t) : option DailyReport.t :=
  if DailyReport.project_id r =? project_id then
    match best with
    | None => Some r
    | Some b => if DailyReport.date b <? DailyReport.date r then Some r else best
    end
  else best.

(** The text of the email: the provider's, or the fixed sentence. *)
Definition email_text (update_provider : UpdateProvider) (report : DailyReport.t)
    (project : Project.t) : string :=
  match update_provider (summary_data report) (Project.name project) with
  | Ok text => text
  | Raise _ => fallback_update (Project.name project)
  end.

(** The title of a CSV row: the first non-empty cell among the headers
    [title], [Title], [name] and [Name]. *)
Definition row_title (row : csv_row) : option string :=
  let title :=
    or_else (or_else (or_else (row_get row "title") (row_get row "Title"))
               (row_get row "name"))
      (row_get row "Name") in
  match title with
  | Some s => if s == "" then None else Some s
  | None => None
  end.

(** The status cell of a CSV row as the import reads it. *)
Definition row_status (row : csv_row) : option string :=
  or_else (row_get row "status") (row_get_default row "Status" "todo").

(** The titles of the rows that have one, in row order. *)
Definition titles_of (rows : list csv_row) : list string :=
  flat_map (fun row => match row_title row with
                       | Some title => [title]
                       | None => []
                       end) rows.

(** The score stored with a task is what scoring the stored task gives,
    less the weight of its risk level, plus 5. *)
Definition scored_before_risk (now : datetime) (t : NewTask.t) : Prop :=
  exists level : RiskLevel,
    NewTask.ai_risk_level t = Some (RiskLevel_value level)
    /\ NewTask.priority_score t
       = Some (AIService.calculate_priority_score (_task_to_dict now t)
               - AIService.risk_weights_get (Some (RiskLevel_value level)) + 5).

(** ** Sample data for the other functions *)

(** An overdue, blocked, high-risk bug. *)
Definition worst_task : TaskDict :=
  {| id := Missing; title := "Outage"; description := None;
     status := "blocked"; deadline := Some 0; assignee := None;
     story_points := Missing; current_date := Some one_day;
     ai_risk_level := Some "high"; task_type := Some "bug";
     priority_score := None |}.

(** Three CSV rows, the second without a title. *)
Definition sample_rows : list csv_row :=
  [[("title", Some "Fix bug"); ("status", Some "In Progress");
    ("deadline", Some "2024-01-15")];
   [("title", Some ""); ("status", Some "done")];
   [("Name", Some "Ship it"); ("Status", Some "Blocked")]].

(** A short line: the cell under [Status] is not there. *)
Definition short_row : csv_row := [("title", Some "Plan"); ("Status", None)].

(** An analysis provider whose request fails. *)
Definition failing_analysis : AnalysisProvider := fun _ _ => Raise ProviderError.

(** A task nothing weighs on. *)
Definition calm_task : TaskDict :=
  {| id := Present 3; title := "Tidy the backlog"; description := Some "Weekly";
     status := "todo"; deadline := None; assignee := Some "kim";
     story_points := Present (Some 2); current_date := Some one_day;
     ai_risk_level := Some "low"; task_type := Some "feature";
     priority_score := Some 0 |}.

(** Ten finished tasks of project 1. *)
Definition done_task (i : nat) : Task.t :=
  Task.mk (Z.of_nat i) 1 "Task" None DONE FEATURE (Some 0) None 0 LOW None.

Definition db_all_done : ReportService.Session :=
  ReportService.mkSession [sample_project] (map done_task (seq 0 10)) [].

(** An update provider whose request fails. *)
Definition failing_update : UpdateProvider := fun _ _ => Raise ProviderError.

(** A table that holds one report, of project 1, and a second project
    without tasks. *)
Definition db_with_report_only : ReportService.Session :=
  ReportService.mkSession [sample_project; Project.mk 2 "Gemini"] [] [stale_report].

(** ** Notions for the properties of dates *)

(** The character of a decimal digit. *)
Definition digit_char (k : Z) : ascii := ascii_of_nat (48 + Z.to_nat k).

Definition two_digits (n : Z) : list ascii :=
  [digit_char (n / 10); digit_char (n mod 10)].

Definition four_digits (n : Z) : list ascii :=
  [digit_char (n / 1000); digit_char (n / 100 mod 10);
   digit_char (n / 10 mod 10); digit_char (n mod 10)].

(** A date written MM/DD/YYYY. *)
Definition us_format (year month day : Z) : string :=
  zero_pad 2 month ++ "/" ++ zero_pad 2 day ++ "/" ++ zero_pad 4 year.

(** The timestamp of midnight of a date. *)
Definition midnight (year month day : Z) : datetime :=
  (TaskService.days_before_year year + TaskService.days_before_month year month
   + day - 1) * microseconds_per_day.

(** [all_from f count start]: [f] holds of the [count] numbers from
    [start] on. *)
Fixpoint all_from (f : Z -> bool) (count : nat) (start : Z) : bool :=
  match count with
  | O => true
  | S count' => f start && all_from f count' (start + 1)
  end.

(** The days of 400 years, after which the calendar repeats. *)
Definition cycle_days : Z := 146097.

(** The month and the day that [ord2ymd] finds for day [n], counted from
    0, of a year. *)
Definition month_day (leapyear : bool) (n : Z) : Z * Z :=
  let month := Z.shiftr (n + 50) 5 in
  let preceding :=
    DAYS_BEFORE_MONTH month + (if (2 <? month) && leapyear then 1 else 0) in
  if n <? preceding then
    let month := month - 1 in
    let preceding :=
      preceding
      - (DAYS_IN_MONTH month + (if (month =? 2) && leapyear then 1 else 0)) in
    (month, n - preceding + 1)
  else (month, n - preceding + 1).

(** Day [n] of a year is a day of a month of that year, and the days
    before it are [n]; year 4 stands for the leap years and year 1 for
    the others. *)
Definition month_day_ok (leapyear : bool) (n : Z) : bool :=
  let '(month, day) := month_day leapyear n in
  let year := if leapyear then 4 else 1 in
  (1 <=? month) && (month <=? 12) && (1 <=? day)
  && (day <=? TaskService.days_in_month year month)
  && (TaskService.days_before_month year month + day - 1 =? n).

(** The year that follows [a] centuries, [b] four-year spans and [c]
    years: the days before it, and whether it is a leap year, as
    [ord2ymd] counts them. *)
Definition year_ok (a b c : Z) : bool :=
  let year := 1 + a * 100 + b * 4 + c in
  (TaskService.days_before_year year =? 36524 * a + 1461 * b + 365 * c)
  && Bool.eqb (TaskService.is_leap year)
       ((c =? 3) && (negb (b =? 24) || (a =? 3))).

(** 9999-12-31, the last day a date can hold. *)
Definition last_day : Z := 3652058.

(** ** Risk classification *)

Section RiskClassifier.
Import AIService.

Lemma is_overdue_not_overdue (task : TaskDict) :
  not_overdue task -> is_overdue task = Ok false.
Proof.
  unfold not_overdue, is_overdue.
  destruct (deadline task) as [d|]; [|reflexivity].
  intros [now [-> Hle]]. f_equal. apply Z.ltb_ge. exact Hle.
Qed.

Lemma high_complexity_low (task : TaskDict) :
  low_complexity task -> high_complexity task = Ok false.
Proof.
  unfold low_complexity, high_complexity.
  destruct (story_points task) as [|[n|]]; intros H; try reflexivity.
  - f_equal. rewrite Z.geb_leb. apply Z.leb_gt. exact H.
  - contradiction.
Qed.

(** C2, as amended: a blocked task to whose score nothing else contributes
    has risk score 3, which the thresholds place in MEDIUM (HIGH starts
    at 4). *)
Theorem blocked_alone_is_medium (task : TaskDict) :
  blocked_only task ->
  detect_risk_level task = Ok (RiskLevel_value MEDIUM).
Proof.
  intros (Hst & Has & Hde & Hov & Hsp).
  unfold detect_risk_level.
  rewrite (is_overdue_not_overdue _ Hov), (high_complexity_low _ Hsp).
  simpl. rewrite Hst, Has, Hde. reflexivity.
Qed.

Lemma blocked_task_blocked_only : blocked_only blocked_task.
Proof.
  unfold blocked_only, not_overdue, low_complexity; simpl.
  repeat split; lia.
Qed.

Lemma blocked_alone_is_medium_witness :
  blocked_only blocked_task
  /\ detect_risk_level blocked_task = Ok (RiskLevel_value MEDIUM).
Proof.
  split.
  - exact blocked_task_blocked_only.
  - apply (blocked_alone_is_medium blocked_task). exact blocked_task_blocked_only.
Defined.

(** C2, as stated, fails: a blocked task with nothing else against it is
    not classified HIGH. *)
Lemma blocked_alone_not_high :
  ~ (forall task, blocked_only task ->
       detect_risk_level task = Ok (RiskLevel_value HIGH)).
Proof.
  intros H. specialize (H blocked_task blocked_task_blocked_only).
  vm_compute in H. discriminate H.
Qed.

End RiskClassifier.

(** ** Priority score *)

Section PriorityScorer.
Import AIService.

Lemma urgency_antitone (d1 d2 : Z) : d1 <= d2 -> urgency d2 <= urgency d1.
Proof.
  intros H. unfold urgency.
  repeat match goal with
         | |- context [?a <? ?b] => destruct (Z.ltb_spec a b)
         | |- context [?a <=? ?b] => destruct (Z.leb_spec a b)
         end; lia.
Qed.

Lemma urgency_nonneg (d : Z) : 0 <= urgency d.
Proof.
  unfold urgency.
  repeat match goal with
         | |- context [?a <? ?b] => destruct (Z.ltb_spec a b)
         | |- context [?a <=? ?b] => destruct (Z.leb_spec a b)
         end; lia.
Qed.

Lemma risk_weights_get_bounds (level : option string) :
  5 <= risk_weights_get level <= 30.
Proof.
  unfold risk_weights_get. destruct level as [l|]; [|lia].
  destruct (l == "high"); [lia|].
  destruct (l == "medium"); [lia|].
  destruct (l == "low"); lia.
Qed.

(** The score splits into its four terms. *)
Lemma calculate_priority_score_terms (task : TaskDict) :
  calculate_priority_score task =
    match deadline task with
    | Some d => urgency (days_until_deadline d task)
    | None => 0
    end
    + (if status task == "blocked" then 40
       else if status task == "in_progress" then 25 else 0)
    + risk_weights_get (ai_risk_level task)
    + (if opt_str_eq (task_type task) "bug" then 20 else 0).
Proof.
  unfold calculate_priority_score.
  destruct (deadline task); destruct (status task == "blocked");
    destruct (status task == "in_progress");
    destruct (opt_str_eq (task_type task) "bug"); lia.
Qed.

(** C7: with everything but the deadline distance equal, the task whose
    deadline is nearer (or further overdue) scores at least as much. *)
Theorem score_antitone_in_days_until (t1 t2 : TaskDict) (d1 d2 : datetime) :
  deadline t1 = Some d1 ->
  deadline t2 = Some d2 ->
  status t1 = status t2 ->
  ai_risk_level t1 = ai_risk_level t2 ->
  task_type t1 = task_type t2 ->
  days_until_deadline d1 t1 <= days_until_deadline d2 t2 ->
  calculate_priority_score t2 <= calculate_priority_score t1.
Proof.
  intros H1 H2 Hs Hr Ht Hd.
  rewrite !calculate_priority_score_terms, H1, H2, Hs, Hr, Ht.
  pose proof (urgency_antitone _ _ Hd). lia.
Qed.

Lemma score_antitone_in_days_until_witness :
  days_until_deadline 0 (due_task 0) = -1
  /\ days_until_deadline (11 * one_day) (due_task (11 * one_day)) = 10
  /\ calculate_priority_score (due_task (11 * one_day))
     <= calculate_priority_score (due_task 0).
Proof.
  split; [reflexivity|]. split; [reflexivity|].
  apply (score_antitone_in_days_until (due_task 0) (due_task (11 * one_day))
           0 (11 * one_day)); try reflexivity.
  vm_compute. discriminate.
Defined.

(** C8: every task scores at least 5.  The risk term is added to a rest
    that does not depend on the risk label and is never negative, and it
    is 30 for the label high, 15 for medium, and 5 for low, for any other
    label and for no label at all. *)
Theorem score_at_least_5 (task : TaskDict) :
  5 <= calculate_priority_score task
  /\ exists rest,
       0 <= rest
       /\ forall level,
            calculate_priority_score (set_ai_risk_level task level)
            = rest + (if opt_str_eq level "high" then 30
                      else if opt_str_eq level "medium" then 15
                      else 5).
Proof.
  pose proof (risk_weights_get_bounds (ai_risk_level task)) as Hr.
  assert (Hu : 0 <= match deadline task with
                    | Some d => urgency (days_until_deadline d task)
                    | None => 0
                    end).
  { destruct (deadline task); [apply urgency_nonneg|lia]. }
  split.
  - rewrite calculate_priority_score_terms.
    destruct (status task == "blocked"); destruct (status task == "in_progress");
      destruct (opt_str_eq (task_type task) "bug"); lia.
  - exists (match deadline task with
            | Some d => urgency (days_until_deadline d task)
            | None => 0
            end
            + (if status task == "blocked" then 40
               else if status task == "in_progress" then 25 else 0)
            + (if opt_str_eq (task_type task) "bug" then 20 else 0)).
    split.
    + destruct (status task == "blocked"); destruct (status task == "in_progress");
        destruct (opt_str_eq (task_type task) "bug"); lia.
    + intros level. rewrite calculate_priority_score_terms.
      unfold days_until_deadline, set_ai_risk_level.
      cbn [deadline status ai_risk_level task_type current_date].
      assert (Hw : risk_weights_get level
                   = if opt_str_eq level "high" then 30
                     else if opt_str_eq level "medium" then 15 else 5).
      { unfold risk_weights_get, opt_str_eq. destruct level as [l|]; [|reflexivity].
        destruct (l == "high"); [reflexivity|].
        destruct (l == "medium"); [reflexivity|].
        destruct (l == "low"); reflexivity. }
      rewrite Hw. lia.
Qed.

(** C10: a task with a deadline but no [current_date] key is scored as if
    it were due today: the distance is 0 days and the urgency term is 50. *)
Theorem missing_current_date_scores_due_today (task : TaskDict) (d : datetime) :
  deadline task = Some d ->
  current_date task = None ->
  days_until_deadline d task = 0
  /\ calculate_priority_score task
     = calculate_priority_score (set_current_date task (Some d))
  /\ calculate_priority_score task
     = 50 + calculate_priority_score (set_deadline task None).
Proof.
  intros Hd Hc.
  assert (H0 : forall x : datetime, timedelta_days x x = 0).
  { intros x. unfold timedelta_days. rewrite Z.sub_diag. reflexivity. }
  rewrite !calculate_priority_score_terms.
  unfold days_until_deadline.
  cbn [set_current_date set_deadline deadline current_date status
       ai_risk_level task_type].
  rewrite Hd, Hc, !H0.
  change (urgency 0) with 50.
  repeat split; lia.
Qed.

Lemma missing_current_date_scores_due_today_witness :
  calculate_priority_score (undated_task (30 * one_day)) = 110
  /\ calculate_priority_score (due_task (30 * one_day)) = 60.
Proof.
  split; [|reflexivity].
  destruct (missing_current_date_scores_due_today
              (undated_task (30 * one_day)) (30 * one_day)
              eq_refl eq_refl) as (_ & _ & ->).
  reflexivity.
Defined.

End PriorityScorer.

(** ** Ranking *)

Section TaskRanker.
Import AIService.

Lemma insert_desc_perm (key : TaskDict -> Z) (x : TaskDict) (l : list TaskDict) :
  Permutation (x :: l) (insert_desc key x l).
Proof.
  induction l as [|y l IH]; cbn [insert_desc].
  - apply Permutation_refl.
  - destruct (key y <=? key x).
    + apply Permutation_refl.
    + eapply perm_trans; [apply perm_swap|]. apply perm_skip. exact IH.
Qed.

Lemma sorted_reverse_perm (key : TaskDict -> Z) (l : list TaskDict) :
  Permutation l (sorted_reverse key l).
Proof.
  induction l as [|x l IH]; cbn [sorted_reverse].
  - apply perm_nil.
  - eapply perm_trans; [apply perm_skip, IH|]. apply insert_desc_perm.
Qed.

Lemma insert_desc_sorted (key : TaskDict -> Z) (x : TaskDict) (l : list TaskDict) :
  StronglySorted (desc_by key) l -> StronglySorted (desc_by key) (insert_desc key x l).
Proof.
  induction 1 as [|y l Hs IH Hy]; cbn [insert_desc].
  - constructor; constructor.
  - destruct (Z.leb_spec (key y) (key x)) as [Hle|Hgt].
    + constructor.
      * constructor; assumption.
      * constructor; [exact Hle|].
        eapply Forall_impl; [|exact Hy].
        intros z Hz. unfold desc_by in *. lia.
    + constructor; [exact IH|].
      eapply Permutation_Forall; [apply insert_desc_perm|].
      constructor; [unfold desc_by; lia | exact Hy].
Qed.

Lemma sorted_reverse_sorted (key : TaskDict -> Z) (l : list TaskDict) :
  StronglySorted (desc_by key) (sorted_reverse key l).
Proof.
  induction l as [|x l IH]; cbn [sorted_reverse].
  - constructor.
  - apply insert_desc_sorted, IH.
Qed.

(** Inserting [x] does not move it behind an element of equal key, so the
    elements of any one key stay in their order. *)
Lemma insert_desc_same_key (key : TaskDict -> Z) (s : Z) (x : TaskDict)
    (l : list TaskDict) :
  filter (fun t => key t =? s) (insert_desc key x l)
  = filter (fun t => key t =? s) (x :: l).
Proof.
  induction l as [|y l IH]; cbn [insert_desc]; [reflexivity|].
  destruct (Z.leb_spec (key y) (key x)) as [Hle|Hgt]; [reflexivity|].
  cbn [filter] in *. rewrite IH.
  destruct (Z.eqb_spec (key y) s), (Z.eqb_spec (key x) s); try reflexivity.
  lia.
Qed.

Lemma sorted_reverse_same_key (key : TaskDict -> Z) (s : Z) (l : list TaskDict) :
  filter (fun t => key t =? s) (sorted_reverse key l)
  = filter (fun t => key t =? s) l.
Proof.
  induction l as [|x l IH]; cbn [sorted_reverse]; [reflexivity|].
  rewrite insert_desc_same_key. cbn [filter]. rewrite IH. reflexivity.
Qed.

End TaskRanker.

Lemma calculate_priority_score_set_priority_score (task : TaskDict) (s : Z) :
  AIService.calculate_priority_score (set_priority_score task s)
  = AIService.calculate_priority_score task.
Proof. reflexivity. Qed.

Lemma score_tasks_key (tasks : list TaskDict) (t : TaskDict) :
  In t (AIService.score_tasks tasks) ->
  AIService.sort_key t = AIService.calculate_priority_score t.
Proof.
  unfold AIService.score_tasks. rewrite in_map_iff.
  intros (t0 & <- & _). reflexivity.
Qed.

Lemma insert_desc_map (key : TaskDict -> Z) (f : TaskDict -> TaskDict)
    (x : TaskDict) (l : list TaskDict) :
  AIService.insert_desc key (f x) (map f l)
  = map f (AIService.insert_desc (fun t => key (f t)) x l).
Proof.
  induction l as [|y l IH]; cbn [map AIService.insert_desc]; [reflexivity|].
  destruct (key (f y) <=? key (f x)); cbn [map]; [reflexivity|].
  rewrite IH. reflexivity.
Qed.

(** Sorting the rewritten dictionaries is sorting the dictionaries by the
    key of their rewritten form, and rewriting them afterwards. *)
Lemma sorted_reverse_map (key : TaskDict -> Z) (f : TaskDict -> TaskDict)
    (l : list TaskDict) :
  AIService.sorted_reverse key (map f l)
  = map f (AIService.sorted_reverse (fun t => key (f t)) l).
Proof.
  induction l as [|x l IH]; cbn [map AIService.sorted_reverse]; [reflexivity|].
  rewrite IH. apply insert_desc_map.
Qed.

(** C6: the ranking holds the tasks it was given, each with its freshly
    computed score recorded, in an order that is a rearrangement of the
    input, descends by score, and leaves the tasks of any one score in
    the order they had in the input. *)
Theorem rank_descending_and_stable (tasks : list TaskDict) :
  let score := AIService.calculate_priority_score in
  exists order,
    AIService.rank_tasks_by_priority tasks
    = map (fun t => set_priority_score t (score t)) order
    /\ Permutation tasks order
    /\ StronglySorted (desc_by score) order
    /\ (forall s, filter (fun t => score t =? s) order
                  = filter (fun t => score t =? s) tasks).
Proof.
  cbv zeta.
  exists (AIService.sorted_reverse AIService.calculate_priority_score tasks).
  repeat split.
  - unfold AIService.rank_tasks_by_priority, AIService.score_tasks.
    rewrite sorted_reverse_map. reflexivity.
  - apply sorted_reverse_perm.
  - apply sorted_reverse_sorted.
  - intros s. apply sorted_reverse_same_key.
Qed.

(** ** Daily reports *)

Section ReportOrchestrator.
Import ReportService.

(** A provider failure is absorbed: the summary is the fixed fallback. *)
Lemma generate_daily_summary_fallback (provider : AIService.Provider)
    (tasks : list TaskDict) (name : string) (e : PyExc) :
  provider tasks name = Raise e ->
  AIService.generate_daily_summary provider tasks name
  = Ok AIService.fallback_summary.
Proof. intros H. unfold AIService.generate_daily_summary. rewrite H. reflexivity. Qed.

Lemma generate_daily_summary_returns (provider : AIService.Provider)
    (tasks : list TaskDict) (name : string) :
  exists summary, AIService.generate_daily_summary provider tasks name = Ok summary.
Proof.
  unfold AIService.generate_daily_summary.
  destruct (provider tasks name); simpl; eauto.
Qed.

(** A dictionary that carries [current_date] cannot be serialised. *)
Lemma task_dict_value_not_serializable (t : TaskDict) (now : datetime) :
  current_date t = Some now -> serializable (task_dict_value t) = false.
Proof.
  intros H. unfold task_dict_value. rewrite H.
  cbn [serializable]. rewrite !forallb_app. cbn [forallb].
  rewrite !andb_false_r. reflexivity.
Qed.

Lemma score_tasks_current_date (now : datetime) (l : list TaskDict) :
  Forall (fun t => current_date t = Some now) l ->
  Forall (fun t => current_date t = Some now) (AIService.score_tasks l).
Proof.
  unfold AIService.score_tasks. intros H. apply Forall_map.
  eapply Forall_impl; [|exact H]. intros t Ht. exact Ht.
Qed.

Lemma ranked_tasks_current_date (now : datetime) (tasks : list Task.t) :
  Forall (fun t => current_date t = Some now)
    (AIService.rank_tasks_by_priority (map (task_dict now) tasks)).
Proof.
  unfold AIService.rank_tasks_by_priority.
  eapply Permutation_Forall; [apply sorted_reverse_perm|].
  apply score_tasks_current_date, Forall_map, Forall_forall.
  intros t _. reflexivity.
Qed.

(** With at least one task, the top-10 list is rejected by [json.dumps]. *)
Lemma priority_list_not_serializable (now : datetime) (tasks : list Task.t) :
  tasks <> [] ->
  json_dumps
    (VList (map task_dict_value
              (firstn 10 (AIService.rank_tasks_by_priority (map (task_dict now) tasks)))))
  = Raise TypeError.
Proof.
  intros Hne.
  pose proof (ranked_tasks_current_date now tasks) as Hall.
  assert (Hlen : List.length
                   (AIService.rank_tasks_by_priority (map (task_dict now) tasks))
                 = List.length tasks).
  { unfold AIService.rank_tasks_by_priority, AIService.score_tasks.
    rewrite <- (Permutation_length (sorted_reverse_perm _ _)).
    rewrite !length_map. reflexivity. }
  destruct (AIService.rank_tasks_by_priority (map (task_dict now) tasks))
    as [|t ranked].
  - destruct tasks; [contradiction | discriminate Hlen].
  - inversion Hall as [|? ? Ht _]; subst.
    unfold json_dumps. cbn [firstn Nat.of_num_uint map serializable forallb].
    change (firstn 10 (t :: ranked)) with (t :: firstn 9 ranked).
    cbn [map forallb].
    rewrite (task_dict_value_not_serializable t now Ht). reflexivity.
Qed.

(** C5 fails on the code: for a project with at least one task the report
    cannot be built, whatever the provider does, and so in particular when
    the provider fails. *)
Theorem generate_daily_report_raises_with_tasks (db : Session)
    (provider : AIService.Provider) (now : datetime) (project_id : Z)
    (project : Project.t) :
  find (fun p => Project.id p =? project_id) (projects db) = Some project ->
  tasks_of db project_id <> [] ->
  generate_daily_report db provider now project_id = Raise TypeError.
Proof.
  intros Hp Hne. unfold generate_daily_report. rewrite Hp.
  destruct (generate_daily_summary_returns provider
              (AIService.score_tasks (map (task_dict now) (tasks_of db project_id)))
              (Project.name project)) as [summary Hs].
  unfold tasks_of in *. rewrite Hs. cbn [bind].
  rewrite (priority_list_not_serializable now _ Hne). reflexivity.
Qed.

Lemma generate_daily_report_raises_with_tasks_witness :
  generate_daily_report db_one_task failing_provider sample_now 1 = Raise TypeError.
Proof.
  apply (generate_daily_report_raises_with_tasks db_one_task failing_provider
           sample_now 1 sample_project).
  - reflexivity.
  - vm_compute. discriminate.
Defined.

(** C1 fails on the code: a report for today exists, the project has a
    task, and a further call raises instead of overwriting the report. *)
Theorem generate_daily_report_existing_report_raises :
  find (same_day 1 (today sample_now)) (daily_reports db_with_report)
    = Some stale_report
  /\ generate_daily_report db_with_report answering_provider sample_now 1
     = Raise TypeError.
Proof. split; vm_compute; reflexivity. Qed.

(** What a successful call has done: the report of the day is the row
    that was there, with its identity, or a new row when there was none. *)
Lemma generate_daily_report_upsert (db db' : Session)
    (provider : AIService.Provider) (now : datetime) (project_id : Z)
    (report : DailyReport.t) :
  generate_daily_report db provider now project_id = Ok (db', report) ->
  projects db' = projects db
  /\ tasks db' = tasks db
  /\ report_key report = (project_id, today now)
  /\ match find (same_day project_id (today now)) (daily_reports db) with
     | Some existing =>
         (exists summary_text priority_list_json risks_json blocked_tasks_json,
            report = overwrite existing summary_text priority_list_json
                       risks_json blocked_tasks_json)
         /\ daily_reports db'
            = update_first (same_day project_id (today now)) report (daily_reports db)
     | None =>
         DailyReport.id report = next_id (daily_reports db)
         /\ daily_reports db' = (daily_reports db ++ [report])%list
     end.
Proof.
  unfold generate_daily_report.
  destruct (find _ (projects db)) as [project|]; [|discriminate].
  destruct (AIService.generate_daily_summary _ _ _) as [summary|]; [|discriminate].
  cbn [bind].
  destruct (json_dumps _) as [pl|]; [|discriminate]. cbn [bind].
  destruct (json_dumps _) as [rj|]; [|discriminate]. cbn [bind].
  destruct (json_dumps _) as [bj|]; [|discriminate]. cbn [bind].
  destruct (find (same_day _ _) _) as [existing|] eqn:Hf.
  - intros [= <- <-]. cbn. repeat split.
    + apply find_some in Hf. destruct Hf as [_ Hs].
      unfold same_day in Hs. apply andb_prop in Hs. destruct Hs as [H1 H2].
      apply Z.eqb_eq in H1, H2. unfold report_key. cbn. congruence.
    + eauto.
  - intros [= <- <-]. cbn. repeat split.
Qed.

Lemma update_first_keys (p : DailyReport.t -> bool) (r' existing : DailyReport.t)
    (reports : list DailyReport.t) :
  find p reports = Some existing ->
  report_key r' = report_key existing ->
  map report_key (update_first p r' reports) = map report_key reports.
Proof.
  induction reports as [|r rest IH]; cbn [find update_first]; [discriminate|].
  destruct (p r).
  - intros [= ->] Hk. cbn [map]. rewrite Hk. reflexivity.
  - intros Hf Hk. cbn [map]. rewrite (IH Hf Hk). reflexivity.
Qed.

Lemma same_day_report_key (project_id day : Z) (r : DailyReport.t) :
  same_day project_id day r = true <-> report_key r = (project_id, day).
Proof.
  unfold same_day, report_key. rewrite andb_true_iff, !Z.eqb_eq.
  split; [intros [-> ->]; reflexivity | intros [= -> ->]; split; reflexivity].
Qed.

Lemma find_none_not_in_keys (project_id day : Z) (reports : list DailyReport.t) :
  find (same_day project_id day) reports = None ->
  ~ In (project_id, day) (map report_key reports).
Proof.
  intros Hf Hin. apply in_map_iff in Hin. destruct Hin as (r & Hk & Hr).
  pose proof (find_none _ _ Hf r Hr) as Hn.
  apply same_day_report_key in Hk. congruence.
Qed.

(** The invariant of the report table: a successful call leaves at most
    one report per project and day, and adds a row only when the day had
    none. *)
Lemma generate_daily_report_keeps_unique (db db' : Session)
    (provider : AIService.Provider) (now : datetime) (project_id : Z)
    (report : DailyReport.t) :
  unique_per_day (daily_reports db) ->
  generate_daily_report db provider now project_id = Ok (db', report) ->
  unique_per_day (daily_reports db')
  /\ In report (daily_reports db')
  /\ (find (same_day project_id (today now)) (daily_reports db) <> None ->
      List.length (daily_reports db') = List.length (daily_reports db)).
Proof.
  intros Hu Hg. apply generate_daily_report_upsert in Hg.
  destruct Hg as (_ & _ & Hk & Hcase). unfold unique_per_day in *.
  destruct (find _ (daily_reports db)) as [existing|] eqn:Hf.
  - destruct Hcase as [Hid ->].
    assert (Hke : report_key report = report_key existing).
    { rewrite Hk. symmetry. apply same_day_report_key.
      apply find_some in Hf. apply Hf. }
    rewrite (update_first_keys _ _ _ _ Hf Hke). split; [exact Hu|]. split.
    + clear - Hf. induction (daily_reports db) as [|r rest IH];
        cbn [find update_first] in *; [discriminate|].
      destruct (same_day _ _ r); [left; reflexivity | right; auto].
    + intros _. rewrite <- (length_map report_key), (update_first_keys _ _ _ _ Hf Hke).
      apply length_map.
  - destruct Hcase as [Hid ->]. split; [|split].
    + rewrite map_app. cbn [map].
      eapply Permutation_NoDup; [apply Permutation_cons_append|].
      constructor; [|exact Hu]. rewrite Hk. apply find_none_not_in_keys, Hf.
    + apply in_or_app. right. left. reflexivity.
    + intros H. contradiction.
Qed.

(** One step through a chain of calls that has returned. *)
Ltac step_bind H x E :=
  match type of H with
  | bind ?m _ = _ =>
      destruct m as [x|] eqn:E; [cbn [bind] in H | discriminate H]
  end.

Lemma update_first_found (p : DailyReport.t -> bool) (r' : DailyReport.t)
    (reports : list DailyReport.t) :
  p r' = true -> find p reports <> None ->
  find p (update_first p r' reports) = Some r'
  /\ update_first p r' (update_first p r' reports) = update_first p r' reports.
Proof.
  intros Hp. induction reports as [|r rest IH]; cbn [find update_first].
  - intros H. contradiction.
  - destruct (p r) eqn:Hr; intros Hf.
    + cbn [find update_first]. rewrite Hp. split; reflexivity.
    + cbn [find update_first]. rewrite Hr.
      destruct (IH Hf) as [-> ->]. split; reflexivity.
Qed.

Lemma update_first_appended (p : DailyReport.t -> bool) (r' : DailyReport.t)
    (reports : list DailyReport.t) :
  p r' = true -> find p reports = None ->
  find p (reports ++ [r']) = Some r'
  /\ update_first p r' (reports ++ [r']) = (reports ++ [r'])%list.
Proof.
  intros Hp. induction reports as [|r rest IH]; cbn [find update_first app].
  - intros _. rewrite Hp. split; reflexivity.
  - destruct (p r) eqn:Hr; [discriminate|]. intros Hf.
    destruct (IH Hf) as [-> ->]. split; reflexivity.
Qed.

(** Where a call succeeds, repeating it on the same day with the same
    tasks and the same answer of the provider changes nothing: the same
    report comes back and the table is as it was. *)
Lemma generate_daily_report_idempotent (db db' : Session)
    (provider : AIService.Provider) (now : datetime) (project_id : Z)
    (report : DailyReport.t) :
  generate_daily_report db provider now project_id = Ok (db', report) ->
  generate_daily_report db' provider now project_id = Ok (db', report).
Proof.
  intros H. unfold generate_daily_report in H.
  destruct (find _ (projects db)) as [project|] eqn:Hp; [|discriminate].
  step_bind H summary Hs. step_bind H pl H1. step_bind H rj H2.
  step_bind H bj H3.
  destruct (find (same_day _ _) _) as [existing|] eqn:Hf;
    injection H as <- <-; unfold generate_daily_report;
    cbn [projects tasks daily_reports];
    rewrite Hp, Hs; cbn [bind]; rewrite H1; cbn [bind]; rewrite H2; cbn [bind];
    rewrite H3; cbn [bind].
  - assert (Hsame : same_day project_id (today now)
                      (overwrite existing
                         (dict_get_default summary "summary_text" (VStr ""))
                         pl rj bj) = true).
    { apply find_some in Hf. exact (proj2 Hf). }
    set (r' := overwrite existing _ pl rj bj) in *.
    destruct (update_first_found _ _ (daily_reports db) Hsame) as [E1 E2].
    + rewrite Hf. discriminate.
    + rewrite E1.
      change (overwrite r' (dict_get_default summary "summary_text" (VStr ""))
                pl rj bj) with r'.
      rewrite E2. reflexivity.
  - match goal with
    | |- context [find _ (_ ++ [?r])] =>
        set (r' := r) in *;
        destruct (update_first_appended (same_day project_id (today now)) r'
                    (daily_reports db)) as [E1 E2]
    end.
    + unfold same_day. cbn. rewrite !Z.eqb_refl. reflexivity.
    + exact Hf.
    + rewrite E1.
      change (overwrite r' (dict_get_default summary "summary_text" (VStr ""))
                pl rj bj) with r'.
      rewrite E2. reflexivity.
Qed.

(** Without tasks the call goes through, and a failing provider leaves the
    fallback text and empty lists in the report. *)
Lemma report_on_provider_failure_without_tasks (db : Session)
    (provider : AIService.Provider) (now : datetime) (project_id : Z)
    (project : Project.t) (e : PyExc) :
  find (fun p => Project.id p =? project_id) (projects db) = Some project ->
  tasks_of db project_id = [] ->
  provider [] (Project.name project) = Raise e ->
  exists db' report,
    generate_daily_report db provider now project_id = Ok (db', report)
    /\ DailyReport.summary_text report
       = VStr "Unable to generate summary at this time."
    /\ DailyReport.priority_list_json report = VList []
    /\ DailyReport.risks_json report = VList []
    /\ DailyReport.blocked_tasks_json report = VList [].
Proof.
  intros Hp Ht He. unfold generate_daily_report, tasks_of in *.
  rewrite Hp, Ht. cbn [map AIService.score_tasks].
  rewrite (generate_daily_summary_fallback _ _ _ _ He). cbn.
  destruct (find (same_day _ _) _); eexists; eexists; repeat split.
Qed.

End ReportOrchestrator.

(** ** Deadlines of imported records *)

Section TaskNormalizer.
Import TaskService.

(** C4, as amended: a CSV cell is parsed as ISO first, then as MM/DD/YYYY,
    is left unset when both fail, and no error escapes; the due date of a
    Trello card is cut to ten characters and parsed as ISO only, and a
    failure there is raised to the caller of the import. *)
Theorem deadline_parsing_by_source :
  (forall deadline_str,
     csv_deadline deadline_str
     = Ok (if truthy_str deadline_str
           then iso_then_us (match deadline_str with Some s => s | None => "" end)
           else None))
  /\ (forall due_date,
        trello_deadline due_date
        = if truthy_str due_date
          then match strptime (substring 0 10
                                 (match due_date with Some s => s | None => "" end))
                       fmt_iso with
               | Ok d => Ok (Some d)
               | Raise e => Raise e
               end
          else Ok None)
  /\ (forall due_dates,
        import_from_trello due_dates = trello_deadlines due_dates).
Proof.
  split; [|split].
  - intros deadline_str. unfold csv_deadline, iso_then_us.
    destruct (truthy_str deadline_str); [|reflexivity].
    destruct (strptime _ fmt_iso); cbn; [reflexivity|].
    destruct (strptime _ fmt_us); reflexivity.
  - intros due_date. unfold trello_deadline.
    destruct (truthy_str due_date); [|reflexivity].
    destruct (strptime _ fmt_iso); reflexivity.
  - intros due_dates. unfold import_from_trello.
    destruct (trello_deadlines due_dates); reflexivity.
Qed.

(** C4, as stated, fails for Trello cards: a due date in MM/DD/YYYY form is
    not given a second try, and the error reaches the caller, while the
    same text in a CSV cell is accepted. *)
Lemma trello_deadline_raises :
  csv_deadline (Some "01/15/2024") = Ok (Some 63840873600000000)
  /\ trello_deadline (Some "01/15/2024") = Raise ValueError
  /\ import_from_trello [Some "01/15/2024"] = Raise ValueError.
Proof. repeat split; vm_compute; reflexivity. Qed.

End TaskNormalizer.

(** ** Binary64 rounding and the thresholds

    The comparisons of the timeline status are made on floats; for task
    counts below [2 ^ 48] they decide the same as the exact fractions. *)

Section Binary64.
Import F64.

Lemma rne_div_spec (n d : Z) :
  0 <= n -> 0 < d ->
  d * (2 * rne_div n d - 1) <= 2 * n <= d * (2 * rne_div n d + 1).
Proof.
  intros Hn Hd. unfold rne_div.
  pose proof (Z.div_mod n d ltac:(lia)) as Hdm.
  pose proof (Z.mod_pos_bound n d Hd) as Hr.
  set (q := n / d) in *. set (r := n mod d) in *.
  destruct (Z.compare_spec (2 * r) d); [destruct (Z.even q)| |]; nia.
Qed.

Lemma ilog2_spec (n d : Z) :
  0 < n -> 0 < d ->
  (0 <= ilog2 n d -> d * 2 ^ ilog2 n d <= n < d * 2 ^ (ilog2 n d + 1))
  /\ (ilog2 n d < 0 ->
      d <= n * 2 ^ (- ilog2 n d) /\ n * 2 ^ (- ilog2 n d) < 2 * d).
Proof.
  intros Hn Hd. unfold ilog2.
  pose proof (Z.log2_spec n Hn) as Ha. pose proof (Z.log2_spec d Hd) as Hb.
  pose proof (Z.log2_nonneg n) as Ha0. pose proof (Z.log2_nonneg d) as Hb0.
  set (a := Z.log2 n) in *. set (b := Z.log2 d) in *.
  rewrite <- !Z.add_1_r in *.
  rewrite Z.pow_add_r in Ha, Hb by lia. change (2 ^ 1) with 2 in *.
  destruct (Z.leb_spec 0 (a - b)) as [Hk|Hk].
  - assert (Hab : 2 ^ a = 2 ^ b * 2 ^ (a - b)).
    { rewrite <- Z.pow_add_r by lia. f_equal; lia. }
    assert (HX : 0 < 2 ^ (a - b)) by (apply Z.pow_pos_nonneg; lia).
    destruct (Z.leb_spec (d * 2 ^ (a - b)) n) as [Ht|Ht].
    + split; [|lia]. intros _.
      rewrite Z.pow_add_r by lia. change (2 ^ 1) with 2. nia.
    + destruct (Z.eq_dec (a - b) 0) as [E|E].
      * rewrite E in *. change (0 - 1) with (-1). split; [lia|]. intros _.
        change (- -1) with 1. change (2 ^ 1) with 2. change (2 ^ 0) with 1 in *. nia.
      * split; [|lia]. intros _.
        replace (a - b - 1 + 1) with (a - b) by lia.
        assert (Hs : 2 ^ (a - b) = 2 * 2 ^ (a - b - 1)).
        { rewrite <- (Z.pow_succ_r 2 (a - b - 1)) by lia. f_equal; lia. }
        nia.
  - assert (Hab : 2 ^ b = 2 ^ a * 2 ^ (- (a - b))).
    { rewrite <- Z.pow_add_r by lia. f_equal; lia. }
    assert (HX : 0 < 2 ^ (- (a - b))) by (apply Z.pow_pos_nonneg; lia).
    destruct (Z.leb_spec d (n * 2 ^ (- (a - b)))) as [Ht|Ht].
    + split; [lia|]. intros _. nia.
    + split; [lia|]. intros _.
      replace (- (a - b - 1)) with (Z.succ (- (a - b))) by lia.
      rewrite Z.pow_succ_r by lia. nia.
Qed.

(** The rounding of a value below [2 ^ 52], given as the fraction [a / b]:
    the exponent is negative and the mantissa is the nearest integer to
    the value scaled into the 53-bit range. *)
Lemma round_spec (n d a b : Z) :
  0 < n -> 0 < d -> 0 < a -> 0 < b -> n * b = a * d -> a < b * 2 ^ 52 ->
  exists j, 0 < j /\ exp (round n d) = - j
    /\ 2 ^ 52 * b <= a * 2 ^ j < 2 ^ 53 * b
    /\ b * (2 * man (round n d) - 1) <= 2 * (a * 2 ^ j)
        <= b * (2 * man (round n d) + 1).
Proof.
  intros Hn Hd Ha Hb Hv Hlt.
  assert (Hnd : n < d * 2 ^ 52) by nia.
  unfold round. destruct (Z.eqb_spec n 0) as [|_]; [lia|].
  destruct (ilog2_spec n d Hn Hd) as [Hpos Hneg].
  set (k := ilog2 n d) in *.
  assert (Hk : k < 52).
  { destruct (Z.lt_ge_cases k 0) as [|Hk0]; [lia|].
    specialize (Hpos Hk0).
    apply (proj2 (Z.pow_lt_mono_r_iff 2 k 52 ltac:(lia) ltac:(lia))). nia. }
  cbn [exp man]. destruct (Z.leb_spec 0 (k - 52)) as [|_]; [lia|].
  exists (52 - k). split; [lia|]. split; [lia|].
  replace (- (k - 52)) with (52 - k) by lia.
  set (P := 2 ^ (52 - k)).
  assert (HP : 0 < P) by (apply Z.pow_pos_nonneg; lia).
  assert (Hbr : 2 ^ 52 * d <= n * P < 2 ^ 53 * d).
  { destruct (Z.lt_ge_cases k 0) as [Hk0|Hk0].
    - specialize (Hneg Hk0).
      assert (HPe : P = 2 ^ 52 * 2 ^ (- k)).
      { unfold P. rewrite <- Z.pow_add_r by lia. f_equal; lia. }
      change (2 ^ 53) with (2 * 2 ^ 52). nia.
    - specialize (Hpos Hk0).
      assert (HPe : 2 ^ 52 = 2 ^ k * P).
      { unfold P. rewrite <- Z.pow_add_r by lia. f_equal; lia. }
      assert (0 < 2 ^ k) by (apply Z.pow_pos_nonneg; lia).
      rewrite Z.pow_add_r in Hpos by lia. change (2 ^ 1) with 2 in Hpos.
      change (2 ^ 53) with (2 * 2 ^ 52). nia. }
  pose proof (rne_div_spec (n * P) d ltac:(nia) Hd) as Hr.
  set (m := rne_div (n * P) d) in *.
  assert (Hc : forall x y, x * d <= y * d -> x <= y).
  { intros x y H. apply Z.mul_le_mono_pos_r in H; assumption. }
  assert (Hc' : forall x y, x * d < y * d -> x < y).
  { intros x y H. apply Z.mul_lt_mono_pos_r in H; assumption. }
  assert (E : n * P * b = a * P * d) by nia.
  repeat split.
  - apply Hc. nia.
  - apply Hc'. nia.
  - apply Hc. nia.
  - apply Hc. nia.
Qed.

Lemma num_den_negative_exp (x : t) (j : Z) :
  0 < j -> exp x = - j -> num x = man x /\ den x = 2 ^ j.
Proof.
  intros Hj He. unfold num, den. rewrite He.
  destruct (Z.leb_spec 0 (- j)); [lia|]. rewrite Z.opp_involutive. split; reflexivity.
Qed.

(** Integers below [2 ^ 52] convert exactly. *)
Lemma of_int_exact (n : Z) :
  0 < n < 2 ^ 52 ->
  exists P, 0 < P /\ num (of_int n) = n * P /\ den (of_int n) = P.
Proof.
  intros Hn. unfold of_int.
  destruct (round_spec n 1 n 1) as (j & Hj & He & Hbr & Hm); try lia.
  destruct (num_den_negative_exp _ j Hj He) as [Hnum Hden].
  exists (2 ^ j). rewrite Hnum, Hden.
  split; [apply Z.pow_pos_nonneg; lia|]. split; [lia|reflexivity].
Qed.

(** The product of an integer and a float [M / 2 ^ k]. *)
Lemma mul_of_int_spec (n : Z) (y : t) (M k : Z) :
  0 < n < 2 ^ 52 -> num y = M -> den y = 2 ^ k -> 0 < M -> 0 <= k ->
  n * M < 2 ^ k * 2 ^ 52 ->
  exists P m, 0 < P
    /\ num (mul (of_int n) y) = m /\ den (mul (of_int n) y) = P
    /\ 2 ^ 52 * 2 ^ k <= n * M * P < 2 ^ 53 * 2 ^ k
    /\ 2 ^ k * (2 * m - 1) <= 2 * (n * M * P) <= 2 ^ k * (2 * m + 1).
Proof.
  intros Hn Hy Hd HM Hk Hlt.
  destruct (of_int_exact n Hn) as (P0 & HP0 & Hn0 & Hd0).
  assert (H2k : 0 < 2 ^ k) by (apply Z.pow_pos_nonneg; lia).
  unfold mul. rewrite Hn0, Hd0, Hy, Hd.
  destruct (round_spec (n * P0 * M) (P0 * 2 ^ k) (n * M) (2 ^ k))
    as (j & Hj & He & Hbr & Hm).
  { repeat apply Z.mul_pos_pos; lia. }
  { apply Z.mul_pos_pos; lia. }
  { apply Z.mul_pos_pos; lia. }
  { exact H2k. }
  { ring. }
  { exact Hlt. }
  destruct (num_den_negative_exp _ j Hj He) as [Hnum Hden].
  exists (2 ^ j), (man (round (n * P0 * M) (P0 * 2 ^ k))).
  rewrite Hnum, Hden.
  split; [apply Z.pow_pos_nonneg; lia|]. repeat split; lia.
Qed.

Lemma lit_0_3_value : num lit_0_3 = 5404319552844595 /\ den lit_0_3 = 2 ^ 54.
Proof. split; vm_compute; reflexivity. Qed.

Lemma lit_0_2_value : num lit_0_2 = 7205759403792794 /\ den lit_0_2 = 2 ^ 55.
Proof. split; vm_compute; reflexivity. Qed.

Lemma lit_0_7_value : num lit_0_7 = 6305039478318694 /\ den lit_0_7 = 2 ^ 53.
Proof. split; vm_compute; reflexivity. Qed.

(** The model computes what the machine's binary64 unit computes, here on
    the literals, on [10 * 0.3] (exactly 3), on [3 * 0.2] (just above 0.6)
    and on [57 / 100 * 100] (just below 57). *)
Example machine_floats_agree :
  PrimFloat.eqb (to_prim lit_0_3)
    (PrimFloat.div (prim_of_int 3) (prim_of_int 10)) = true
  /\ PrimFloat.eqb (to_prim lit_0_2)
       (PrimFloat.div (prim_of_int 2) (prim_of_int 10)) = true
  /\ PrimFloat.eqb (to_prim lit_0_7)
       (PrimFloat.div (prim_of_int 7) (prim_of_int 10)) = true
  /\ PrimFloat.eqb (to_prim (mul (of_int 10) lit_0_3))
       (PrimFloat.mul (prim_of_int 10)
          (PrimFloat.div (prim_of_int 3) (prim_of_int 10))) = true
  /\ PrimFloat.eqb (to_prim (mul (of_int 3) lit_0_2))
       (PrimFloat.mul (prim_of_int 3)
          (PrimFloat.div (prim_of_int 2) (prim_of_int 10))) = true
  /\ PrimFloat.eqb (to_prim (mul (div_int 57 100) (of_int 100)))
       (PrimFloat.mul (PrimFloat.div (prim_of_int 57) (prim_of_int 100))
          (prim_of_int 100)) = true
  /\ to_int (mul (div_int 57 100) (of_int 100)) = 56.
Proof. repeat split; vm_compute; reflexivity. Qed.

(** [b > n * 0.3] decides [10 b > 3 n]. *)
Lemma int_gtb_mul_0_3 (n b : Z) :
  0 < n < 2 ^ 48 ->
  int_gtb b (mul (of_int n) lit_0_3) = (3 * n <? 10 * b).
Proof.
  intros Hn. destruct lit_0_3_value as [HM Hd].
  destruct (mul_of_int_spec n lit_0_3 _ 54 ltac:(lia) HM Hd)
    as (P & m & HP & Hnum & Hden & Hbr & Hm); try lia.
  unfold int_gtb. rewrite Hnum, Hden.
  change (2 ^ 54) with 18014398509481984 in *.
  change (2 ^ 53) with 9007199254740992 in *.
  change (2 ^ 52) with 4503599627370496 in *.
  change (2 ^ 48) with 281474976710656 in *.
  assert (Hu : n * P <= 281474976710655 * P) by nia.
  replace (n * 5404319552844595 * P) with (5404319552844595 * (n * P)) in * by ring.
  set (u := n * P) in *.
  destruct (Z.ltb_spec m (b * P)) as [H1|H1];
    destruct (Z.ltb_spec (3 * n) (10 * b)) as [H2|H2]; try reflexivity; exfalso.
  - assert (10 * (b * P) <= 3 * u) by (unfold u; nia). lia.
  - assert (3 * u + P <= 10 * (b * P)) by (unfold u; nia). lia.
Qed.

(** [o > n * 0.2] decides [5 o > n]. *)
Lemma int_gtb_mul_0_2 (n o : Z) :
  0 < n < 2 ^ 48 ->
  int_gtb o (mul (of_int n) lit_0_2) = (n <? 5 * o).
Proof.
  intros Hn. destruct lit_0_2_value as [HM Hd].
  destruct (mul_of_int_spec n lit_0_2 _ 55 ltac:(lia) HM Hd)
    as (P & m & HP & Hnum & Hden & Hbr & Hm); try lia.
  unfold int_gtb. rewrite Hnum, Hden.
  change (2 ^ 55) with 36028797018963968 in *.
  change (2 ^ 53) with 9007199254740992 in *.
  change (2 ^ 52) with 4503599627370496 in *.
  change (2 ^ 48) with 281474976710656 in *.
  assert (Hu : n * P <= 281474976710655 * P) by nia.
  replace (n * 7205759403792794 * P) with (7205759403792794 * (n * P)) in * by ring.
  set (u := n * P) in *.
  destruct (Z.ltb_spec m (o * P)) as [H1|H1];
    destruct (Z.ltb_spec n (5 * o)) as [H2|H2]; try reflexivity; exfalso.
  - assert (5 * (o * P) <= u) by (unfold u; nia). lia.
  - assert (u + P <= 5 * (o * P)) by (unfold u; nia). lia.
Qed.

(** [c / t > 0.7] decides [10 c > 7 t]. *)
Lemma ltb_0_7_div_int (c t : Z) :
  0 <= c <= t -> 0 < t < 2 ^ 48 ->
  ltb lit_0_7 (div_int c t) = (7 * t <? 10 * c).
Proof.
  intros Hc Ht. destruct lit_0_7_value as [HM Hd].
  unfold ltb. rewrite HM, Hd.
  destruct (Z.eq_dec c 0) as [->|Hc0].
  { change (div_int 0 t) with (mk 0 0).
    change (num (mk 0 0)) with 0. change (den (mk 0 0)) with 1.
    destruct (Z.ltb_spec (6305039478318694 * 1) (0 * 2 ^ 53));
      destruct (Z.ltb_spec (7 * t) (10 * 0)); try reflexivity; lia. }
  unfold div_int.
  destruct (round_spec c t c t) as (j & Hj & He & Hbr & Hm); try lia.
  destruct (num_den_negative_exp _ j Hj He) as [Hnum Hden].
  rewrite Hnum, Hden. set (m := man (round c t)) in *.
  assert (Hj53 : 10 * c = 7 * t -> j = 53).
  { intros E.
    assert (2 ^ 52 < 2 ^ j < 2 ^ 54).
    { change (2 ^ 52) with 4503599627370496 in *.
      change (2 ^ 53) with 9007199254740992 in *.
      change (2 ^ 54) with 18014398509481984. nia. }
    assert (52 < j) by (apply (Z.pow_lt_mono_r_iff 2); lia).
    assert (j < 54) by (apply (Z.pow_lt_mono_r_iff 2); lia).
    lia. }
  set (P := 2 ^ j) in *.
  change (2 ^ 53) with 9007199254740992 in *.
  change (2 ^ 52) with 4503599627370496 in *.
  change (2 ^ 48) with 281474976710656 in *.
  assert (HP : 4503599627370496 <= P) by nia.
  assert (HX : t * P <= 281474976710655 * P) by nia.
  assert (HY : 0 <= t * m) by nia.
  destruct (Z.ltb_spec (6305039478318694 * P) (m * 9007199254740992)) as [H1|H1];
    destruct (Z.ltb_spec (7 * t) (10 * c)) as [H2|H2]; try reflexivity; exfalso.
  - destruct (Z.eq_dec (10 * c) (7 * t)) as [E|E].
    + specialize (Hj53 E). unfold P in *. rewrite Hj53 in *.
      change (2 ^ 53) with 9007199254740992 in *.
      assert (10 * (2 * m - 1) <= 14 * 9007199254740992 <= 10 * (2 * m + 1)) by nia.
      lia.
    + assert ((10 * c + 1) * P <= 7 * t * P)
        by (apply Z.mul_le_mono_nonneg_r; lia).
      assert (t * (6305039478318694 * P + 1) <= t * (m * 9007199254740992))
        by (apply Z.mul_le_mono_nonneg_l; lia).
      lia.
  - assert ((7 * t + 1) * P <= 10 * c * P)
      by (apply Z.mul_le_mono_nonneg_r; lia).
    assert (t * (m * 9007199254740992) <= t * (6305039478318694 * P))
      by (apply Z.mul_le_mono_nonneg_l; lia).
    lia.
Qed.

End Binary64.

(** ** Timeline status *)

Section TimelineStatusEngine.
Import ReportService.

(** C9: for a project without tasks the result is exactly the two entries
    [status] and [reason], and there is no [metrics] entry. *)
Theorem timeline_status_without_tasks (db : Session) (now : datetime)
    (project_id : Z) :
  tasks_of db project_id = [] ->
  get_timeline_status db now project_id
  = [("status", VStr "Needs More Info");
     ("reason", VStr "No tasks found in project")]
  /\ dict_get (get_timeline_status db now project_id) "metrics" = None.
Proof.
  intros H. unfold get_timeline_status, tasks_of in *. rewrite H.
  split; reflexivity.
Qed.

Lemma timeline_status_without_tasks_witness :
  dict_get (get_timeline_status db_no_tasks sample_now 1) "status"
  = Some (VStr "Needs More Info")
  /\ dict_get (get_timeline_status db_no_tasks sample_now 1) "metrics" = None.
Proof.
  destruct (timeline_status_without_tasks db_no_tasks sample_now 1 eq_refl)
    as [-> _].
  split; reflexivity.
Defined.

Lemma exceeds_0_3 (count total : Z) :
  exceeds count 0.3 total = (3 * total <? 10 * count).
Proof.
  unfold exceeds, Qle_bool. cbn [Qnum Qden inject_Z Qmult].
  destruct (Z.leb_spec (count * Z.pos (10 * 1)) (3 * total * 1));
    destruct (Z.ltb_spec (3 * total) (10 * count)); try reflexivity; lia.
Qed.

Lemma exceeds_0_2 (count total : Z) :
  exceeds count 0.2 total = (total <? 5 * count).
Proof.
  unfold exceeds, Qle_bool. cbn [Qnum Qden inject_Z Qmult].
  match goal with |- negb (?a <=? ?b) = _ =>
    destruct (Z.leb_spec a b) end;
    destruct (Z.ltb_spec total (5 * count)); try reflexivity; lia.
Qed.

Lemma rate_exceeds_0_7 (completed total : Z) :
  0 < total ->
  negb (Qle_bool (inject_Z completed / inject_Z total) 0.7)
  = (7 * total <? 10 * completed).
Proof.
  intros H. destruct total as [|p|p]; try lia.
  unfold Qle_bool, Qdiv, Qinv. cbn [Qnum Qden inject_Z Qmult].
  match goal with |- negb (?a <=? ?b) = _ =>
    destruct (Z.leb_spec a b) end;
    destruct (Z.ltb_spec (7 * Z.pos p) (10 * completed)); try reflexivity; lia.
Qed.

Lemma len_filter_le {A : Type} (f : A -> bool) (l : list A) :
  0 <= len (filter f l) <= len l.
Proof.
  unfold len. pose proof (filter_length_le f l). lia.
Qed.

(** C3: for a project with tasks (fewer than [2 ^ 48] of them) the status
    and its reason are those of the first matching rule of the ordered
    list, the fractions being compared exactly and strictly; in particular
    a blocked count of exactly 30% of the total does not make the project
    "Off Track" unless the overdue rule does. *)
Theorem timeline_status_first_matching_rule (db : Session) (now : datetime)
    (project_id : Z) :
  let tasks := tasks_of db project_id in
  let total := len tasks in
  let rules :=
    timeline_rules total (completed_count tasks) (blocked_count tasks)
      (overdue_count now tasks) (high_risk_count tasks) in
  0 < total < 2 ^ 48 ->
  dict_get (get_timeline_status db now project_id) "status"
    = Some (VStr (fst rules))
  /\ dict_get (get_timeline_status db now project_id) "reason"
     = Some (VStr (snd rules))
  /\ (10 * blocked_count tasks = 3 * total ->
      5 * overdue_count now tasks <= total ->
      dict_get (get_timeline_status db now project_id) "status"
      <> Some (VStr "Off Track")).
Proof.
  intros tasks total rules Htotal.
  assert (Hst : dict_get (get_timeline_status db now project_id) "status"
                = Some (VStr (fst rules))
                /\ dict_get (get_timeline_status db now project_id) "reason"
                   = Some (VStr (snd rules))).
  { subst rules total. unfold get_timeline_status.
    fold (tasks_of db project_id). fold tasks. clearbody tasks.
    destruct tasks as [|t0 rest]; [cbn in Htotal; lia|].
    set (T := t0 :: rest) in *.
    fold (completed_count T). fold (blocked_count T).
    fold (overdue_count now T). fold (high_risk_count T).
    destruct (Z.ltb_spec 0 (len T)) as [_|]; [|lia].
    rewrite !int_gtb_mul_0_3, int_gtb_mul_0_2 by exact Htotal.
    rewrite ltb_0_7_div_int
      by (try exact Htotal; apply (len_filter_le _ T)).
    fold (completion_percent (completed_count T) (len T)).
    unfold timeline_rules.
    rewrite !exceeds_0_3, exceeds_0_2, rate_exceeds_0_7 by lia.
    destruct ((3 * len T <? 10 * blocked_count T)
              || (len T <? 5 * overdue_count now T));
      [split; reflexivity|].
    destruct ((3 * len T <? 10 * high_risk_count T)
              || (0 <? overdue_count now T));
      [split; reflexivity|].
    destruct (7 * len T <? 10 * completed_count T); split; reflexivity. }
  destruct Hst as [Hs Hr]. split; [exact Hs|]. split; [exact Hr|].
  intros Hb Ho. rewrite Hs. unfold rules, timeline_rules.
  rewrite !exceeds_0_3, exceeds_0_2.
  destruct (Z.ltb_spec (3 * total) (10 * blocked_count tasks)); [lia|].
  destruct (Z.ltb_spec total (5 * overdue_count now tasks)); [lia|].
  cbn [orb].
  destruct (_ || _); [cbn; discriminate|].
  destruct (negb _); cbn; discriminate.
Qed.

Lemma timeline_status_first_matching_rule_witness :
  10 * blocked_count (tasks_of db_ten_tasks 1) = 3 * len (tasks_of db_ten_tasks 1)
  /\ dict_get (get_timeline_status db_ten_tasks sample_now 1) "status"
     = Some (VStr "On Track")
  /\ dict_get (get_timeline_status db_ten_tasks sample_now 1) "reason"
     = Some (VStr "Project progressing normally").
Proof.
  split; [reflexivity|].
  destruct (timeline_status_first_matching_rule db_ten_tasks sample_now 1)
    as (Hs & Hr & _).
  - vm_compute. split; reflexivity.
  - rewrite Hs, Hr. split; reflexivity.
Defined.

(** The example of the specification: 4 blocked tasks out of 10. *)
Example timeline_status_four_blocked :
  dict_get (get_timeline_status (db_blocked 4) sample_now 1) "status"
  = Some (VStr "Off Track")
  /\ dict_get (get_timeline_status (db_blocked 4) sample_now 1) "reason"
     = Some (VStr "4 blocked tasks, 0 overdue tasks").
Proof. split; vm_compute; reflexivity. Qed.

End TimelineStatusEngine.

(** ** Properties of the other functions *)

Section RiskClassifierMore.
Import AIService.

Lemma risk_of_score_level (s : Z) :
  exists level, risk_of_score s = RiskLevel_value level.
Proof.
  unfold risk_of_score.
  destruct (s >=? 4); [exists HIGH; reflexivity|].
  destruct (s >=? 2); [exists MEDIUM|exists LOW]; reflexivity.
Qed.

(** X1: the classifier raises, and then a [TypeError], exactly when a
    deadline comes without a reference date or the story points are
    [None]; otherwise it returns one of the three levels. *)
Theorem detect_risk_level_raises_iff (task : TaskDict) :
  (detect_risk_level task = Raise TypeError
   <-> (deadline task <> None /\ current_date task = None)
       \/ story_points task = Present None)
  /\ ((exists level, detect_risk_level task = Ok (RiskLevel_value level))
      \/ detect_risk_level task = Raise TypeError).
Proof.
  unfold detect_risk_level, is_overdue, high_complexity.
  destruct (deadline task) as [d|], (current_date task) as [now|],
    (story_points task) as [|[n|]]; cbn [bind].
  all: split;
    [ split;
      [ intros H; try discriminate H; auto
      | intros [[H1 H2]|H]; try discriminate; try congruence; auto ]
    | try (right; reflexivity); left;
      match goal with
      | |- exists level, Ok (risk_of_score ?s) = _ =>
          destruct (risk_of_score_level s) as [l Hl]; exists l; rewrite Hl;
          reflexivity
      end ].
  all: try (left; split; [discriminate|reflexivity]).
Qed.

Lemma detect_risk_level_points (task : TaskDict) (level : string) :
  detect_risk_level task = Ok level -> level = risk_of_score (risk_points task).
Proof.
  unfold detect_risk_level, is_overdue, high_complexity, risk_points.
  destruct (deadline task) as [d|], (current_date task) as [now|],
    (story_points task) as [|[n|]]; cbn [bind]; try discriminate;
    intros [= <-]; f_equal;
    destruct (truthy_str (assignee task)), (status task == "blocked"),
      (status task == "unclear"), (truthy_str (description task));
    cbn [negb orb];
    repeat match goal with
           | |- context [?a <? ?b] => destruct (a <? b)
           | |- context [?a >=? ?b] => destruct (a >=? b)
           end; reflexivity.
Qed.

Lemma risk_points_terms (task : TaskDict) :
  exists o a b u c,
    risk_points task = o + a + b + u + c
    /\ (o = 3 /\ task_overdue task \/ o = 0 /\ ~ task_overdue task)
    /\ (a = 1 /\ truthy_str (assignee task) = false
        \/ a = 0 /\ truthy_str (assignee task) = true)
    /\ (b = 3 /\ status task = "blocked" \/ b = 0 /\ status task <> "blocked")
    /\ (u = 2 /\ (status task = "unclear" \/ truthy_str (description task) = false)
        \/ u = 0 /\ status task <> "unclear"
           /\ truthy_str (description task) = true)
    /\ (c = 1 /\ task_complex task \/ c = 0 /\ ~ task_complex task).
Proof.
  unfold risk_points. do 5 eexists. split; [reflexivity|]. repeat split.
  - unfold task_overdue.
    destruct (deadline task) as [d|], (current_date task) as [now|];
      try (right; split; [reflexivity|]; intros (d' & n' & H1 & H2 & _);
           congruence).
    destruct (Z.ltb_spec d now).
    + left. split; [reflexivity|]. eauto.
    + right. split; [reflexivity|]. intros (d' & n' & [= <-] & [= <-] & H'). lia.
  - destruct (truthy_str (assignee task)); auto.
  - destruct (String.eqb_spec (status task) "blocked"); auto.
  - destruct (String.eqb_spec (status task) "unclear");
      destruct (truthy_str (description task)); cbn [negb orb]; auto.
  - unfold task_complex.
    destruct (story_points task) as [|[n|]];
      try (right; split; [reflexivity|]; intros (n' & H1 & _); congruence).
    rewrite Z.geb_leb. destruct (Z.leb_spec 8 n).
    + left. split; [reflexivity|]. eauto.
    + right. split; [reflexivity|]. intros (n' & [= <-] & H'). lia.
Qed.

Lemma risk_of_score_cases (s : Z) :
  (risk_of_score s = "high" /\ 4 <= s)
  \/ (risk_of_score s = "medium" /\ 2 <= s < 4)
  \/ (risk_of_score s = "low" /\ s < 2).
Proof.
  unfold risk_of_score. rewrite !Z.geb_leb.
  destruct (Z.leb_spec 4 s); [left; split; [reflexivity|lia]|].
  destruct (Z.leb_spec 2 s); [right; left|right; right]; split;
    try reflexivity; lia.
Qed.

(** X2: a task classified LOW is not overdue, not blocked, not unclear,
    has a description, and is not both unassigned and complex. *)
Theorem low_risk_only_if (task : TaskDict) :
  detect_risk_level task = Ok "low" ->
  ~ task_overdue task
  /\ status task <> "blocked"
  /\ status task <> "unclear"
  /\ truthy_str (description task) = true
  /\ (truthy_str (assignee task) = true \/ ~ task_complex task).
Proof.
  intros H. apply detect_risk_level_points in H.
  destruct (risk_points_terms task)
    as (o & a & b & u & c & Hp & Ho & Ha & Hb & Hu & Hc).
  destruct (risk_of_score_cases (risk_points task)) as [[E _]|[[E _]|[_ Hs]]];
    try (rewrite E in H; discriminate H).
  rewrite Hp in Hs.
  repeat split;
    try (destruct Ho as [[? ?]|[? ?]], Ha as [[? ?]|[? ?]], Hb as [[? ?]|[? ?]],
           Hu as [[? ?]|[? [? ?]]], Hc as [[? ?]|[? ?]];
         first [assumption | lia | (left; assumption) | (right; assumption)]).
Qed.

(** X3: a blocked task the classifier accepts is MEDIUM when nothing else
    weighs on it and HIGH as soon as it is also overdue, unassigned,
    without description or complex. *)
Theorem blocked_is_high_iff (task : TaskDict) (level : string) :
  status task = "blocked" ->
  detect_risk_level task = Ok level ->
  (level = "high" \/ level = "medium")
  /\ (level = "high"
      <-> task_overdue task \/ truthy_str (assignee task) = false
          \/ truthy_str (description task) = false \/ task_complex task).
Proof.
  intros Hst H. apply detect_risk_level_points in H.
  destruct (risk_points_terms task)
    as (o & a & b & u & c & Hp & Ho & Ha & Hb & Hu & Hc).
  assert (Hb3 : b = 3) by (destruct Hb as [[? ?]|[? ?]]; [assumption|contradiction]).
  assert (Hun : status task <> "unclear") by (rewrite Hst; discriminate).
  destruct (risk_of_score_cases (risk_points task)) as [[E Hs]|[[E Hs]|[E Hs]]];
    rewrite E in H; subst level; rewrite Hp in Hs.
  - split; [left; reflexivity|]. split; [intros _|reflexivity].
    destruct Ho as [[? ?]|[? ?]]; [left; assumption|].
    destruct Ha as [[? ?]|[? ?]]; [right; left; assumption|].
    destruct Hu as [[? [?|?]]|[? [? ?]]];
      [contradiction | right; right; left; assumption |].
    destruct Hc as [[? ?]|[? ?]]; [right; right; right; assumption|]. lia.
  - split; [right; reflexivity|]. split; [discriminate|].
    intros [Hov|[Has|[Hde|Hco]]]; exfalso.
    + destruct Ho as [[? ?]|[? ?]]; [|contradiction].
      destruct Ha as [[? ?]|[? ?]], Hu as [[? ?]|[? [? ?]]], Hc as [[? ?]|[? ?]]; lia.
    + destruct Ha as [[? ?]|[? ?]]; [|congruence].
      destruct Ho as [[? ?]|[? ?]], Hu as [[? ?]|[? [? ?]]], Hc as [[? ?]|[? ?]]; lia.
    + destruct Hu as [[? ?]|[? [? ?]]]; [|congruence].
      destruct Ho as [[? ?]|[? ?]], Ha as [[? ?]|[? ?]], Hc as [[? ?]|[? ?]]; lia.
    + destruct Hc as [[? ?]|[? ?]]; [|contradiction].
      destruct Ho as [[? ?]|[? ?]], Ha as [[? ?]|[? ?]], Hu as [[? ?]|[? [? ?]]]; lia.
  - exfalso.
    destruct Ho as [[? ?]|[? ?]], Ha as [[? ?]|[? ?]], Hu as [[? ?]|[? [? ?]]],
      Hc as [[? ?]|[? ?]]; lia.
Qed.

End RiskClassifierMore.

Section PriorityScorerMore.
Import AIService.

Lemma urgency_le_100 (d : Z) : urgency d <= 100.
Proof.
  unfold urgency.
  repeat match goal with
         | |- context [?a <? ?b] => destruct (Z.ltb_spec a b)
         | |- context [?a <=? ?b] => destruct (Z.leb_spec a b)
         end; lia.
Qed.

(** X4: no task scores more than 190 (overdue, blocked, high risk and bug
    together), and that score is reached. *)
Theorem score_at_most_190 :
  (forall task, calculate_priority_score task <= 190)
  /\ calculate_priority_score worst_task = 190.
Proof.
  split; [|reflexivity]. intros task.
  rewrite calculate_priority_score_terms.
  pose proof (risk_weights_get_bounds (ai_risk_level task)).
  assert (match deadline task with
          | Some d => urgency (days_until_deadline d task)
          | None => 0
          end <= 100).
  { destruct (deadline task); [apply urgency_le_100|lia]. }
  destruct (status task == "blocked"); destruct (status task == "in_progress");
    destruct (opt_str_eq (task_type task) "bug"); lia.
Qed.

End PriorityScorerMore.

Section TaskRankerMore.
Import AIService.

Lemma sorted_reverse_fixed (key : TaskDict -> Z) (l : list TaskDict) :
  StronglySorted (desc_by key) l -> sorted_reverse key l = l.
Proof.
  induction 1 as [|x l Hs IH Hx]; cbn [sorted_reverse]; [reflexivity|].
  rewrite IH. destruct l as [|y l']; [reflexivity|]. cbn [insert_desc].
  inversion Hx as [|? ? Hy _]; subst. unfold desc_by in Hy.
  destruct (Z.leb_spec (key y) (key x)); [reflexivity|lia].
Qed.

Lemma score_tasks_fixed (l : list TaskDict) :
  Forall (fun t => priority_score t = Some (calculate_priority_score t)) l ->
  score_tasks l = l.
Proof.
  unfold score_tasks. induction 1 as [|t l Ht _ IH]; cbn [map]; [reflexivity|].
  rewrite IH. f_equal. destruct t. cbn in *. rewrite Ht. reflexivity.
Qed.

Lemma score_tasks_scored (l : list TaskDict) :
  Forall (fun t => priority_score t = Some (calculate_priority_score t))
    (score_tasks l).
Proof.
  unfold score_tasks. apply Forall_map, Forall_forall. intros t _. reflexivity.
Qed.

(** X5: ranking a ranked list changes nothing: the scores it would write
    are there already and the order is already the ranking's. *)
Theorem rank_idempotent (tasks : list TaskDict) :
  rank_tasks_by_priority (rank_tasks_by_priority tasks)
  = rank_tasks_by_priority tasks.
Proof.
  unfold rank_tasks_by_priority at 1.
  rewrite score_tasks_fixed.
  - apply sorted_reverse_fixed. apply sorted_reverse_sorted.
  - unfold rank_tasks_by_priority.
    eapply Permutation_Forall; [apply sorted_reverse_perm|].
    apply score_tasks_scored.
Qed.

(** X6: the ranking has as many tasks as the input, and its first task has
    the highest score of all. *)
Theorem rank_top_is_maximal (tasks : list TaskDict) :
  List.length (rank_tasks_by_priority tasks) = List.length tasks
  /\ (forall top rest t,
        rank_tasks_by_priority tasks = top :: rest ->
        In t tasks ->
        calculate_priority_score t <= calculate_priority_score top).
Proof.
  split.
  - unfold rank_tasks_by_priority, score_tasks.
    rewrite <- (Permutation_length (sorted_reverse_perm _ _)).
    apply length_map.
  - intros top rest t Hr Ht.
    pose proof (sorted_reverse_sorted sort_key (score_tasks tasks)) as Hs.
    pose proof (sorted_reverse_perm sort_key (score_tasks tasks)) as Hp.
    fold (rank_tasks_by_priority tasks) in Hs, Hp. rewrite Hr in Hs, Hp.
    assert (Hin : In (set_priority_score t (calculate_priority_score t))
                    (top :: rest)).
    { eapply Permutation_in; [exact Hp|].
      unfold score_tasks. apply in_map_iff. eauto. }
    assert (Htop : sort_key top = calculate_priority_score top).
    { apply (score_tasks_key tasks). eapply Permutation_in;
        [apply Permutation_sym, Hp | left; reflexivity]. }
    inversion Hs as [|? ? _ Hall]; subst.
    destruct Hin as [Heq|Hin].
    + rewrite Heq, calculate_priority_score_set_priority_score. lia.
    + rewrite Forall_forall in Hall. specialize (Hall _ Hin).
      unfold desc_by in Hall. rewrite Htop in Hall.
      unfold sort_key in Hall. cbn [priority_score set_priority_score] in Hall.
      exact Hall.
Qed.

End TaskRankerMore.

Section TimelineMore.
Import ReportService.

Lemma rne_div_nonneg (n d : Z) : 0 <= n -> 0 < d -> 0 <= F64.rne_div n d.
Proof.
  intros Hn Hd. unfold F64.rne_div.
  pose proof (Z.div_pos n d Hn Hd).
  destruct (2 * (n mod d) ?= d); [destruct (Z.even (n / d))| |]; lia.
Qed.

Lemma round_num_nonneg (n d : Z) : 0 <= n -> 0 < d -> 0 <= F64.num (F64.round n d).
Proof.
  intros Hn Hd. unfold F64.round.
  destruct (n =? 0); [cbn; lia|].
  unfold F64.num. cbn [F64.exp F64.man].
  destruct (Z.leb_spec 0 (F64.ilog2 n d - 52)) as [He|He].
  - apply Z.mul_nonneg_nonneg; [|apply Z.pow_nonneg; lia].
    apply rne_div_nonneg; [exact Hn|].
    apply Z.mul_pos_pos; [exact Hd|apply Z.pow_pos_nonneg; lia].
  - apply rne_div_nonneg; [|exact Hd].
    apply Z.mul_nonneg_nonneg; [exact Hn|apply Z.pow_nonneg; lia].
Qed.

Lemma den_pos (x : F64.t) : 0 < F64.den x.
Proof.
  unfold F64.den. destruct (Z.leb_spec 0 (F64.exp x)); [lia|].
  apply Z.pow_pos_nonneg; lia.
Qed.

(** No count exceeds a fraction of a positive total when it is 0. *)
Lemma int_gtb_0_mul (n : Z) (y : F64.t) :
  0 <= n -> 0 <= F64.num y ->
  F64.int_gtb 0 (F64.mul (F64.of_int n) y) = false.
Proof.
  intros Hn Hy. unfold F64.int_gtb, F64.mul.
  apply Z.ltb_ge. rewrite Z.mul_0_l.
  apply round_num_nonneg.
  - apply Z.mul_nonneg_nonneg; [|exact Hy].
    unfold F64.of_int. apply round_num_nonneg; lia.
  - apply Z.mul_pos_pos; apply den_pos.
Qed.

Lemma len_nonneg {A : Type} (l : list A) : 0 <= len l.
Proof. unfold len. lia. Qed.

(** X7: a project that has tasks, none blocked and none overdue, is never
    "Off Track"; if none is high-risk either it is "On Track". *)
Theorem timeline_status_needs_cause (db : Session) (now : datetime)
    (project_id : Z) :
  tasks_of db project_id <> [] ->
  blocked_count (tasks_of db project_id) = 0 ->
  overdue_count now (tasks_of db project_id) = 0 ->
  dict_get (get_timeline_status db now project_id) "status"
    <> Some (VStr "Off Track")
  /\ (high_risk_count (tasks_of db project_id) = 0 ->
      dict_get (get_timeline_status db now project_id) "status"
      = Some (VStr "On Track")).
Proof.
  intros Hne Hb Ho. unfold get_timeline_status.
  fold (tasks_of db project_id).
  destruct (tasks_of db project_id) as [|t0 rest] eqn:E; [contradiction|].
  rewrite <- E in *. clear E Hne. set (T := tasks_of db project_id) in *.
  fold (completed_count T). fold (blocked_count T).
  fold (overdue_count now T). fold (high_risk_count T).
  rewrite Hb, Ho.
  rewrite !int_gtb_0_mul by (try apply len_nonneg; vm_compute; discriminate).
  cbn [orb]. change (0 <? 0) with false. rewrite orb_false_r.
  split.
  - destruct (F64.int_gtb (high_risk_count T) _); [cbn; discriminate|].
    destruct (F64.ltb _ _); cbn; discriminate.
  - intros Hh. rewrite Hh.
    rewrite int_gtb_0_mul by (try apply len_nonneg; vm_compute; discriminate).
    destruct (F64.ltb _ _); reflexivity.
Qed.

Lemma div_int_same (n : Z) :
  0 < n -> F64.div_int n n = F64.mk 4503599627370496 (-52).
Proof.
  intros Hn. unfold F64.div_int.
  destruct (round_spec n n 1 1) as (j & Hj & He & Hbr & Hm); try lia.
  assert (j = 52).
  { assert (52 <= j) by (apply (Z.pow_le_mono_r_iff 2); lia).
    assert (j < 53) by (apply (Z.pow_lt_mono_r_iff 2); lia).
    lia. }
  subst j. change (2 ^ 52) with 4503599627370496 in *.
  destruct (F64.round n n) as [m e]. cbn [F64.exp F64.man] in *.
  f_equal; lia.
Qed.

Lemma len_filter_all {A : Type} (f : A -> bool) (l : list A) :
  Forall (fun x => f x = true) l -> len (filter f l) = len l.
Proof.
  unfold len. induction 1 as [|x l Hx _ IH]; cbn [filter]; [reflexivity|].
  rewrite Hx. cbn [List.length]. lia.
Qed.

Lemma len_filter_none {A : Type} (f : A -> bool) (l : list A) :
  Forall (fun x => f x = false) l -> len (filter f l) = 0.
Proof.
  unfold len. induction 1 as [|x l Hx _ IH]; cbn [filter]; [reflexivity|].
  rewrite Hx. exact IH.
Qed.

(** Two counts over disjoint conditions fit in the total together. *)
Lemma len_filter_disjoint {A : Type} (f g : A -> bool) (l : list A) :
  (forall x, f x = true -> g x = false) ->
  len (filter f l) + len (filter g l) <= len l.
Proof.
  intros Hd. unfold len. induction l as [|x l IH]; cbn [filter List.length]; [lia|].
  destruct (f x) eqn:Hf; [rewrite (Hd x Hf)|destruct (g x)];
    cbn [List.length]; lia.
Qed.

(** X8: when every task of the project is done and none is labelled high
    risk, the project is "On Track" and the reason reads 100%. *)
Theorem timeline_status_all_done (db : Session) (now : datetime)
    (project_id : Z) :
  tasks_of db project_id <> [] ->
  Forall (fun t => Task.status t = DONE) (tasks_of db project_id) ->
  high_risk_count (tasks_of db project_id) = 0 ->
  dict_get (get_timeline_status db now project_id) "status"
    = Some (VStr "On Track")
  /\ dict_get (get_timeline_status db now project_id) "reason"
     = Some (VStr "100% tasks completed").
Proof.
  intros Hne Hdone Hh. unfold get_timeline_status.
  fold (tasks_of db project_id).
  destruct (tasks_of db project_id) as [|t0 rest] eqn:E; [contradiction|].
  rewrite <- E in *. set (T := tasks_of db project_id) in *.
  assert (Hpos : 0 < len T) by (rewrite E; unfold len; cbn; lia).
  clear E Hne.
  fold (completed_count T). fold (blocked_count T).
  fold (overdue_count now T). fold (high_risk_count T).
  assert (Hc : completed_count T = len T).
  { apply len_filter_all. eapply Forall_impl; [|exact Hdone].
    intros t Ht. cbn beta. rewrite Ht. reflexivity. }
  assert (Hb : blocked_count T = 0).
  { apply len_filter_none. eapply Forall_impl; [|exact Hdone].
    intros t Ht. cbn beta. rewrite Ht. reflexivity. }
  assert (Ho : overdue_count now T = 0).
  { apply len_filter_none. eapply Forall_impl; [|exact Hdone].
    intros t Ht. cbn beta. unfold is_overdue. rewrite Ht.
    destruct (Task.deadline t); [apply andb_false_r|reflexivity]. }
  rewrite Hc, Hb, Ho, Hh.
  rewrite !int_gtb_0_mul by (try apply len_nonneg; vm_compute; discriminate).
  destruct (Z.ltb_spec 0 (len T)) as [_|]; [|lia].
  rewrite (div_int_same _ Hpos).
  split; vm_compute; reflexivity.
Qed.

(** X9: the metrics of a project with tasks are counts over its tasks:
    the tasks that are done, those that are blocked, those whose deadline
    has passed and that are not done, and those of high risk.  A done task
    is thus counted neither as blocked nor as overdue: completed and
    blocked, and completed and overdue, fit in the total together. *)
Theorem timeline_metrics_consistent (db : Session) (now : datetime)
    (project_id : Z) :
  tasks_of db project_id <> [] ->
  let tasks := tasks_of db project_id in
  let completed := len (filter (has_status DONE) tasks) in
  let blocked := len (filter (has_status BLOCKED) tasks) in
  let overdue :=
    len (filter (fun t => deadline_passed now t && negb (has_status DONE t))
           tasks) in
  let high_risk := len (filter is_high_risk tasks) in
  dict_get (get_timeline_status db now project_id) "metrics"
  = Some (VDict [("total_tasks", VInt (len tasks));
                 ("completed", VInt completed);
                 ("blocked", VInt blocked);
                 ("overdue", VInt overdue);
                 ("high_risk", VInt high_risk);
                 ("completion_rate",
                  VFloat (F64.round1
                            (F64.mul (F64.div_int completed (len tasks))
                               (F64.of_int 100))))])
  /\ completed + blocked <= len tasks
  /\ completed + overdue <= len tasks
  /\ high_risk <= len tasks.
Proof.
  intros Hne. cbv zeta. unfold get_timeline_status.
  fold (tasks_of db project_id).
  destruct (tasks_of db project_id) as [|t0 rest] eqn:E; [contradiction|].
  rewrite <- E in *. set (T := tasks_of db project_id) in *.
  assert (Hpos : 0 < len T) by (rewrite E; unfold len; cbn; lia).
  clear E Hne.
  assert (E1 : filter (fun t => TaskStatus_value (Task.status t) == "done") T
               = filter (has_status DONE) T).
  { apply filter_ext. intros t. unfold has_status.
    destruct (Task.status t); reflexivity. }
  assert (E2 : filter (fun t => TaskStatus_value (Task.status t) == "blocked") T
               = filter (has_status BLOCKED) T).
  { apply filter_ext. intros t. unfold has_status.
    destruct (Task.status t); reflexivity. }
  assert (E3 : filter (is_overdue now) T
               = filter (fun t => deadline_passed now t
                                  && negb (has_status DONE t)) T).
  { apply filter_ext. intros t. unfold is_overdue, deadline_passed, has_status.
    destruct (Task.deadline t); destruct (Task.status t); reflexivity. }
  assert (E4 : filter (fun t => RiskLevel_value (Task.ai_risk_level t) == "high") T
               = filter is_high_risk T).
  { apply filter_ext. intros t. unfold is_high_risk.
    destruct (Task.ai_risk_level t); reflexivity. }
  rewrite E1, E2, E3, E4.
  destruct (Z.ltb_spec 0 (len T)) as [_|]; [|lia].
  split.
  { destruct (_ || _); [reflexivity|].
    destruct (_ || _); [reflexivity|].
    destruct (F64.ltb _ _); reflexivity. }
  repeat split.
  - apply len_filter_disjoint. intros t Ht. unfold has_status in *.
    destruct (Task.status t); try discriminate Ht; reflexivity.
  - apply len_filter_disjoint. intros t Ht. rewrite Ht. apply andb_false_r.
  - apply (len_filter_le _ T).
Qed.

End TimelineMore.

Section ReportsMore.
Import ReportService.

Lemma next_id_above (reports : list DailyReport.t) (r : DailyReport.t) :
  In r reports -> DailyReport.id r < next_id reports.
Proof.
  unfold next_id. induction reports as [|r0 rest IH]; cbn [fold_right In].
  - contradiction.
  - intros [->|H]; [lia|]. specialize (IH H). lia.
Qed.

Lemma update_first_length (p : DailyReport.t -> bool) (r' : DailyReport.t)
    (reports : list DailyReport.t) :
  List.length (update_first p r' reports) = List.length reports.
Proof.
  induction reports as [|r rest IH]; cbn [update_first]; [reflexivity|].
  destruct (p r); cbn [List.length]; [reflexivity|]. rewrite IH. reflexivity.
Qed.

Lemma update_first_other (p : DailyReport.t -> bool) (r' r : DailyReport.t)
    (reports : list DailyReport.t) :
  In r reports -> p r = false -> In r (update_first p r' reports).
Proof.
  induction reports as [|r0 rest IH]; cbn [update_first In]; [contradiction|].
  intros [->|Hin] Hp.
  - rewrite Hp. left. reflexivity.
  - destruct (p r0); [right; exact Hin|]. right. apply IH; assumption.
Qed.

Lemma update_first_in (p : DailyReport.t -> bool) (r' r : DailyReport.t)
    (reports : list DailyReport.t) :
  In r (update_first p r' reports) -> r = r' \/ In r reports.
Proof.
  induction reports as [|r0 rest IH]; cbn [update_first In]; [contradiction|].
  destruct (p r0); cbn [In].
  - intros [<-|Hin]; [left; reflexivity | right; right; exact Hin].
  - intros [<-|Hin]; [right; left; reflexivity|].
    destruct (IH Hin) as [->|H]; [left; reflexivity | right; right; exact H].
Qed.

(** X11: a successful call keeps one report per project and day.  The
    report it returns is in the table and is the one of the project and of
    today; the other reports are those that were there for another project
    or day, none lost and none added; and the table has as many rows as
    before when the day had a report, and one more when it had none. *)
Theorem generate_daily_report_one_per_day (db db' : Session)
    (provider : AIService.Provider) (now : datetime) (project_id : Z)
    (report : DailyReport.t) :
  unique_per_day (daily_reports db) ->
  generate_daily_report db provider now project_id = Ok (db', report) ->
  let key := (project_id, today now) in
  unique_per_day (daily_reports db')
  /\ In report (daily_reports db')
  /\ report_key report = key
  /\ (forall r, In r (daily_reports db) -> report_key r <> key ->
               In r (daily_reports db'))
  /\ (forall r, In r (daily_reports db') -> r = report \/ In r (daily_reports db))
  /\ (In key (map report_key (daily_reports db)) ->
      List.length (daily_reports db') = List.length (daily_reports db))
  /\ (~ In key (map report_key (daily_reports db)) ->
      List.length (daily_reports db') = S (List.length (daily_reports db))).
Proof.
  intros Hu Hg. cbv zeta.
  destruct (generate_daily_report_keeps_unique _ _ _ _ _ _ Hu Hg)
    as (Hu' & Hin & _).
  apply generate_daily_report_upsert in Hg.
  destruct Hg as (_ & _ & Hk & Hcase).
  split; [exact Hu'|]. split; [exact Hin|]. split; [exact Hk|].
  destruct (find _ (daily_reports db)) as [existing|] eqn:Hf.
  - destruct Hcase as [_ ->].
    assert (Hkey : In (project_id, today now) (map report_key (daily_reports db))).
    { apply find_some in Hf. destruct Hf as [He Hs].
      apply same_day_report_key in Hs. rewrite <- Hs.
      apply in_map, He. }
    repeat split.
    + intros r Hr Hne. apply update_first_other; [exact Hr|].
      destruct (same_day project_id (today now) r) eqn:Hs; [|reflexivity].
      apply same_day_report_key in Hs. contradiction.
    + intros r Hr. apply (update_first_in _ _ _ _ Hr).
    + intros _. apply update_first_length.
    + intros Hn. contradiction.
  - destruct Hcase as [_ ->].
    pose proof (find_none_not_in_keys _ _ _ Hf) as Hkey.
    repeat split.
    + intros r Hr _. apply in_or_app. left. exact Hr.
    + intros r Hr. apply in_app_or in Hr. destruct Hr as [Hr|[<-|[]]].
      * right. exact Hr.
      * left. reflexivity.
    + intros Hy. contradiction.
    + intros _. rewrite length_app. cbn [List.length]. lia.
Qed.

Lemma find_by_id_updated (p : DailyReport.t -> bool) (r' existing : DailyReport.t)
    (reports : list DailyReport.t) :
  NoDup (map DailyReport.id reports) ->
  find p reports = Some existing ->
  DailyReport.id r' = DailyReport.id existing ->
  find (fun r => DailyReport.id r =? DailyReport.id r') (update_first p r' reports)
  = Some r'.
Proof.
  intros Hu Hf Hid. induction reports as [|r rest IH];
    cbn [find update_first] in *; [discriminate|].
  inversion Hu as [|? ? Hnotin Hu']; subst.
  destruct (p r) eqn:Hp.
  - cbn [find]. rewrite Z.eqb_refl. reflexivity.
  - cbn [find]. destruct (Z.eqb_spec (DailyReport.id r) (DailyReport.id r')) as [E|_].
    + exfalso. apply Hnotin. rewrite E, Hid.
      apply in_map. apply find_some in Hf. apply Hf.
    + apply IH; assumption.
Qed.

Lemma find_by_id_appended (r' : DailyReport.t) (reports : list DailyReport.t) :
  DailyReport.id r' = next_id reports ->
  find (fun r => DailyReport.id r =? DailyReport.id r') (reports ++ [r']) = Some r'.
Proof.
  intros Hid.
  assert (H : forall l, (forall r, In r l -> DailyReport.id r < DailyReport.id r') ->
                        find (fun r => DailyReport.id r =? DailyReport.id r') (l ++ [r'])
                        = Some r').
  { induction l as [|r l IH]; intros Hl; cbn [app find].
    - rewrite Z.eqb_refl. reflexivity.
    - destruct (Z.eqb_spec (DailyReport.id r) (DailyReport.id r')) as [E|_].
      + specialize (Hl r (or_introl eq_refl)). lia.
      + apply IH. intros r0 Hr0. apply Hl. right. exact Hr0. }
  apply H. intros r Hr. rewrite Hid. apply next_id_above, Hr.
Qed.

(** X10: the summary of the report a call has just produced, asked for by
    the report's id, is found and shows that report: today's date and the
    four contents. *)
Theorem get_report_summary_after_generate (db db' : Session)
    (provider : AIService.Provider) (now : datetime) (project_id : Z)
    (report : DailyReport.t) :
  ids_unique (daily_reports db) ->
  generate_daily_report db provider now project_id = Ok (db', report) ->
  get_report_summary db' (DailyReport.id report) = Ok (summary_view report)
  /\ dict_get (summary_view report) "date" = Some (VStr (date_str (today now))).
Proof.
  intros Hu Hg. apply generate_daily_report_upsert in Hg.
  destruct Hg as (_ & _ & Hk & Hcase). split.
  - unfold get_report_summary.
    destruct (find _ (daily_reports db)) as [existing|] eqn:Hf.
    + destruct Hcase as [(s & p & r & b & Hr) ->].
      rewrite (find_by_id_updated _ _ existing); try assumption.
      * reflexivity.
      * rewrite Hr. reflexivity.
    + destruct Hcase as [Hid ->].
      rewrite (find_by_id_appended _ _ Hid). reflexivity.
  - unfold report_key in Hk. injection Hk as _ Hd.
    cbn [summary_view dict_get]. rewrite Hd. reflexivity.
Qed.

(** X12: asking for the summary of an id that no report carries raises
    [ValueError], and only then. *)
Theorem get_report_summary_not_found (db : Session) (report_id : Z) :
  get_report_summary db report_id = Raise ValueError
  <-> ~ In report_id (map DailyReport.id (daily_reports db)).
Proof.
  unfold get_report_summary.
  destruct (find _ (daily_reports db)) as [r|] eqn:Hf; split.
  - discriminate.
  - intros Hn. exfalso. apply Hn. apply find_some in Hf. destruct Hf as [Hin He].
    apply Z.eqb_eq in He. rewrite <- He. apply in_map, Hin.
  - intros _ Hin. apply in_map_iff in Hin. destruct Hin as (r & He & Hr).
    pose proof (find_none _ _ Hf r Hr) as Hn. cbn beta in Hn.
    rewrite He, Z.eqb_refl in Hn. discriminate.
  - reflexivity.
Qed.

End ReportsMore.

Section EmailMore.
Import ReportService.

Lemma latest_report_fold (project_id : Z) (reports : list DailyReport.t)
    (best : option DailyReport.t) :
  (forall b, best = Some b -> DailyReport.project_id b = project_id) ->
  match fold_left (latest_step project_id) reports best with
  | Some r =>
      (best = Some r \/ In r reports)
      /\ DailyReport.project_id r = project_id
      /\ (forall b, best = Some b -> DailyReport.date b <= DailyReport.date r)
      /\ (forall r', In r' reports -> DailyReport.project_id r' = project_id ->
                     DailyReport.date r' <= DailyReport.date r)
  | None =>
      best = None
      /\ forall r', In r' reports -> DailyReport.project_id r' <> project_id
  end.
Proof.
  revert best. induction reports as [|r0 rest IH]; intros best Hb; cbn [fold_left].
  - destruct best as [b|].
    + repeat split; auto.
      * intros b' [= <-]. lia.
      * intros r' [].
    + split; [reflexivity|]. intros r' [].
  - specialize (IH (latest_step project_id best r0)).
    assert (Hb' : forall b, latest_step project_id best r0 = Some b ->
                            DailyReport.project_id b = project_id).
    { unfold latest_step. intros b.
      destruct (Z.eqb_spec (DailyReport.project_id r0) project_id) as [E|_]; [|apply Hb].
      destruct best as [b0|]; [|intros [= <-]; exact E].
      destruct (DailyReport.date b0 <? DailyReport.date r0);
        [intros [= <-]; exact E | apply Hb]. }
    specialize (IH Hb').
    destruct (fold_left (latest_step project_id) rest (latest_step project_id best r0))
      as [r|].
    + destruct IH as (Hin & Hp & Hbest & Hall). split; [|split; [exact Hp|split]].
      * destruct Hin as [Hs|Hin]; [|right; right; exact Hin].
        unfold latest_step in Hs.
        destruct (DailyReport.project_id r0 =? project_id); [|left; exact Hs].
        destruct best as [b0|]; [|injection Hs as <-; right; left; reflexivity].
        destruct (DailyReport.date b0 <? DailyReport.date r0);
          [injection Hs as <-; right; left; reflexivity | left; exact Hs].
      * intros b ->. unfold latest_step in Hbest.
        destruct (DailyReport.project_id r0 =? project_id); [|apply Hbest; reflexivity].
        destruct (Z.ltb_spec (DailyReport.date b) (DailyReport.date r0)).
        -- specialize (Hbest r0 eq_refl). lia.
        -- apply Hbest. reflexivity.
      * intros r' [<-|Hr'] Hp'; [|apply Hall; assumption].
        unfold latest_step in Hbest.
        rewrite (proj2 (Z.eqb_eq _ _) Hp') in Hbest.
        destruct best as [b0|]; [|apply Hbest; reflexivity].
        destruct (Z.ltb_spec (DailyReport.date b0) (DailyReport.date r0)).
        -- apply Hbest. reflexivity.
        -- specialize (Hbest b0 eq_refl). lia.
    + destruct IH as (Hnone & Hall). unfold latest_step in Hnone.
      destruct (Z.eqb_spec (DailyReport.project_id r0) project_id) as [E|E].
      * destruct best as [b0|]; [|discriminate].
        destruct (DailyReport.date b0 <? DailyReport.date r0); discriminate.
      * split; [exact Hnone|]. intros r' [<-|Hr']; [exact E|apply Hall, Hr'].
Qed.

Lemma latest_report_spec (project_id : Z) (reports : list DailyReport.t) :
  match latest_report project_id reports with
  | Some r =>
      In r reports
      /\ DailyReport.project_id r = project_id
      /\ (forall r', In r' reports -> DailyReport.project_id r' = project_id ->
                     DailyReport.date r' <= DailyReport.date r)
  | None => forall r', In r' reports -> DailyReport.project_id r' <> project_id
  end.
Proof.
  assert (H := latest_report_fold project_id reports None ltac:(discriminate)).
  change (latest_report project_id reports)
    with (fold_left (latest_step project_id) reports None).
  destruct (fold_left _ reports None) as [r|].
  - destruct H as ([Hs|Hin] & Hp & _ & Hall); [discriminate|]. auto.
  - apply H.
Qed.

Lemma generate_stakeholder_update_text (update_provider : UpdateProvider)
    (report : DailyReport.t) (project : Project.t) :
  serializable (VDict (summary_data report)) = true ->
  generate_stakeholder_update update_provider (summary_data report)
    (Project.name project)
  = Ok (email_text update_provider report project).
Proof.
  intros Hs. unfold generate_stakeholder_update, json_dumps, email_text.
  rewrite Hs. cbn [bind].
  destruct (update_provider _ _); reflexivity.
Qed.

(** X13: when the project has a stored report, the email is written from
    its report of the latest date, nothing is generated or stored, and a
    failing update provider yields the fixed sentence instead of an
    error. *)
Theorem stakeholder_email_reuses_latest_report (db : Session)
    (summary_provider : AIService.Provider) (update_provider : UpdateProvider)
    (now : datetime) (project_id : Z) (project : Project.t)
    (stored : DailyReport.t) :
  find (fun p => Project.id p =? project_id) (projects db) = Some project ->
  In stored (daily_reports db) ->
  DailyReport.project_id stored = project_id ->
  (forall r, In r (daily_reports db) -> serializable (VDict (summary_data r)) = true) ->
  exists report,
    In report (daily_reports db)
    /\ DailyReport.project_id report = project_id
    /\ (forall r, In r (daily_reports db) ->
                  DailyReport.project_id r = project_id ->
                  DailyReport.date r <= DailyReport.date report)
    /\ generate_stakeholder_email db summary_provider update_provider now project_id
       = Returns (db, email_text update_provider report project).
Proof.
  intros Hp Hin Hpid Hser.
  pose proof (latest_report_spec project_id (daily_reports db)) as Hl.
  unfold generate_stakeholder_email.
  destruct (latest_report project_id (daily_reports db)) as [report|].
  - destruct Hl as (Hr & Hrp & Hmax). exists report. repeat split; try assumption.
    cbn [and_then]. rewrite Hp.
    change [("summary_text", DailyReport.summary_text report);
            ("priority_tasks", json_loads (DailyReport.priority_list_json report));
            ("risks", json_loads (DailyReport.risks_json report));
            ("blocked_tasks", json_loads (DailyReport.blocked_tasks_json report))]
      with (summary_data report).
    rewrite (generate_stakeholder_update_text _ _ _ (Hser _ Hr)). reflexivity.
  - exfalso. exact (Hl stored Hin Hpid).
Qed.

Lemma report_generation_type_error (db : Session)
    (provider : AIService.Provider) (now : datetime) (project_id : Z)
    (project : Project.t) :
  find (fun p => Project.id p =? project_id) (projects db) = Some project ->
  tasks_of db project_id <> [] ->
  generate_daily_report db provider now project_id = Raise TypeError.
Proof.
  intros Hp Hne. unfold generate_daily_report. rewrite Hp.
  fold (tasks_of db project_id).
  destruct (generate_daily_summary_returns provider
              (AIService.score_tasks (map (task_dict now) (tasks_of db project_id)))
              (Project.name project)) as [summary ->].
  cbn [bind]. rewrite (priority_list_not_serializable now _ Hne). reflexivity.
Qed.

(** X14: when the project has no stored report but has a task, the email
    request ends in the [TypeError] of report generation. *)
Theorem stakeholder_email_without_report_raises (db : Session)
    (summary_provider : AIService.Provider) (update_provider : UpdateProvider)
    (now : datetime) (project_id : Z) (project : Project.t) :
  find (fun p => Project.id p =? project_id) (projects db) = Some project ->
  (forall r, In r (daily_reports db) -> DailyReport.project_id r <> project_id) ->
  tasks_of db project_id <> [] ->
  generate_stakeholder_email db summary_provider update_provider now project_id
  = Raises (Std TypeError).
Proof.
  intros Hp Hnone Hne.
  pose proof (latest_report_spec project_id (daily_reports db)) as Hl.
  unfold generate_stakeholder_email.
  destruct (latest_report project_id (daily_reports db)) as [report|].
  - destruct Hl as (Hr & Hrp & _). exfalso. exact (Hnone report Hr Hrp).
  - rewrite (report_generation_type_error db summary_provider now project_id
               project Hp Hne).
    reflexivity.
Qed.

(** X15: when the project has neither report nor task, the email request
    first stores today's report, here with the fallback summary of a
    failing narrative provider, and writes the email from it. *)
Theorem stakeholder_email_generates_missing_report (db : Session)
    (summary_provider : AIService.Provider) (update_provider : UpdateProvider)
    (now : datetime) (project_id : Z) (project : Project.t) (e : PyExc) :
  find (fun p => Project.id p =? project_id) (projects db) = Some project ->
  (forall r, In r (daily_reports db) -> DailyReport.project_id r <> project_id) ->
  tasks_of db project_id = [] ->
  summary_provider [] (Project.name project) = Raise e ->
  exists db' report,
    generate_stakeholder_email db summary_provider update_provider now project_id
    = Returns (db', email_text update_provider report project)
    /\ daily_reports db' = (daily_reports db ++ [report])%list
    /\ report_key report = (project_id, today now)
    /\ DailyReport.summary_text report
       = VStr "Unable to generate summary at this time.".
Proof.
  intros Hp Hnone Ht He.
  pose proof (latest_report_spec project_id (daily_reports db)) as Hl.
  destruct (report_on_provider_failure_without_tasks db summary_provider now
              project_id project e Hp Ht He)
    as (db' & report & Hg & Hs & Hpl & Hr & Hb).
  pose proof (generate_daily_report_upsert _ _ _ _ _ _ Hg)
    as (Hproj & _ & Hk & Hcase).
  exists db', report. unfold generate_stakeholder_email.
  destruct (latest_report project_id (daily_reports db)) as [r|].
  { destruct Hl as (Hr' & Hrp & _). exfalso. exact (Hnone r Hr' Hrp). }
  rewrite Hg. cbn [outcome_of and_then]. rewrite Hproj, Hp.
  change [("summary_text", DailyReport.summary_text report);
          ("priority_tasks", json_loads (DailyReport.priority_list_json report));
          ("risks", json_loads (DailyReport.risks_json report));
          ("blocked_tasks", json_loads (DailyReport.blocked_tasks_json report))]
    with (summary_data report).
  rewrite generate_stakeholder_update_text.
  - repeat split; try assumption.
    destruct (find _ (daily_reports db)) as [existing|] eqn:Hf; [|apply Hcase].
    exfalso. apply find_some in Hf. destruct Hf as [Hin Hsd].
    apply same_day_report_key in Hsd. injection Hsd as Hpid _.
    exact (Hnone existing Hin Hpid).
  - unfold summary_data. rewrite Hs, Hpl, Hr, Hb. reflexivity.
Qed.

End EmailMore.

Section StatusNormalizer.

Ltac all_chars c :=
  destruct c as [[] [] [] [] [] [] [] []]; reflexivity.

Lemma lower_char_idempotent (c : ascii) : lower_char (lower_char c) = lower_char c.
Proof. all_chars c. Qed.

Lemma lower_char_space (c : ascii) :
  Ascii.eqb (lower_char c) " " = Ascii.eqb c " ".
Proof. all_chars c. Qed.

Lemma lower_idempotent (s : string) : lower (lower s) = lower s.
Proof.
  induction s as [|c s IH]; cbn [lower]; [reflexivity|].
  rewrite lower_char_idempotent, IH. reflexivity.
Qed.

Lemma replace_spaces_lower (s : string) :
  replace_spaces (lower (replace_spaces s)) = replace_spaces (lower s).
Proof.
  induction s as [|c s IH]; cbn [lower replace_spaces]; [reflexivity|].
  rewrite IH. f_equal. rewrite !lower_char_space.
  destruct (Ascii.eqb_spec c " ") as [->|Hc]; [reflexivity|].
  rewrite (proj2 (Ascii.eqb_neq _ _) Hc). reflexivity.
Qed.

(** X16: every status value is read back as its status, and the reading
    does not depend on letter case nor on blanks written for
    underscores. *)
Theorem normalize_status_round_trip :
  (forall s, _normalize_status (TaskStatus_value s) = s)
  /\ (forall text, _normalize_status (lower text) = _normalize_status text)
  /\ (forall text, _normalize_status (replace_spaces text) = _normalize_status text).
Proof.
  split; [|split].
  - intros []; reflexivity.
  - intros text. unfold _normalize_status. rewrite lower_idempotent. reflexivity.
  - intros text. unfold _normalize_status. rewrite replace_spaces_lower. reflexivity.
Qed.

Lemma status_map_get_spec (m : list (string * TaskStatus)) (key : string)
    (default s : TaskStatus) :
  NoDup (map fst m) ->
  status_map_get m key default = s
  <-> In (key, s) m \/ (s = default /\ forall s', ~ In (key, s') m).
Proof.
  induction m as [|[k v] m IH]; cbn [status_map_get map fst In]; intros Hnd.
  - split; [intros <-; right; split; [reflexivity|intros s' []] | intros [[]|[-> _]]; reflexivity].
  - inversion Hnd as [|? ? Hk Hnd']; subst.
    destruct (String.eqb_spec k key) as [->|Hne].
    + split.
      * intros <-. left. left. reflexivity.
      * intros [[[= <-]|Hin]|[_ Hno]]; [reflexivity | |].
        -- exfalso. apply Hk. apply (in_map fst) in Hin. exact Hin.
        -- exfalso. apply (Hno v). left. reflexivity.
    + rewrite (IH Hnd'). split.
      * intros [Hin|[-> Hno]]; [left; right; exact Hin|].
        right. split; [reflexivity|]. intros s' [[= E _]|Hin]; [congruence|].
        exact (Hno s' Hin).
      * intros [[[= E _]|Hin]|[-> Hno]]; [congruence|left; exact Hin|].
        right. split; [reflexivity|]. intros s' Hin. apply (Hno s'). right. exact Hin.
Qed.

Lemma status_map_keys_distinct : NoDup (map fst status_map).
Proof.
  cbn. repeat constructor; cbn; intuition discriminate.
Qed.

(** X17: a status text is read as the status its lower-cased,
    underscored form has in the table, and as TODO when the table does not
    have it. *)
Theorem normalize_status_table (text : string) (s : TaskStatus) :
  _normalize_status text = s
  <-> In (replace_spaces (lower text), s) status_map
      \/ (s = TODO /\ forall s', ~ In (replace_spaces (lower text), s') status_map).
Proof.
  unfold _normalize_status. apply status_map_get_spec, status_map_keys_distinct.
Qed.

End StatusNormalizer.

Section CsvImport.

Lemma csv_deadline_returns (deadline_str : option string) :
  exists deadline, TaskService.csv_deadline deadline_str = Ok deadline.
Proof.
  unfold TaskService.csv_deadline.
  destruct (truthy_str deadline_str); [|eauto].
  destruct (TaskService.strptime _ TaskService.fmt_iso); cbn; [eauto|].
  destruct (TaskService.strptime _ TaskService.fmt_us); cbn; eauto.
Qed.

Lemma analyze_task_returns (provider : AnalysisProvider) (title : string)
    (description : option string) :
  exists analysis, analyze_task provider title description = Ok analysis.
Proof.
  unfold analyze_task. destruct (provider title description); cbn; eauto.
Qed.

(** What the scoring block leaves in a task that had no risk level yet. *)
Lemma calculate_priority_and_risk_spec (now : datetime) (t0 t : NewTask.t) :
  NewTask.ai_risk_level t0 = None ->
  calculate_priority_and_risk now t0 = Ok t ->
  NewTask.title t = NewTask.title t0
  /\ exists level : RiskLevel,
       NewTask.ai_risk_level t = Some (RiskLevel_value level)
       /\ NewTask.priority_score t
          = Some (AIService.calculate_priority_score (_task_to_dict now t)
                  - AIService.risk_weights_get (Some (RiskLevel_value level)) + 5).
Proof.
  intros Hnone. unfold calculate_priority_and_risk.
  destruct (AIService.detect_risk_level (_task_to_dict now t0)) as [level|] eqn:Hd;
    cbn [bind]; [|discriminate].
  intros [= <-]. cbn [NewTask.title NewTask.ai_risk_level NewTask.priority_score].
  split; [reflexivity|].
  assert (Hl : exists l : RiskLevel, level = RiskLevel_value l).
  { unfold AIService.detect_risk_level in Hd.
    destruct (AIService.is_overdue _); cbn [bind] in Hd; [|discriminate].
    destruct (AIService.high_complexity _); cbn [bind] in Hd; [|discriminate].
    injection Hd as <-. unfold AIService.risk_of_score.
    match goal with |- context [if ?b then _ else _] => destruct b end;
      [exists HIGH; reflexivity|].
    match goal with |- context [if ?b then _ else _] => destruct b end;
      [exists MEDIUM|exists LOW]; reflexivity. }
  destruct Hl as [l ->]. exists l. split; [reflexivity|]. f_equal.
  rewrite !calculate_priority_score_terms.
  unfold AIService.days_until_deadline.
  cbn [_task_to_dict deadline current_date status ai_risk_level task_type
       NewTask.deadline NewTask.status NewTask.ai_risk_level NewTask.task_type].
  rewrite Hnone. change (AIService.risk_weights_get None) with 5. lia.
Qed.

(** One step through a chain of calls that has returned. *)
Ltac step_outcome H :=
  match type of H with
  | and_then (outcome_of ?m) _ = Returns _ =>
      let E := fresh "E" in
      destruct m eqn:E; cbn [and_then outcome_of] in H; [|discriminate H]
  | and_then ?m _ = Returns _ =>
      let E := fresh "E" in
      destruct m eqn:E; cbn [and_then] in H; [|discriminate H]
  end.

Lemma import_csv_row_returns (provider : AnalysisProvider) (now : datetime)
    (project_id : Z) (row : csv_row) (r : option NewTask.t) :
  import_csv_row provider now project_id row = Returns r ->
  match row_title row with
  | None => r = None
  | Some title =>
      exists t0 t,
        r = Some t
        /\ NewTask.title t0 = title
        /\ NewTask.ai_risk_level t0 = None
        /\ (exists s, row_status row = Some s
                      /\ NewTask.status t0 = _normalize_status s)
        /\ calculate_priority_and_risk now t0 = Ok t
  end.
Proof.
  intros H. unfold import_csv_row in H. unfold row_title, row_status.
  set (title := or_else _ (row_get row "Name")) in *.
  destruct title as [s|]; cbn [truthy_str negb] in H.
  - destruct (s == ""); cbn [negb] in H; [injection H as <-; reflexivity|].
    do 7 step_outcome H.
    injection H as <-.
    match type of E1 with
    | match ?st with _ => _ end = _ => destruct st as [st'|]; [|discriminate E1]
    end.
    injection E1 as <-.
    eexists. eexists. split; [reflexivity|].
    split; [|split; [|split; [|exact E5]]]; cbn; eauto.
  - injection H as <-. reflexivity.
Qed.

(** X18: an import that goes through yields one task for each row that
    has a title, in the order of the rows and under that title; rows
    without a title are passed over. *)
Theorem import_from_csv_titles (provider : AnalysisProvider) (now : datetime)
    (project_id : Z) (rows : list csv_row) (tasks : list NewTask.t) :
  import_from_csv provider now project_id rows = Returns tasks ->
  map NewTask.title tasks = titles_of rows.
Proof.
  revert tasks. induction rows as [|row rows IH]; intros tasks H;
    cbn [import_from_csv] in H.
  - injection H as <-. reflexivity.
  - do 2 step_outcome H. injection H as <-.
    unfold titles_of. cbn [flat_map]. fold (titles_of rows).
    rewrite <- (IH _ eq_refl).
    pose proof (import_csv_row_returns _ _ _ _ _ E) as Hrow.
    destruct (row_title row) as [title|].
    + destruct Hrow as (t0 & t & -> & Ht0 & Hnone & _ & Hc).
      destruct (calculate_priority_and_risk_spec _ _ _ Hnone Hc) as [Ht _].
      cbn [map app]. rewrite Ht, Ht0. reflexivity.
    + subst. reflexivity.
Qed.

(** X19: every imported task is scored before its risk level is set: the
    stored score counts 5 for risk whatever level is stored with it. *)
Theorem import_from_csv_scores_before_risk (provider : AnalysisProvider)
    (now : datetime) (project_id : Z) (rows : list csv_row)
    (tasks : list NewTask.t) :
  import_from_csv provider now project_id rows = Returns tasks ->
  Forall (scored_before_risk now) tasks.
Proof.
  revert tasks. induction rows as [|row rows IH]; intros tasks H;
    cbn [import_from_csv] in H.
  - injection H as <-. constructor.
  - do 2 step_outcome H. injection H as <-.
    specialize (IH _ eq_refl).
    pose proof (import_csv_row_returns _ _ _ _ _ E) as Hrow.
    destruct (row_title row) as [title|].
    + destruct Hrow as (t0 & t & -> & _ & Hnone & _ & Hc).
      constructor; [|exact IH].
      apply (calculate_priority_and_risk_spec _ _ _ Hnone Hc).
    + subst. exact IH.
Qed.

(** X20: a row with a title whose status cell is absent (a short line
    under a [Status] header) stops the import with an [AttributeError],
    whatever rows follow it. *)
Theorem import_from_csv_short_line_raises (provider : AnalysisProvider)
    (now : datetime) (project_id : Z) (row : csv_row) (rows : list csv_row)
    (title : string) :
  row_title row = Some title ->
  row_status row = None ->
  import_from_csv provider now project_id (row :: rows) = Raises AttributeError.
Proof.
  unfold row_title, row_status. intros Ht Hs. cbn [import_from_csv].
  unfold import_csv_row.
  set (t := or_else _ (row_get row "Name")) in *.
  destruct t as [s|]; [|discriminate]. cbn [truthy_str].
  destruct (s == ""); [discriminate|]. cbn [negb].
  destruct (csv_deadline_returns
              (or_else (row_get row "deadline") (row_get_default row "Deadline" "")))
    as [d ->].
  cbn [and_then outcome_of].
  match goal with
  | |- context [analyze_task ?p ?a ?b] =>
      destruct (analyze_task_returns p a b) as [an ->]
  end.
  cbn [and_then outcome_of]. rewrite Hs. reflexivity.
Qed.

End CsvImport.

Section TaskTypeClassifier.

Lemma lower_app (a b : string) : lower (a ++ b) = lower a ++ lower b.
Proof.
  induction a as [|c a IH]; cbn [lower append]; [reflexivity|].
  rewrite IH. reflexivity.
Qed.

Lemma prefix_app (w a b : string) : prefix w a = true -> prefix w (a ++ b) = true.
Proof.
  revert a. induction w as [|c w IH]; intros a.
  - intros _. destruct (a ++ b); reflexivity.
  - destruct a as [|x a]; cbn [prefix append]; [discriminate|].
    destruct (ascii_dec c x); [apply IH|discriminate].
Qed.

Lemma contains_app_l (w a b : string) :
  contains w a = true -> contains w (a ++ b) = true.
Proof.
  induction a as [|x a IH].
  - cbn [contains]. rewrite orb_false_r. intros H.
    destruct w; [|discriminate H]. destruct b; reflexivity.
  - cbn [contains append]. intros H. apply orb_true_iff in H.
    apply orb_true_iff. destruct H as [H|H].
    + left. apply (prefix_app w (String x a) b H).
    + right. apply IH, H.
Qed.

Lemma contains_app_r (w a b : string) :
  contains w b = true -> contains w (a ++ b) = true.
Proof.
  intros H. induction a as [|x a IH]; [exact H|].
  cbn [contains append]. rewrite IH. apply orb_true_r.
Qed.

Lemma any_in_found (words : list string) (word text : string) :
  In word words -> contains word text = true -> any_in words text = true.
Proof.
  intros Hin Hc. unfold any_in. apply existsb_exists. eauto.
Qed.

(** X21: a task whose title or description contains one of the words fix,
    bug, error, issue or broken, in any letter case, is classified as a
    bug, whatever else the text says. *)
Theorem classify_bug_words_win (title description word : string) :
  In word bug_words ->
  contains word (lower title) = true \/ contains word (lower description) = true ->
  classify_task_type title description = "bug".
Proof.
  intros Hw Hc. unfold classify_task_type.
  rewrite (any_in_found bug_words word); [reflexivity|exact Hw|].
  rewrite lower_app. destruct Hc as [Hc|Hc].
  - apply contains_app_l, Hc.
  - apply contains_app_r. rewrite lower_app. apply contains_app_r, Hc.
Qed.

(** X22: a task is classified as a feature only when none of the listed
    words occurs and its description, blanks at both ends apart, has at
    least 10 characters. *)
Theorem classify_feature_only_if (title description : string) :
  classify_task_type title description = "feature" ->
  any_in (bug_words ++ research_words ++ blocked_words)
    (lower (title ++ " " ++ description)) = false
  /\ (10 <= String.length (strip description))%nat.
Proof.
  unfold classify_task_type, any_in. rewrite !existsb_app.
  fold (any_in bug_words (lower (title ++ " " ++ description))).
  fold (any_in research_words (lower (title ++ " " ++ description))).
  fold (any_in blocked_words (lower (title ++ " " ++ description))).
  destruct (any_in bug_words _); [discriminate|].
  destruct (any_in research_words _); [discriminate|].
  destruct (any_in blocked_words _); [discriminate|].
  destruct (description == ""); [discriminate|]. cbn [orb].
  destruct (Z.ltb_spec (Z.of_nat (String.length (strip description))) 10);
    [discriminate|].
  intros _. split; [reflexivity|lia].
Qed.

End TaskTypeClassifier.

(** ** The properties of the other functions, on sample data *)

Section SampleRuns.
Import AIService ReportService.

Lemma low_risk_only_if_witness :
  detect_risk_level calm_task = Ok "low" /\ status calm_task <> "blocked".
Proof.
  split; [reflexivity|].
  destruct (low_risk_only_if calm_task eq_refl) as (_ & H & _). exact H.
Defined.

Lemma blocked_is_high_iff_witness :
  detect_risk_level blocked_task = Ok "medium"
  /\ ("medium" = "high" \/ "medium" = "medium").
Proof.
  split; [reflexivity|].
  destruct (blocked_is_high_iff blocked_task "medium" eq_refl eq_refl) as [H _].
  exact H.
Defined.

Lemma timeline_status_needs_cause_witness :
  dict_get (get_timeline_status (db_blocked 0) sample_now 1) "status"
  = Some (VStr "On Track").
Proof.
  destruct (timeline_status_needs_cause (db_blocked 0) sample_now 1) as [_ H].
  - vm_compute. discriminate.
  - reflexivity.
  - reflexivity.
  - apply H. reflexivity.
Defined.

Lemma timeline_status_all_done_witness :
  dict_get (get_timeline_status db_all_done sample_now 1) "reason"
  = Some (VStr "100% tasks completed").
Proof.
  destruct (timeline_status_all_done db_all_done sample_now 1) as [_ H].
  - vm_compute. discriminate.
  - unfold tasks_of. cbn. repeat constructor.
  - reflexivity.
  - exact H.
Defined.

Lemma timeline_metrics_consistent_witness :
  dict_get (get_timeline_status db_ten_tasks sample_now 1) "metrics"
  = Some (VDict [("total_tasks", VInt 10);
                 ("completed", VInt 0);
                 ("blocked", VInt 3);
                 ("overdue", VInt 0);
                 ("high_risk", VInt 0);
                 ("completion_rate", VFloat (F64.of_int 0))]).
Proof.
  destruct (timeline_metrics_consistent db_ten_tasks sample_now 1) as [H _].
  - vm_compute. discriminate.
  - rewrite H. vm_compute. reflexivity.
Defined.

Lemma get_report_summary_after_generate_witness :
  exists db' report,
    generate_daily_report db_no_tasks answering_provider sample_now 1
    = Ok (db', report)
    /\ get_report_summary db' (DailyReport.id report) = Ok (summary_view report).
Proof.
  eexists. eexists. split; [vm_compute; reflexivity|].
  refine (proj1 (get_report_summary_after_generate db_no_tasks _
                   answering_provider sample_now 1 _ _ _)).
  - constructor.
  - vm_compute. reflexivity.
Defined.

Lemma generate_daily_report_one_per_day_witness :
  exists db' report,
    generate_daily_report db_with_report_only answering_provider sample_now 2
    = Ok (db', report)
    /\ unique_per_day (daily_reports db')
    /\ List.length (daily_reports db') = 2%nat.
Proof.
  eexists. eexists. split; [vm_compute; reflexivity|].
  assert (Hu : unique_per_day (daily_reports db_with_report_only)).
  { unfold unique_per_day. cbn [daily_reports db_with_report_only map].
    repeat constructor. intros []. }
  destruct (generate_daily_report_one_per_day db_with_report_only _
              answering_provider sample_now 2 _ Hu eq_refl)
    as (H1 & _ & _ & _ & _ & _ & H2).
  split; [exact H1|]. apply H2.
  vm_compute. intros [H|[]]. discriminate H.
Defined.

Lemma stakeholder_email_reuses_latest_report_witness :
  generate_stakeholder_email db_with_report failing_provider failing_update
    sample_now 1
  = Returns (db_with_report, fallback_update "Apollo").
Proof.
  destruct (stakeholder_email_reuses_latest_report db_with_report
              failing_provider failing_update sample_now 1 sample_project
              stale_report eq_refl (or_introl eq_refl) eq_refl)
    as (report & Hin & _ & _ & ->).
  - intros r [<-|[]]. reflexivity.
  - destruct Hin as [<-|[]]. reflexivity.
Defined.

Lemma stakeholder_email_without_report_raises_witness :
  generate_stakeholder_email db_one_task answering_provider failing_update
    sample_now 1
  = Raises (Std TypeError).
Proof.
  apply (stakeholder_email_without_report_raises db_one_task answering_provider
           failing_update sample_now 1 sample_project).
  - reflexivity.
  - intros r [].
  - vm_compute. discriminate.
Defined.

Lemma stakeholder_email_generates_missing_report_witness :
  exists db' report,
    generate_stakeholder_email db_no_tasks failing_provider failing_update
      sample_now 1
    = Returns (db', email_text failing_update report sample_project)
    /\ daily_reports db' = (daily_reports db_no_tasks ++ [report])%list
    /\ report_key report = (1, today sample_now)
    /\ DailyReport.summary_text report
       = VStr "Unable to generate summary at this time.".
Proof.
  apply (stakeholder_email_generates_missing_report db_no_tasks failing_provider
           failing_update sample_now 1 sample_project ProviderError).
  - reflexivity.
  - intros r [].
  - reflexivity.
  - reflexivity.
Defined.

Lemma import_from_csv_titles_witness :
  titles_of sample_rows = ["Fix bug"; "Ship it"]
  /\ exists tasks,
       import_from_csv failing_analysis sample_now 1 sample_rows = Returns tasks
       /\ map NewTask.title tasks = titles_of sample_rows.
Proof.
  split; [reflexivity|]. eexists. split; [vm_compute; reflexivity|].
  apply (import_from_csv_titles failing_analysis sample_now 1 sample_rows).
  vm_compute. reflexivity.
Defined.

Lemma import_from_csv_scores_before_risk_witness :
  exists tasks,
    import_from_csv failing_analysis sample_now 1 sample_rows = Returns tasks
    /\ Forall (scored_before_risk sample_now) tasks.
Proof.
  eexists. split; [vm_compute; reflexivity|].
  apply (import_from_csv_scores_before_risk failing_analysis sample_now 1
           sample_rows).
  vm_compute. reflexivity.
Defined.

Lemma import_from_csv_short_line_raises_witness :
  import_from_csv failing_analysis sample_now 1 (short_row :: sample_rows)
  = Raises AttributeError.
Proof.
  apply (import_from_csv_short_line_raises failing_analysis sample_now 1
           short_row sample_rows "Plan"); reflexivity.
Defined.

Lemma classify_bug_words_win_witness :
  classify_task_type "Add PREFIX support" "Names get a leading tag" = "bug".
Proof.
  apply (classify_bug_words_win "Add PREFIX support" "Names get a leading tag" "fix").
  - cbn. auto.
  - left. reflexivity.
Defined.

Lemma classify_feature_only_if_witness :
  classify_task_type "Add login" "  a long enough text  " = "feature"
  /\ (10 <= String.length (strip "  a long enough text  "))%nat.
Proof.
  split; [reflexivity|].
  destruct (classify_feature_only_if "Add login" "  a long enough text  " eq_refl)
    as [_ H].
  exact H.
Defined.

End SampleRuns.

(** ** Dates: printing and parsing *)

Section Dates.
Import TaskService.

Lemma all_from_spec (f : Z -> bool) (count : nat) (start : Z) :
  all_from f count start = true ->
  forall n, start <= n < start + Z.of_nat count -> f n = true.
Proof.
  revert start. induction count as [|count IH]; intros start H n Hn; [lia|].
  cbn [all_from] in H. apply andb_prop in H as [H0 H].
  destruct (Z.eq_dec n start) as [->|Hne]; [exact H0|].
  apply (IH (start + 1) H). lia.
Qed.

Lemma zero_pad_2 (n : Z) :
  0 <= n <= 99 -> list_ascii_of_string (zero_pad 2 n) = two_digits n.
Proof.
  intros Hn.
  pose proof (all_from_spec
                (fun n => zero_pad 2 n == string_of_list_ascii (two_digits n))
                (Z.to_nat 100) 0) as H.
  specialize (H ltac:(vm_compute; reflexivity) n ltac:(lia)). cbn beta in H.
  apply String.eqb_eq in H. rewrite H. apply list_ascii_of_string_of_list_ascii.
Qed.

Lemma zero_pad_4 (n : Z) :
  0 <= n <= 9999 -> list_ascii_of_string (zero_pad 4 n) = four_digits n.
Proof.
  intros Hn.
  pose proof (all_from_spec
                (fun n => zero_pad 4 n == string_of_list_ascii (four_digits n))
                (Z.to_nat 10000) 0) as H.
  specialize (H ltac:(vm_compute; reflexivity) n ltac:(lia)). cbn beta in H.
  apply String.eqb_eq in H. rewrite H. apply list_ascii_of_string_of_list_ascii.
Qed.

Lemma digit_char_digit (k : Z) :
  0 <= k <= 9 ->
  digit (digit_char k) = true
  /\ Z.of_nat (nat_of_ascii (digit_char k)) - 48 = k.
Proof.
  intros Hk.
  assert (H : k = 0 \/ k = 1 \/ k = 2 \/ k = 3 \/ k = 4 \/ k = 5 \/ k = 6
              \/ k = 7 \/ k = 8 \/ k = 9) by lia.
  repeat destruct H as [->|H]; try subst k; split; reflexivity.
Qed.

Lemma regex_match_lit (c : ascii) (fmt : list fmt_item) (s : list ascii) :
  regex_match (Lit c :: fmt) (c :: s) = regex_match fmt s.
Proof. cbn [regex_match]. rewrite Ascii.eqb_refl. reflexivity. Qed.

Lemma regex_match_year (fmt : list fmt_item) (a b c e : ascii) (s : list ascii) :
  digit a = true -> digit b = true -> digit c = true -> digit e = true ->
  regex_match (Dir dY :: fmt) (a :: b :: c :: e :: s)
  = match regex_match fmt s with
    | Some (groups, remaining) => Some ((dY, [a; b; c; e]) :: groups, remaining)
    | None => None
    end.
Proof.
  intros Ha Hb Hc He. cbn [regex_match alternatives match_seq].
  rewrite Ha, Hb, Hc, He. destruct (regex_match fmt s) as [[g r]|]; reflexivity.
Qed.

(** Splitting on the values of a number between 1 and [hi]. *)
Ltac each_value m hi :=
  let H := fresh "H" in
  assert (H : In m (map Z.of_nat (seq 1 hi)))
    by (apply in_map_iff; exists (Z.to_nat m); split; [lia|apply in_seq; lia]);
  cbn in H;
  repeat (destruct H as [H|H]; [subst m|]); [..|contradiction].

Ltac run_group H :=
  match goal with
  | |- context [two_digits ?x] =>
      let t := eval vm_compute in (two_digits x) in
      change (two_digits x) with t
  end;
  cbn; unfold digit;
  repeat match goal with
         | |- context [between ?a ?b ?c] =>
             let v := eval vm_compute in (between a b c) in
             change (between a b c) with v; cbn
         end;
  rewrite H; reflexivity.

Lemma regex_match_month (fmt : list fmt_item) (m : Z) (s : list ascii)
    (groups : list (directive * list ascii)) (remaining : list ascii) :
  1 <= m <= 12 ->
  regex_match fmt s = Some (groups, remaining) ->
  regex_match (Dir dm :: fmt) (two_digits m ++ s)
  = Some ((dm, two_digits m) :: groups, remaining).
Proof.
  intros Hm H. each_value m 12%nat; run_group H.
Qed.

Lemma regex_match_day (fmt : list fmt_item) (d : Z) (s : list ascii)
    (groups : list (directive * list ascii)) (remaining : list ascii) :
  1 <= d <= 31 ->
  regex_match fmt s = Some (groups, remaining) ->
  regex_match (Dir dd :: fmt) (two_digits d ++ s)
  = Some ((dd, two_digits d) :: groups, remaining).
Proof.
  intros Hd H. each_value d 31%nat; run_group H.
Qed.

Lemma list_ascii_of_string_app (a b : string) :
  list_ascii_of_string (a ++ b)
  = (list_ascii_of_string a ++ list_ascii_of_string b)%list.
Proof.
  induction a as [|c a IH]; cbn [append list_ascii_of_string app]; [reflexivity|].
  rewrite IH. reflexivity.
Qed.

Lemma int_of_two_digits (n : Z) : 0 <= n <= 99 -> int_of (two_digits n) = n.
Proof.
  intros Hn. unfold int_of, two_digits. cbn [fold_left].
  destruct (digit_char_digit (n / 10)) as [-> ->];
    [split; [apply Z.div_pos; lia | apply Z.lt_succ_r, Z.div_lt_upper_bound; lia]|].
  destruct (digit_char_digit (n mod 10)) as [-> ->];
    [pose proof (Z.mod_pos_bound n 10); lia|].
  pose proof (Z.div_mod n 10). lia.
Qed.

Lemma int_of_four_digits (n : Z) : 0 <= n <= 9999 -> int_of (four_digits n) = n.
Proof.
  intros Hn. unfold int_of, four_digits. cbn [fold_left].
  pose proof (Z.mod_pos_bound (n / 100) 10).
  pose proof (Z.mod_pos_bound (n / 10) 10).
  pose proof (Z.mod_pos_bound n 10).
  destruct (digit_char_digit (n / 1000)) as [-> ->];
    [split; [apply Z.div_pos; lia | apply Z.lt_succ_r, Z.div_lt_upper_bound; lia]|].
  destruct (digit_char_digit (n / 100 mod 10)) as [-> ->]; [lia|].
  destruct (digit_char_digit (n / 10 mod 10)) as [-> ->]; [lia|].
  destruct (digit_char_digit (n mod 10)) as [-> ->]; [lia|].
  pose proof (Z.div_mod n 10). pose proof (Z.div_mod (n / 10) 10).
  pose proof (Z.div_mod (n / 100) 10).
  assert (n / 100 = n / 10 / 10) by (rewrite Z.div_div; [reflexivity|lia|lia]).
  assert (n / 1000 = n / 100 / 10) by (rewrite Z.div_div; [reflexivity|lia|lia]).
  lia.
Qed.

Lemma four_digits_digits (n : Z) :
  0 <= n <= 9999 -> Forall (fun c => digit c = true) (four_digits n).
Proof.
  intros Hn. unfold four_digits.
  pose proof (Z.mod_pos_bound (n / 100) 10).
  pose proof (Z.mod_pos_bound (n / 10) 10).
  pose proof (Z.mod_pos_bound n 10).
  repeat constructor; apply digit_char_digit; try lia.
  split; [apply Z.div_pos; lia | apply Z.lt_succ_r, Z.div_lt_upper_bound; lia].
Qed.

Lemma days_in_month_le_31 (year month : Z) : days_in_month year month <= 31.
Proof.
  unfold days_in_month.
  destruct ((month =? 2) && is_leap year); [lia|].
  destruct (Z.to_nat month) as [|k]; cbn [nth]; [lia|].
  do 12 (destruct k as [|k]; cbn [nth]; [lia|]). destruct k; cbn; lia.
Qed.

Lemma make_datetime_valid (year month day : Z) :
  1 <= year <= 9999 -> 1 <= month <= 12 ->
  1 <= day <= days_in_month year month ->
  make_datetime year month day = Ok (midnight year month day).
Proof.
  intros Hy Hm Hd. unfold make_datetime, midnight.
  rewrite !(proj2 (Z.leb_le _ _)) by lia. reflexivity.
Qed.

Lemma isoformat_chars (year month day : Z) :
  0 <= year <= 9999 -> 0 <= month <= 99 -> 0 <= day <= 99 ->
  list_ascii_of_string (isoformat year month day)
  = (four_digits year ++ "-"%char :: two_digits month
     ++ "-"%char :: two_digits day)%list.
Proof.
  intros Hy Hm Hd. unfold isoformat.
  rewrite !list_ascii_of_string_app, zero_pad_4, !zero_pad_2 by assumption.
  reflexivity.
Qed.

Lemma us_format_chars (year month day : Z) :
  0 <= year <= 9999 -> 0 <= month <= 99 -> 0 <= day <= 99 ->
  list_ascii_of_string (us_format year month day)
  = (two_digits month ++ "/"%char :: two_digits day
     ++ "/"%char :: four_digits year)%list.
Proof.
  intros Hy Hm Hd. unfold us_format.
  rewrite !list_ascii_of_string_app, zero_pad_4, !zero_pad_2 by assumption.
  reflexivity.
Qed.

(** The ISO format reads back what [isoformat] writes. *)
Lemma strptime_isoformat (year month day : Z) :
  1 <= year <= 9999 -> 1 <= month <= 12 ->
  1 <= day <= days_in_month year month ->
  strptime (isoformat year month day) fmt_iso
  = Ok (midnight year month day).
Proof.
  intros Hy Hm Hd. pose proof (days_in_month_le_31 year month) as H31.
  unfold strptime. rewrite isoformat_chars by lia.
  pose proof (four_digits_digits year ltac:(lia)) as Hdig.
  unfold four_digits in *. cbn [app].
  inversion Hdig as [|? ? Ha H1]; subst. inversion H1 as [|? ? Hb H2]; subst.
  inversion H2 as [|? ? Hc H3]; subst. inversion H3 as [|? ? He _]; subst.
  unfold fmt_iso. rewrite (regex_match_year _ _ _ _ _ _ Ha Hb Hc He).
  rewrite regex_match_lit.
  rewrite (regex_match_month _ month _ [(dd, two_digits day)] []); [|lia|].
  - cbn [group directive_eqb].
    fold (four_digits year).
    rewrite int_of_four_digits, !int_of_two_digits by lia.
    apply make_datetime_valid; assumption.
  - rewrite regex_match_lit.
    rewrite <- (app_nil_r (two_digits day)).
    apply regex_match_day; [lia|reflexivity].
Qed.

(** The MM/DD/YYYY format reads a date written that way, and the ISO
    format rejects it. *)
Lemma strptime_us_format (year month day : Z) :
  1 <= year <= 9999 -> 1 <= month <= 12 ->
  1 <= day <= days_in_month year month ->
  strptime (us_format year month day) fmt_iso = Raise ValueError
  /\ strptime (us_format year month day) fmt_us
     = Ok (midnight year month day).
Proof.
  intros Hy Hm Hd. pose proof (days_in_month_le_31 year month) as H31.
  unfold strptime. rewrite us_format_chars by lia. split.
  - unfold two_digits, fmt_iso. cbn [app regex_match alternatives match_seq].
    destruct (digit _); [|reflexivity]. destruct (digit _); reflexivity.
  - pose proof (four_digits_digits year ltac:(lia)) as Hdig.
    assert (Hy4 : regex_match [Dir dY] (four_digits year)
                  = Some ([(dY, four_digits year)], [])).
    { unfold four_digits in *.
      inversion Hdig as [|? ? Ha H1]; subst. inversion H1 as [|? ? Hb H2]; subst.
      inversion H2 as [|? ? Hc H3]; subst. inversion H3 as [|? ? He _]; subst.
      rewrite (regex_match_year _ _ _ _ _ _ Ha Hb Hc He). reflexivity. }
    unfold fmt_us.
    rewrite (regex_match_month _ month _
               [(dd, two_digits day); (dY, four_digits year)] []); [|lia|].
    + cbn [group directive_eqb].
      rewrite int_of_four_digits, !int_of_two_digits by lia.
      apply make_datetime_valid; assumption.
    + rewrite regex_match_lit.
      apply regex_match_day; [lia|]. rewrite regex_match_lit. exact Hy4.
Qed.

Lemma truthy_nonempty (s : string) (c : ascii) (l : list ascii) :
  list_ascii_of_string s = c :: l -> truthy_str (Some s) = true.
Proof. destruct s; [discriminate|reflexivity]. Qed.

(** X23: a CSV cell holding a calendar date written YYYY-MM-DD and one
    holding the same date written MM/DD/YYYY give the same deadline,
    midnight of that day. *)
Theorem csv_deadline_both_formats (year month day : Z) :
  1 <= year <= 9999 -> 1 <= month <= 12 ->
  1 <= day <= days_in_month year month ->
  csv_deadline (Some (isoformat year month day))
  = Ok (Some (midnight year month day))
  /\ csv_deadline (Some (us_format year month day))
     = Ok (Some (midnight year month day)).
Proof.
  intros Hy Hm Hd. pose proof (days_in_month_le_31 year month) as H31.
  unfold csv_deadline. split.
  - rewrite (truthy_nonempty _ (digit_char (year / 1000)) _
               (isoformat_chars year month day ltac:(lia) ltac:(lia) ltac:(lia))).
    rewrite strptime_isoformat by assumption. reflexivity.
  - rewrite (truthy_nonempty _ (digit_char (month / 10)) _
               (us_format_chars year month day ltac:(lia) ltac:(lia) ltac:(lia))).
    destruct (strptime_us_format year month day Hy Hm Hd) as [-> ->].
    reflexivity.
Qed.

Lemma ord2ymd_unfold (n : Z) :
  ord2ymd n
  = let n0 := n - 1 in
    let n400 := n0 / 146097 in
    let r0 := n0 mod 146097 in
    let a := r0 / 36524 in
    let r1 := r0 mod 36524 in
    let b := r1 / 1461 in
    let r2 := r1 mod 1461 in
    let c := r2 / 365 in
    let r3 := r2 mod 365 in
    let year := n400 * 400 + 1 + a * 100 + b * 4 + c in
    if (c =? 4) || (a =? 4) then (year - 1, 12, 31)
    else
      let '(month, day) :=
        month_day ((c =? 3) && (negb (b =? 24) || (a =? 3))) r3 in
      (year, month, day).
Proof.
  unfold ord2ymd, month_day. cbv zeta.
  destruct (_ || _); [reflexivity|]. destruct (_ <? _); reflexivity.
Qed.

Lemma month_day_table (leapyear : bool) (n : Z) :
  0 <= n < 365 -> month_day_ok leapyear n = true.
Proof.
  intros Hn.
  destruct leapyear;
    (apply (all_from_spec (month_day_ok _) (Z.to_nat 365) 0);
     [vm_compute; reflexivity | lia]).
Qed.

Lemma year_table (a b c : Z) :
  0 <= a <= 3 -> 0 <= b <= 24 -> 0 <= c <= 3 -> year_ok a b c = true.
Proof.
  intros Ha Hb Hc.
  assert (H : all_from
                (fun a => all_from
                            (fun b => all_from (year_ok a b) (Z.to_nat 4) 0)
                            (Z.to_nat 25) 0)
                (Z.to_nat 4) 0 = true) by (vm_compute; reflexivity).
  pose proof (all_from_spec _ _ _ H a ltac:(lia)) as H1. cbn beta in H1.
  pose proof (all_from_spec _ _ _ H1 b ltac:(lia)) as H2. cbn beta in H2.
  apply (all_from_spec _ _ _ H2 c). lia.
Qed.

Lemma year_table_spec (a b c : Z) :
  0 <= a <= 3 -> 0 <= b <= 24 -> 0 <= c <= 3 ->
  days_before_year (1 + a * 100 + b * 4 + c)
  = 36524 * a + 1461 * b + 365 * c
  /\ is_leap (1 + a * 100 + b * 4 + c)
     = (c =? 3) && (negb (b =? 24) || (a =? 3)).
Proof.
  intros Ha Hb Hc. pose proof (year_table a b c Ha Hb Hc) as H.
  unfold year_ok in H. cbv zeta in H. apply andb_prop in H as [H1 H2].
  split; [apply Z.eqb_eq, H1 | apply Bool.eqb_prop, H2].
Qed.

Lemma days_in_month_leap (year year' month : Z) :
  is_leap year = is_leap year' ->
  days_in_month year month = days_in_month year' month.
Proof. intros H. unfold days_in_month. rewrite H. reflexivity. Qed.

Lemma days_before_month_leap (year year' month : Z) :
  is_leap year = is_leap year' ->
  days_before_month year month = days_before_month year' month.
Proof. intros H. unfold days_before_month. rewrite H. reflexivity. Qed.

(** Within the first 400 years, [ord2ymd] gives a date that exists and
    that lies as many days after 0001-01-01 as it was given. *)
Lemma ord2ymd_in_cycle (date : Z) :
  0 <= date < cycle_days ->
  exists year month day,
    ord2ymd (date + 1) = (year, month, day)
    /\ 1 <= year <= 400 /\ 1 <= month <= 12
    /\ 1 <= day <= days_in_month year month
    /\ days_before_year year + days_before_month year month + day - 1 = date
    /\ (year = 400 -> 145730 < date).
Proof.
  unfold cycle_days. intros Hd. rewrite ord2ymd_unfold. cbv zeta.
  replace (date + 1 - 1) with date by lia.
  rewrite (Z.div_small date 146097), (Z.mod_small date 146097) by lia.
  pose proof (Z.div_mod date 36524 ltac:(lia)) as E1.
  pose proof (Z.mod_pos_bound date 36524 ltac:(lia)) as B1.
  set (a := date / 36524) in *. set (r1 := date mod 36524) in *.
  pose proof (Z.div_mod r1 1461 ltac:(lia)) as E2.
  pose proof (Z.mod_pos_bound r1 1461 ltac:(lia)) as B2.
  set (b := r1 / 1461) in *. set (r2 := r1 mod 1461) in *.
  pose proof (Z.div_mod r2 365 ltac:(lia)) as E3.
  pose proof (Z.mod_pos_bound r2 365 ltac:(lia)) as B3.
  set (c := r2 / 365) in *. set (r3 := r2 mod 365) in *.
  assert (Ha : 0 <= a <= 4) by lia.
  assert (Hb : 0 <= b <= 24) by lia.
  assert (Hc : 0 <= c <= 4) by lia.
  destruct ((c =? 4) || (a =? 4)) eqn:E.
  - assert (H : exists a' b',
               0 <= a' <= 3 /\ 0 <= b' <= 24
               /\ 0 * 400 + 1 + a * 100 + b * 4 + c - 1
                  = 1 + a' * 100 + b' * 4 + 3
               /\ date = 36524 * a' + 1461 * b' + 1460
               /\ (b' = 24 -> a' = 3)).
    { apply orb_prop in E as [E|E]; apply Z.eqb_eq in E.
      - destruct (Z.eq_dec a 4).
        + exists 3, 24. lia.
        + exists a, b. lia.
      - exists 3, 24. lia. }
    destruct H as [a' [b' [Ha' [Hb' [-> [Hdate Hlast]]]]]].
    destruct (year_table_spec a' b' 3 Ha' Hb' ltac:(lia)) as [Hdays Hleap].
    assert (Hl : is_leap (1 + a' * 100 + b' * 4 + 3) = true).
    { rewrite Hleap. cbn [Z.eqb Pos.eqb andb].
      destruct (Z.eqb_spec b' 24) as [H24|H24]; [|reflexivity].
      rewrite (Hlast H24). reflexivity. }
    exists (1 + a' * 100 + b' * 4 + 3), 12, 31.
    unfold days_in_month, days_before_month. rewrite Hl, Hdays.
    change (Z.to_nat 12) with 12%nat.
    cbn [Z.eqb Pos.eqb Z.ltb Z.compare Pos.compare Pos.compare_cont andb nth].
    repeat split; lia.
  - apply orb_false_elim in E as [Ec Ea].
    apply Z.eqb_neq in Ec, Ea.
    destruct (year_table_spec a b c ltac:(lia) Hb ltac:(lia)) as [Hdays Hleap].
    rewrite <- Hleap.
    set (year := 1 + a * 100 + b * 4 + c) in *.
    pose proof (month_day_table (is_leap year) r3 B3) as H.
    unfold month_day_ok in H.
    destruct (month_day (is_leap year) r3) as [month day]. cbv zeta in H.
    assert (Hrep : is_leap year = is_leap (if is_leap year then 4 else 1))
      by (destruct (is_leap year); reflexivity).
    rewrite <- (days_in_month_leap year _ month Hrep) in H.
    rewrite <- (days_before_month_leap year _ month Hrep) in H.
    repeat (apply andb_prop in H as [H ?]).
    repeat match goal with
           | H : (_ <=? _) = true |- _ => apply Z.leb_le in H
           | H : (_ =? _) = true |- _ => apply Z.eqb_eq in H
           end.
    exists year, month, day.
    replace (0 * 400 + 1 + a * 100 + b * 4 + c) with year by (unfold year; lia).
    repeat split; try lia; unfold year in *; lia.
Qed.

Lemma ord2ymd_cycle (n : Z) :
  ord2ymd n
  = let '(year, month, day) := ord2ymd ((n - 1) mod cycle_days + 1) in
    (year + 400 * ((n - 1) / cycle_days), month, day).
Proof.
  unfold ord2ymd, cycle_days. cbv zeta.
  replace ((n - 1) mod 146097 + 1 - 1) with ((n - 1) mod 146097) by lia.
  rewrite Z.mod_mod by lia.
  rewrite (Z.div_small ((n - 1) mod 146097) 146097)
    by (apply Z.mod_pos_bound; lia).
  set (r := (n - 1) mod 146097). set (q := (n - 1) / 146097).
  destruct (_ || _); [f_equal; f_equal; lia|].
  destruct (_ <? _); f_equal; f_equal; lia.
Qed.

Lemma is_leap_cycle (year k : Z) : is_leap (year + 400 * k) = is_leap year.
Proof.
  unfold is_leap.
  replace (year + 400 * k) with (year + (100 * k) * 4) at 1 by lia.
  replace (year + 400 * k) with (year + (4 * k) * 100) at 1 by lia.
  replace (year + 400 * k) with (year + k * 400) by lia.
  rewrite !Z.mod_add by lia. reflexivity.
Qed.

Lemma days_before_year_cycle (year k : Z) :
  days_before_year (year + 400 * k) = days_before_year year + cycle_days * k.
Proof.
  unfold days_before_year, cycle_days. cbv zeta.
  replace (year + 400 * k - 1) with (year - 1 + (100 * k) * 4) at 2 by lia.
  replace (year + 400 * k - 1) with (year - 1 + (4 * k) * 100) at 2 by lia.
  replace (year + 400 * k - 1) with (year - 1 + k * 400) at 2 by lia.
  rewrite !Z.div_add by lia. lia.
Qed.

(** X24: the text a summary shows for the date of a report is a date the
    ISO format of the importer accepts, and it reads as midnight of that
    day: printing a day and parsing it are inverse. *)
Theorem report_date_reads_back (date : Z) :
  0 <= date <= last_day ->
  strptime (date_str date) fmt_iso = Ok (date * microseconds_per_day).
Proof.
  intros Hd. unfold last_day in Hd. unfold date_str.
  rewrite ord2ymd_cycle.
  replace (date + 1 - 1) with date by lia.
  pose proof (Z.mod_pos_bound date cycle_days ltac:(unfold cycle_days; lia)) as Hr.
  pose proof (Z.div_mod date cycle_days ltac:(unfold cycle_days; lia)) as Hq.
  set (r := date mod cycle_days) in *. set (q := date / cycle_days) in *.
  assert (Hq0 : 0 <= q) by (apply Z.div_pos; unfold cycle_days; lia).
  assert (Hq24 : q <= 24)
    by (apply Z.lt_succ_r, Z.div_lt_upper_bound; unfold cycle_days; lia).
  destruct (ord2ymd_in_cycle r Hr)
    as [year [month [day [-> [Hy [Hm [Hday [Hdays Hlast]]]]]]]].
  assert (Hy' : year + 400 * q <= 9999).
  { destruct (Z.eq_dec year 400) as [E|E]; [|lia].
    specialize (Hlast E). unfold cycle_days in *. lia. }
  rewrite strptime_isoformat.
  - unfold midnight. rewrite days_before_year_cycle.
    unfold days_before_month. rewrite is_leap_cycle.
    fold (days_before_month year month). f_equal. f_equal. lia.
  - lia.
  - lia.
  - unfold days_in_month. rewrite is_leap_cycle.
    fold (days_in_month year month). lia.
Qed.

End Dates.

Section DateRuns.
Import TaskService.

Lemma csv_deadline_both_formats_witness :
  csv_deadline (Some "2024-02-29") = Ok (Some (midnight 2024 2 29))
  /\ csv_deadline (Some "02/29/2024") = Ok (Some (midnight 2024 2 29)).
Proof.
  apply (csv_deadline_both_formats 2024 2 29); vm_compute; split; discriminate.
Defined.

Lemma report_date_reads_back_witness :
  date_str 738944 = "2024-02-29"
  /\ strptime (date_str 738944) fmt_iso = Ok (738944 * microseconds_per_day).
Proof.
  split; [vm_compute; reflexivity|].
  apply (report_date_reads_back 738944). vm_compute. split; discriminate.
Defined.

End DateRuns.

(** ** Status of a Trello card *)

Section TrelloStatus.

(** X25: the status of a Trello card depends on the name of its list
    irrespective of letter case: a name and its lower-case form give the
    same status, so [DONE], [Done] and [done] are one list name. *)
Theorem trello_status_ignores_case (name : string) :
  _trello_status_to_task_status (Ok name)
  = _trello_status_to_task_status (Ok (lower name)).
Proof.
  unfold _trello_status_to_task_status. cbv zeta.
  rewrite lower_idempotent. reflexivity.
Qed.

End TrelloStatus.
